(** * CovenantSQL block-producer control plane: shallow embedding and checked
    properties.

    The development follows the Go sources:
    - [client/config.go]                              (module [DSN]),
    - [blockproducer/interfaces/transaction_wrapper.go] (modules [TxWrapper]
      and [TxEncode]),
    - [rpc/client.go]                                 (modules [RPCClient] and
      [RPCDial]),
    - the block producer's database service           (modules [DBS] and
      [DBSQuery]),
    - the [cql-utils] command                         (module [CqlUtils]).

    Go values are embedded as follows.  Machine integers are [Z] with the
    wrap-around written out where the code can reach it, Go strings are
    [string] (sequences of bytes), byte slices are [list Z] of values below
    256, Go maps are stdpp [gmap]/[gset] (or association lists in iteration
    order where the code ranges over a map), a Go [(value, error)] pair is a
    [result], and a Go panic is the third constructor of [outcome]. *)

From Stdlib Require Import ZArith Lia String Ascii List Permutation Sorted.
From stdpp Require Import base gmap sets list strings sorting.

Set Warnings "-register-all".

Open Scope string_scope.
Open Scope Z_scope.

(** ** Errors and results shared by all packages *)

(** Go [error] values.  The sentinel errors of the repository are constructors
    of their own; [Wrapf] is [errors.Wrapf] of github.com/pkg/errors (the cause
    is kept); [ExtError] is an error produced by a package outside the
    repository (net, net/url, the msgpack codec, kms, rpc). *)
Inductive error : Type :=
  | ErrDatabaseAllocation
  | ErrMetricNotCollected
  | ErrNoSuchDatabase
  | ErrInvalidContainerType
  | ErrInvalidTransactionType
  | ErrTransactionRegistration
  | Wrapf (cause : error) (msg : string)
  | ExtError (msg : string).

(** [errors.Cause]: strips the wrappers. *)
Fixpoint Cause (e : error) : error :=
  match e with
  | Wrapf c _ => Cause c
  | _ => e
  end.

(** A Go [(value, error)] result: [Ok v] is [(v, nil)]. *)
Inductive result (A : Type) : Type :=
  | Ok (a : A)
  | Err (e : error).
Arguments Ok {A} a.
Arguments Err {A} e.

Definition bindR {A B} (r : result A) (k : A -> result B) : result B :=
  match r with
  | Ok a => k a
  | Err e => Err e
  end.

(** A Go call that can also panic. *)
Inductive outcome (A : Type) : Type :=
  | Done (a : A)
  | Fail (e : error)
  | Panic (e : error).
Arguments Done {A} a.
Arguments Fail {A} e.
Arguments Panic {A} e.

(** The run-time panics of Go that the modelled code can reach. *)
Definition indexOutOfRange : error := ExtError "runtime error: index out of range".
Definition nilDereference : error :=
  ExtError "runtime error: invalid memory address or nil pointer dereference".

(** ** client/config.go: DSN formatting and parsing *)

Module DSN.

(** *** Bytes of a Go string *)

Definition byteIn (lo hi c : ascii) : bool :=
  (Ascii.leb lo c && Ascii.leb c hi)%bool.

Definition isAlpha (c : ascii) : bool :=
  (byteIn "a" "z" c || byteIn "A" "Z" c)%bool.

Definition isDigit (c : ascii) : bool := byteIn "0" "9" c.

Definition isAlnum (c : ascii) : bool := (isAlpha c || isDigit c)%bool.

(** net/url [ishex]. *)
Definition ishex (c : ascii) : bool :=
  (byteIn "0" "9" c || byteIn "a" "f" c || byteIn "A" "F" c)%bool.

(** net/url [unhex]. *)
Definition unhex (c : ascii) : N :=
  if byteIn "0" "9" c then (N_of_ascii c - N_of_ascii "0")%N
  else if byteIn "a" "f" c then (N_of_ascii c - N_of_ascii "a" + 10)%N
  else if byteIn "A" "F" c then (N_of_ascii c - N_of_ascii "A" + 10)%N
  else 0%N.

Definition memByte (c : ascii) (cs : list ascii) : bool :=
  existsb (Ascii.eqb c) cs.

Fixpoint string_forallb (p : ascii -> bool) (s : string) : bool :=
  match s with
  | EmptyString => true
  | String c r => (p c && string_forallb p r)%bool
  end.

Definition containsByte (c : ascii) (s : string) : bool :=
  negb (string_forallb (fun a => negb (Ascii.eqb a c)) s).

(** [strings.Cut(s, sep)] for a one-byte separator: the text before and after
    the first occurrence, [None] when there is none. *)
Fixpoint cutByte (c : ascii) (s : string) : option (string * string) :=
  match s with
  | EmptyString => None
  | String a r =>
      if Ascii.eqb a c then Some (EmptyString, r)
      else match cutByte c r with
           | Some (b, t) => Some (String a b, t)
           | None => None
           end
  end.

(** The split at [strings.LastIndex(s, sep)] for a one-byte separator. *)
Fixpoint cutLastByte (c : ascii) (s : string) : option (string * string) :=
  match s with
  | EmptyString => None
  | String a r =>
      match cutLastByte c r with
      | Some (b, t) => Some (String a b, t)
      | None => if Ascii.eqb a c then Some (EmptyString, r) else None
      end
  end.

Fixpoint countByte (c : ascii) (s : string) : nat :=
  match s with
  | EmptyString => O
  | String a r => ((if Ascii.eqb a c then 1 else 0) + countByte c r)%nat
  end.

Fixpoint lastByte (s : string) : option ascii :=
  match s with
  | EmptyString => None
  | String a EmptyString => Some a
  | String _ r => lastByte r
  end.

Fixpoint dropLastByte (s : string) : string :=
  match s with
  | EmptyString => EmptyString
  | String _ EmptyString => EmptyString
  | String a r => String a (dropLastByte r)
  end.

(** [strings.ToLower] on the ASCII letters. *)
Definition lowerByte (c : ascii) : ascii :=
  if byteIn "A" "Z" c then ascii_of_N (N_of_ascii c + 32) else c.

Fixpoint ToLower (s : string) : string :=
  match s with
  | EmptyString => EmptyString
  | String a r => String (lowerByte a) (ToLower r)
  end.

(** [strings.HasPrefix(s, p)]. *)
Fixpoint HasPrefix (s p : string) {struct p} : bool :=
  match p with
  | EmptyString => true
  | String b p' =>
      match s with
      | EmptyString => false
      | String a s' => (Ascii.eqb a b && HasPrefix s' p')%bool
      end
  end.

(** *** net/url *)

Inductive encoding : Type :=
  | encodePath
  | encodePathSegment
  | encodeHost
  | encodeZone
  | encodeUserPassword
  | encodeQueryComponent
  | encodeFragment.

Definition isHostMode (m : encoding) : bool :=
  match m with
  | encodeHost | encodeZone => true
  | _ => false
  end.

(** net/url [shouldEscape]. *)
Definition shouldEscape (c : ascii) (mode : encoding) : bool :=
  if isAlnum c then false
  else if (isHostMode mode &&
           memByte c ["!"; "$"; "&"; "'"; "("; ")"; "*"; "+"; ","; ";"; "=";
                      ":"; "["; "]"; "<"; ">"; "034"]%char)%bool then false
  else if memByte c ["-"; "_"; "."; "~"]%char then false
  else if memByte c ["$"; "&"; "+"; ","; "/"; ":"; ";"; "="; "?"; "@"]%char then
    match mode with
    | encodePath => Ascii.eqb c "?"
    | encodePathSegment => memByte c ["/"; ";"; ","; "?"]%char
    | encodeUserPassword => memByte c ["@"; "/"; "?"; ":"]%char
    | encodeQueryComponent => true
    | encodeFragment => false
    | encodeHost | encodeZone => true
    end
  else match mode with
       | encodeFragment => negb (memByte c ["!"; "("; ")"; "*"]%char)
       | _ => true
       end.

Definition upperhex (n : N) : ascii :=
  if (n <? 10)%N then ascii_of_N (N_of_ascii "0" + n)
  else ascii_of_N (N_of_ascii "A" + (n - 10)).

(** net/url [escape]. *)
Fixpoint escape (s : string) (mode : encoding) : string :=
  match s with
  | EmptyString => EmptyString
  | String c r =>
      if shouldEscape c mode then
        if (Ascii.eqb c " " &&
            match mode with encodeQueryComponent => true | _ => false end)%bool
        then String "+" (escape r mode)
        else String "%" (String (upperhex (N_of_ascii c / 16))
                           (String (upperhex (N_of_ascii c mod 16)) (escape r mode)))
      else String c (escape r mode)
  end.

Definition EscapeError (s : string) : error :=
  ExtError ("invalid URL escape " ++ s).
Definition InvalidHostError (s : string) : error :=
  ExtError ("invalid character " ++ s ++ " in host name").

(** net/url [unescape]: the validation pass and the decoding pass of the Go
    function in one traversal (the first offending byte decides the error in
    both). *)
Fixpoint unescape (s : string) (mode : encoding) : result string :=
  match s with
  | EmptyString => Ok EmptyString
  | String c r =>
      if Ascii.eqb c "%" then
        match r with
        | String a (String b r') =>
            if (ishex a && ishex b)%bool then
              let v := ascii_of_N (unhex a * 16 + unhex b) in
              let esc := String c (String a (String b EmptyString)) in
              if (match mode with encodeHost => true | _ => false end &&
                  (unhex a <? 8)%N && negb (String.eqb esc "%25"))%bool
              then Err (EscapeError esc)
              else if (match mode with encodeZone => true | _ => false end &&
                       negb (String.eqb esc "%25") && negb (Ascii.eqb v " ") &&
                       shouldEscape v encodeHost)%bool
              then Err (EscapeError esc)
              else bindR (unescape r' mode) (fun t => Ok (String v t))
            else Err (EscapeError (String c (String a (String b EmptyString))))
        | _ => Err (EscapeError (String c r))
        end
      else if (Ascii.eqb c "+" &&
               match mode with encodeQueryComponent => true | _ => false end)%bool
      then bindR (unescape r mode) (fun t => Ok (String " " t))
      else if (isHostMode mode && (N_of_ascii c <? 128)%N &&
               shouldEscape c encodeHost)%bool
      then Err (InvalidHostError (String c EmptyString))
      else bindR (unescape r mode) (fun t => Ok (String c t))
  end.

(** [url.Userinfo]: a user name and an optional password. *)
Record Userinfo : Type := mkUserinfo {
  username : string;
  password : option string
}.

(** [url.URL]. *)
Record URL : Type := mkURL {
  Scheme : string;
  Opaque : string;
  User : option Userinfo;
  Host : string;
  Path : string;
  RawPath : string;
  ForceQuery : bool;
  RawQuery : string;
  Fragment : string
}.

(** net/url [getScheme]: [Ok (scheme, rest)]. *)
Fixpoint getSchemeFrom (first : bool) (s : string) : result (option (string * string)) :=
  match s with
  | EmptyString => Ok None
  | String c r =>
      if isAlpha c then
        bindR (getSchemeFrom false r) (fun o =>
          Ok (match o with
              | Some (sch, rest) => Some (String c sch, rest)
              | None => None
              end))
      else if (isDigit c || memByte c ["+"; "-"; "."]%char)%bool then
        if first then Ok None
        else bindR (getSchemeFrom false r) (fun o =>
          Ok (match o with
              | Some (sch, rest) => Some (String c sch, rest)
              | None => None
              end))
      else if Ascii.eqb c ":" then
        if first then Err (ExtError "missing protocol scheme")
        else Ok (Some (EmptyString, r))
      else Ok None
  end.

Definition getScheme (rawURL : string) : result (string * string) :=
  bindR (getSchemeFrom true rawURL) (fun o =>
    Ok (match o with
        | Some p => p
        | None => (EmptyString, rawURL)
        end)).

(** net/url [validOptionalPort]: empty, or a colon followed by digits. *)
Definition validOptionalPort (port : string) : bool :=
  match port with
  | EmptyString => true
  | String c r => (Ascii.eqb c ":" && string_forallb isDigit r)%bool
  end.

(** net/url [validUserinfo]. *)
Definition validUserinfo (s : string) : bool :=
  string_forallb (fun c =>
    (isAlnum c ||
     memByte c ["-"; "."; "_"; ":"; "~"; "!"; "$"; "&"; "'"; "("; ")"; "*";
                "+"; ","; ";"; "="; "%"; "@"]%char)%bool) s.

(** The split of [s] at the first occurrence of [sep] ([strings.Index]). *)
Definition cutAtIndex (sep s : string) : option (string * string) :=
  match String.index 0 sep s with
  | Some i => Some (String.substring 0 i s,
                    String.substring i (String.length s - i) s)
  | None => None
  end.

(** net/url [parseHost]. *)
Definition parseHost (host : string) : result string :=
  let plain := unescape host encodeHost in
  if HasPrefix host "[" then
    match cutLastByte "]" host with
    | None => Err (ExtError "missing ']' in host")
    | Some (lit, colonPort) =>
        if negb (validOptionalPort colonPort)
        then Err (ExtError "invalid port after host")
        else match cutAtIndex "%25" lit with
             | Some (h1, h2) =>
                 bindR (unescape h1 encodeHost) (fun host1 =>
                 bindR (unescape h2 encodeZone) (fun host2 =>
                 bindR (unescape (String "]" colonPort) encodeHost) (fun host3 =>
                 Ok (host1 ++ host2 ++ host3))))
             | None => plain
             end
    end
  else
    match cutLastByte ":" host with
    | Some (_, port) =>
        if negb (validOptionalPort (String ":" port))
        then Err (ExtError "invalid port after host")
        else plain
    | None => plain
    end.

(** net/url [parseAuthority]. *)
Definition parseAuthority (authority : string) : result (option Userinfo * string) :=
  match cutLastByte "@" authority with
  | None => bindR (parseHost authority) (fun h => Ok (None, h))
  | Some (userinfo, hostpart) =>
      bindR (parseHost hostpart) (fun h =>
        if negb (validUserinfo userinfo)
        then Err (ExtError "net/url: invalid userinfo")
        else match cutByte ":" userinfo with
             | None =>
                 bindR (unescape userinfo encodeUserPassword) (fun u =>
                 Ok (Some (mkUserinfo u None), h))
             | Some (u, p) =>
                 bindR (unescape u encodeUserPassword) (fun u' =>
                 bindR (unescape p encodeUserPassword) (fun p' =>
                 Ok (Some (mkUserinfo u' (Some p')), h)))
             end)
  end.

Definition isCTL (c : ascii) : bool :=
  ((N_of_ascii c <? 32)%N || Ascii.eqb c "127")%bool.

(** The query part of net/url [parse]: a lone trailing question mark forces an
    empty query, otherwise the text is cut at the first question mark. *)
Definition splitQuery (rest : string) : string * bool * string :=
  if (match lastByte rest with Some c => Ascii.eqb c "?" | None => false end
      && Nat.eqb (countByte "?" rest) 1)%bool
  then (dropLastByte rest, true, EmptyString)
  else match cutByte "?" rest with
       | Some (b, q) => (b, false, q)
       | None => (rest, false, EmptyString)
       end.

(** The hierarchical part of net/url [parse] (with [viaRequest = false]):
    opaque rest, authority and path. *)
Definition parseHier (scheme rest : string) (force : bool) (query : string)
  : result URL :=
  if (negb (HasPrefix rest "/") && negb (String.eqb scheme ""))%bool
  then Ok (mkURL scheme rest None "" "" "" force query "")
  else if (negb (HasPrefix rest "/") &&
           containsByte ":" (match cutByte "/" rest with
                             | Some (seg, _) => seg
                             | None => rest
                             end))%bool
  then Err (ExtError "first path segment in URL cannot contain colon")
  else
    let withAuthority :=
      ((negb (String.eqb scheme "") || negb (HasPrefix rest "///"))
       && HasPrefix rest "//")%bool in
    let after := String.substring 2 (String.length rest - 2) rest in
    let '(authority, rest') :=
      if withAuthority then
        match cutByte "/" after with
        | Some (a, p) => (a, String "/" p)
        | None => (after, EmptyString)
        end
      else (EmptyString, rest) in
    bindR (if withAuthority then parseAuthority authority
           else Ok (None, EmptyString)) (fun '(user, host) =>
    bindR (unescape rest' encodePath) (fun path =>
    Ok (mkURL scheme "" user host path
          (if String.eqb rest' (escape path encodePath) then "" else rest')
          force query ""))).

(** net/url [parse] with [viaRequest = false]. *)
Definition parse (rawURL : string) : result URL :=
  if negb (string_forallb (fun c => negb (isCTL c)) rawURL)
  then Err (ExtError "net/url: invalid control character in URL")
  else if String.eqb rawURL "*"
  then Ok (mkURL "" "" None "" "*" "" false "" "")
  else
    bindR (getScheme rawURL) (fun '(scheme, rest) =>
    let '(rest, force, query) := splitQuery rest in
    parseHier (ToLower scheme) rest force query).

(** [url.Parse]: the fragment is cut off first. *)
Definition url_Parse (rawURL : string) : result URL :=
  let '(u, frag) := match cutByte "#" rawURL with
                    | Some (u, f) => (u, f)
                    | None => (rawURL, EmptyString)
                    end in
  bindR (parse u) (fun url =>
    if String.eqb frag "" then Ok url
    else bindR (unescape frag encodeFragment) (fun f =>
      Ok (mkURL (Scheme url) (Opaque url) (User url) (Host url) (Path url)
                (RawPath url) (ForceQuery url) (RawQuery url) f))).

(** [URL.String] for a URL value that has no user information; the paths
    and fragments are written in their escaped form. *)
Definition url_String (u : URL) : string :=
  let path := escape (Path u) encodePath in
  (if String.eqb (Scheme u) "" then "" else Scheme u ++ ":") ++
  (if negb (String.eqb (Opaque u) "") then Opaque u
   else
     (if (negb (String.eqb (Scheme u) "") || negb (String.eqb (Host u) ""))%bool
      then (if (negb (String.eqb (Host u) "") || negb (String.eqb (Path u) ""))%bool
            then "//" else "") ++
           (if String.eqb (Host u) "" then "" else escape (Host u) encodeHost)
      else "") ++
     (if (negb (String.eqb path "") &&
          negb (HasPrefix path "/") && negb (String.eqb (Host u) ""))%bool
      then "/" else "") ++
     path) ++
  (if (ForceQuery u || negb (String.eqb (RawQuery u) ""))%bool
   then "?" ++ RawQuery u else "") ++
  (if String.eqb (Fragment u) "" then ""
   else "#" ++ escape (Fragment u) encodeFragment).

(** *** The package itself *)

(** Modelled from the spec: the constant [DBScheme], declared outside the
    files at hand; scenario S4 writes DSNs as [covenantsql://...]. *)
Definition DBScheme : string := "covenantsql".

(** [Config]. *)
Record Config : Type := mkConfig {
  DatabaseID : string
}.

(** [NewConfig]. *)
Definition NewConfig : Config := mkConfig "".

(** [Config.FormatDSN]: [u.Query()] of the fresh URL is empty and encodes
    to the empty raw query. *)
Definition FormatDSN (cfg : Config) : string :=
  url_String (mkURL DBScheme "" None (DatabaseID cfg) "" "" false "" "").

Section ParseDSN.

(** [DBSchemeAlias], the second accepted scheme, is declared outside the files
    at hand. *)
Variable DBSchemeAlias : string.

(** [ParseDSN]. *)
Definition ParseDSN (dsn : string) : result Config :=
  let dsn := if (negb (HasPrefix dsn DBScheme) &&
                 negb (HasPrefix dsn DBSchemeAlias))%bool
             then DBScheme ++ "://" ++ dsn else dsn in
  bindR (url_Parse dsn) (fun u => Ok (mkConfig (Host u))).

End ParseDSN.

(** A hex string: every byte is a hexadecimal digit. *)
Definition isHexString (s : string) : bool := string_forallb ishex s.

End DSN.

(** ** blockproducer/interfaces/transaction_wrapper.go: the transaction envelope *)

Module TxWrapper.

(** A msgpack value as the decode driver of the codec reads it.  [MUint] is an
    unsigned integer (positive fixint, uint8 .. uint64), [MInt] a signed one
    (negative fixint, int8 .. int64). *)
Inductive msgpack : Type :=
  | MNil
  | MBool (b : bool)
  | MUint (n : Z)
  | MInt (n : Z)
  | MStr (s : string)
  | MBin (b : list Z)
  | MArray (elems : list msgpack)
  | MMap (entries : list (msgpack * msgpack)).

(** The codec's [valueType] codes; the source copies [valueTypeArray = 10]. *)
Definition valueTypeUnset : Z := 0.
Definition valueTypeNil : Z := 1.
Definition valueTypeString : Z := 6.
Definition valueTypeBytes : Z := 8.
Definition valueTypeMap : Z := 9.
Definition valueTypeArray : Z := 10.

(** [decDriver.ContainerType] of the msgpack driver. *)
Definition ContainerType (v : msgpack) : Z :=
  match v with
  | MNil => valueTypeNil
  | MBin _ => valueTypeBytes
  | MStr _ => valueTypeString
  | MArray _ => valueTypeArray
  | MMap _ => valueTypeMap
  | _ => valueTypeUnset
  end.

(** [decDriver.ReadArrayStart]: the elements of the array that starts here
    (their number is the container length); a nil reads as a container without
    elements, anything else is an error of the codec. *)
Definition ReadArrayStart (v : msgpack) : result (list msgpack) :=
  match v with
  | MArray elems => Ok elems
  | MNil => Ok []
  | _ => Err (ExtError "cannot read container length")
  end.

(** [decDriver.TryDecodeAsNil]. *)
Definition TryDecodeAsNil (v : msgpack) : bool :=
  match v with
  | MNil => true
  | _ => false
  end.

(** [decDriver.DecodeUint64]: an error of the codec on anything but a
    non-negative integer. *)
Definition DecodeUint64 (v : msgpack) : result Z :=
  match v with
  | MUint n => Ok n
  | MInt n =>
      if 0 <=? n then Ok n
      else Err (ExtError "Assigning negative signed value to unsigned type")
  | _ => Err (ExtError "Unhandled single-byte unsigned integer value")
  end.

(** [helperDecoder.C.UintV(v, bitsize)]: the overflow check of the codec. *)
Definition UintV (v : Z) (bitsize : Z) : result Z :=
  if v <? 2 ^ bitsize then Ok v else Err (ExtError "uint64 overflow").

(** A [reflect.Type]: its name, whether its kind is [reflect.Ptr], and whether
    it implements the [Transaction] interface. *)
Record rtype : Type := mkRtype {
  rt_name : string;
  rt_isPtr : bool;
  rt_implementsTx : bool
}.

Definition rtype_eqb (a b : rtype) : bool :=
  (String.eqb (rt_name a) (rt_name b) && Bool.eqb (rt_isPtr a) (rt_isPtr b)
   && Bool.eqb (rt_implementsTx a) (rt_implementsTx b))%bool.

(** [txWrapperType], the reflected type of a [TransactionWrapper] pointer: a pointer
    type; the embedded interface makes it implement [Transaction]. *)
Definition txWrapperType : rtype :=
  mkRtype "*interfaces.TransactionWrapper" true true.

(** [txTypeMapping], the registry from type tag to registered type. *)
Abbreviation registry := (gmap Z rtype).

Section Codec.

(** Values that implement the [Transaction] interface. *)
Variable Transaction : Type.

(** [reflect.TypeOf(tx)]. *)
Variable TypeOf : Transaction -> rtype.

(** [reflect.New(rt.Elem()).Interface()]: a pointer to a fresh zero value of
    the pointed-to type. *)
Variable newPtr : rtype -> Transaction.

(** [reflect.New(rt).Elem().Interface()]: a fresh zero value of [rt]. *)
Variable newValue : rtype -> Transaction.

(** [helperDecoder.DecFallback(&w.Transaction, true)]: the codec decodes the
    body into the value held by the interface. *)
Variable DecFallback : option Transaction -> msgpack -> result (option Transaction).

(** The handle option [ErrorIfNoField] consulted by
    [DecStructFieldNotFound]. *)
Variable ErrorIfNoField : bool.

(** [RegisterTransaction]; [tx = None] is the nil interface. *)
Definition RegisterTransaction (t : Z) (tx : option Transaction) (reg : registry)
  : outcome registry :=
  match tx with
  | None => Panic ErrTransactionRegistration
  | Some v =>
      let rt := TypeOf v in
      if rtype_eqb rt txWrapperType then Panic ErrTransactionRegistration
      else Done (<[t := rt]> reg)
  end.

(** [NewTransaction]. *)
Definition NewTransaction (reg : registry) (t : Z) : result Transaction :=
  match reg !! t with
  | None => Err (Wrapf ErrInvalidTransactionType "transaction not registered")
  | Some rt =>
      if (negb (rt_implementsTx rt) || rtype_eqb rt txWrapperType)%bool
      then Err (Wrapf ErrInvalidTransactionType "invalid transaction registered")
      else if rt_isPtr rt then Ok (newPtr rt)
      else Ok (newValue rt)
  end.

(** [helperDecoder.DecStructFieldNotFound(i, name)]: an error when the handle
    asks for one, otherwise the element is swallowed. *)
Definition DecStructFieldNotFound (i : nat) : result unit :=
  if ErrorIfNoField
  then Err (ExtError "no matching struct field found when decoding stream array")
  else Ok tt.

(** The loop of [CodecDecodeSelf] from index [i] on; [tx] is [w.Transaction].
    [CheckBreak] of the msgpack driver is always false. *)
Fixpoint decodeElems (reg : registry) (i : nat) (elems : list msgpack)
    (tx : option Transaction) : result (option Transaction) :=
  match elems with
  | [] => Ok tx
  | e :: rest =>
      match i with
      | O =>
          if TryDecodeAsNil e then Err ErrInvalidTransactionType
          else
            bindR (DecodeUint64 e) (fun v =>
            bindR (UintV v 32) (fun txType =>
            bindR (NewTransaction reg txType) (fun t =>
            decodeElems reg 1 rest (Some t))))
      | S O =>
          if negb (TryDecodeAsNil e)
          then bindR (DecFallback tx e) (fun tx' => decodeElems reg 2 rest tx')
          else decodeElems reg 2 rest tx
      | _ =>
          bindR (DecStructFieldNotFound i) (fun _ => decodeElems reg (S i) rest tx)
      end
  end.

(** [TransactionWrapper.CodecDecodeSelf] on the next value [v] of the stream.
    The result is [w.Transaction]; a panic of the method is recovered by the
    codec's [Decode], which returns it as the error of the decoding.  The
    wrapping message, which prints the container type, is kept short. *)
Definition CodecDecodeSelf (reg : registry) (v : msgpack) : result (option Transaction) :=
  let ct := ContainerType v in
  if negb (ct =? valueTypeArray)
  then Err (Wrapf ErrInvalidContainerType "type applied")
  else bindR (ReadArrayStart v) (fun elems => decodeElems reg 0 elems None).

End Codec.

(** The registry invariant that [RegisterTransaction] maintains: the wrapper
    type itself is never registered. *)
Definition registryOK (reg : registry) : Prop :=
  forall t rt, reg !! t = Some rt -> rtype_eqb rt txWrapperType = false.

End TxWrapper.

(** ** rpc/client.go: the outbound dial *)

Module RPCClient.

(** The little-endian bytes of an unsigned integer, lowest byte first. *)
Fixpoint leBytes (n : nat) (v : Z) : list Z :=
  match n with
  | O => []
  | S k => (v mod 256) :: leBytes k (v / 256)
  end.

(** Modelled from the spec: [cpuminer.Uint256.Bytes], declared outside the
    files at hand.  A [Uint256] is a 256-bit little-endian integer, here a [Z]
    below [2^256]; its bytes are the 32 bytes of that form. *)
Definition Uint256_Bytes (v : Z) : list Z := leBytes 32 v.

Section Dial.

(** [net.Conn], [etls.Cipher]. *)
Variables Conn Cipher : Type.

(** [etls.CryptoConn] as built by [etls.NewConn(conn, cipher, nodeID)]. *)
Record CryptoConn : Type := NewConn {
  cc_Conn : Conn;
  cc_Cipher : Cipher;
  cc_NodeID : list Z
}.

(** The collaborators of [dial]: the network and the key management
    service. *)
Record Net : Type := mkNet {
  net_Dial : string -> string -> result Conn;
  conn_Write : Conn -> list Z -> Z * option error;
  AnonymousRawNodeID : list Z;
  GetLocalNodeIDBytes : result (list Z);
  GetLocalNonce : result Z
}.

(** The prelude [dial] writes, or the error that stops it before writing. *)
Definition prelude (net : Net) (isAnonymous : bool) : result (list Z) :=
  if isAnonymous
  then Ok (AnonymousRawNodeID net ++ Uint256_Bytes 0)%list
  else
    bindR (GetLocalNodeIDBytes net) (fun nodeIDBytes =>
    bindR (GetLocalNonce net) (fun nonce =>
    Ok (nodeIDBytes ++ Uint256_Bytes nonce)%list)).

(** [dial]: the pair of named results [(c, err)]; both can be nil. *)
Definition dial (net : Net) (network address : string) (remoteNodeID : list Z)
    (cipher : Cipher) (isAnonymous : bool) : option CryptoConn * option error :=
  match net_Dial net network address with
  | Err e => (None, Some e)
  | Ok conn =>
      match prelude net isAnonymous with
      | Err e => (None, Some e)
      | Ok writeBuf =>
          let '(wrote, err) := conn_Write net conn writeBuf in
          if (bool_decide (err <> None) ||
              negb (wrote =? Z.of_nat (length writeBuf)))%bool
          then (None, err)
          else (Some (NewConn conn cipher remoteNodeID), err)
      end
  end.

End Dial.

Arguments NewConn {Conn Cipher} _ _ _.
Arguments mkNet {Conn} _ _ _ _ _.
Arguments net_Dial {Conn} _ _ _.
Arguments conn_Write {Conn} _ _ _.
Arguments AnonymousRawNodeID {Conn} _.
Arguments GetLocalNodeIDBytes {Conn} _.
Arguments GetLocalNonce {Conn} _.
Arguments prelude {Conn} _ _.
Arguments dial {Conn Cipher} _ _ _ _ _ _.

End RPCClient.

(** ** The block producer's database service *)

Module DBS.

(** *** Machine integers *)

(** Go [int] on a 64-bit platform and [uint64]: the value an arithmetic result
    wraps to. *)
Definition wrapInt (z : Z) : Z := (z + 2 ^ 63) mod 2 ^ 64 - 2 ^ 63.
Definition wrapU64 (z : Z) : Z := z mod 2 ^ 64.

(** *** Data model *)

Abbreviation NodeID := string.
Abbreviation DatabaseID := string.

(** Key material and signatures are opaque to the service. *)
Abbreviation PublicKey := string.
Abbreviation PrivateKey := string.
Abbreviation SignatureT := string.

(** Modelled from the spec: [proto.ServerRole], declared outside the files at
    hand, with the roles a node descriptor can carry. *)
Inductive ServerRole : Type :=
  | Leader
  | Follower
  | Miner.

#[global] Instance ServerRole_eq_dec : EqDecision ServerRole.
Proof. solve_decision. Defined.

(** [proto.Node]. *)
Record Node : Type := mkNode {
  Node_ID : NodeID;
  Node_Role : ServerRole;
  Node_Addr : string;
  Node_PublicKey : PublicKey
}.

(** [kayak.Server]. *)
Record Server : Type := mkServer {
  Server_Role : ServerRole;
  Server_ID : NodeID;
  Server_PubKey : PublicKey
}.

(** [kayak.Peers].  [Servers] is a slice of pointers, an entry can be nil;
    [Leader] points to [Servers[0]] and is kept as a copy of it. *)
Record Peers : Type := mkPeers {
  Peers_Term : Z;
  Peers_Leader : option Server;
  Peers_Servers : list (option Server);
  Peers_PubKey : PublicKey;
  Peers_Signature : option SignatureT
}.

(** [wt.ResourceMeta]: the requested node count and memory in bytes. *)
Record ResourceMeta : Type := mkResourceMeta {
  ResourceMeta_Node : Z;
  ResourceMeta_Memory : Z
}.

(** [ct.Header] and [ct.Block] of a genesis block. *)
Record Header : Type := mkHeader {
  Header_Version : Z;
  Header_Producer : NodeID;
  Header_GenesisHash : list Z;
  Header_ParentHash : list Z;
  Header_Timestamp : Z
}.

Record Block : Type := mkBlock {
  Block_Header : Header;
  Block_Signature : option SignatureT
}.

(** [wt.ServiceInstance]. *)
Record ServiceInstance : Type := mkServiceInstance {
  ServiceInstance_DatabaseID : DatabaseID;
  ServiceInstance_Peers : option Peers;
  ServiceInstance_ResourceMeta : ResourceMeta;
  ServiceInstance_GenesisBlock : option Block
}.

(** The zero value of [wt.ResourceMeta]. *)
Definition zeroResourceMeta : ResourceMeta := mkResourceMeta 0 0.

(** [wt.UpdateServiceOp] and [wt.UpdateService]. *)
Inductive UpdateServiceOp : Type :=
  | CreateDB
  | UpdateDB
  | DropDB.

Record UpdateService : Type := mkUpdateService {
  UpdateService_Op : UpdateServiceOp;
  UpdateService_Instance : ServiceInstance;
  UpdateService_Signee : option PublicKey;
  UpdateService_Signature : option SignatureT
}.

(** The requests and responses of the service. *)
Record CreateDatabaseRequest : Type := mkCreateDatabaseRequest {
  CreateDatabaseRequest_ResourceMeta : ResourceMeta;
  CreateDatabaseRequest_NodeID : list Z
}.

Record CreateDatabaseResponse : Type := mkCreateDatabaseResponse {
  CreateDatabaseResponse_InstanceMeta : ServiceInstance;
  CreateDatabaseResponse_Signature : option SignatureT
}.

Record DropDatabaseRequest : Type := mkDropDatabaseRequest {
  DropDatabaseRequest_DatabaseID : DatabaseID
}.

(** Prometheus metric families ([dto.MetricFamily]).  A gauge or counter value
    is kept as the [uint64] that the conversion of its [float64] yields; a
    missing gauge or counter reads as zero through the nil-safe getters. *)
Inductive MetricType : Type :=
  | MetricType_COUNTER
  | MetricType_GAUGE
  | MetricType_SUMMARY
  | MetricType_UNTYPED
  | MetricType_HISTOGRAM.

Record Metric : Type := mkMetric {
  Metric_Gauge : option Z;
  Metric_Counter : option Z
}.

Record MetricFamily : Type := mkMetricFamily {
  MetricFamily_Type : MetricType;
  MetricFamily_Metric : list Metric
}.

(** [metric.MetricMap]: a map from metric name to a pointer that can be nil. *)
Abbreviation MetricMap := (gmap string (option MetricFamily)).

(** [allocatedNode]. *)
Record allocatedNode : Type := mkAllocatedNode {
  allocatedNode_NodeID : NodeID;
  allocatedNode_MemoryMetric : Z
}.

(** [DefaultAllocationRounds] and [MetricKeyFreeMemory]. *)
Definition DefaultAllocationRounds : Z := 3.

Definition MetricKeyFreeMemory : list string :=
  ["node_memory_free_bytes_total"; "node_memory_MemFree_bytes"].

(** The in-memory index of the service map. *)
Abbreviation ServiceMapT := (gmap string ServiceInstance).

(** One query of the consistent-hash ring. *)
Record RingQuery : Type := mkRingQuery {
  RingQuery_key : string;
  RingQuery_range : Z;
  RingQuery_roles : list ServerRole
}.

(** One [CallNode] of a fan-out: target, method, request (nil or not). *)
Record Call : Type := mkCall {
  Call_target : NodeID;
  Call_method : string;
  Call_req : option UpdateService
}.

(** The mutations the service map commits to the consensus-replicated
    store. *)
Inductive StoreOp : Type :=
  | StoreSet (instance : ServiceInstance)
  | StoreDelete (dbID : DatabaseID).

(** [DBService].  [Consistent] and [NodeMetrics] are kept as the one method
    the service calls on each; [NodeMetrics.GetMetrics] returns a Go map, given
    here as the list of its entries in the order the [range] loop visits
    them. *)
Record DBService : Type := mkDBService {
  AllocationRounds : Z;
  ServiceMap : ServiceMapT;
  Consistent_GetNeighborsEx : string -> Z -> list ServerRole -> list Node * option error;
  NodeMetrics_GetMetrics : list NodeID -> list (NodeID * MetricMap);
  includeBPNodesForAllocation : bool
}.

(** The collaborators outside the service: key management, routing, signing,
    the RPC caller, the clock, the durable store and the hash function.  A
    signing function computes the signature that the [Sign] method stores in
    the signed value.  [arrival] is the order in which the goroutines of one
    fan-out deliver their result to the error channel. *)
Record Env : Type := mkEnv {
  GetLocalPublicKey : result PublicKey;
  GetLocalPrivateKey : result PrivateKey;
  GetLocalNodeID : result NodeID;
  GetBPs : list NodeID;
  Peers_Sign : PrivateKey -> Peers -> result SignatureT;
  CreateDatabaseRequest_Verify : CreateDatabaseRequest -> option error;
  DropDatabaseRequest_Verify : DropDatabaseRequest -> option error;
  UpdateService_Sign : PrivateKey -> UpdateService -> result SignatureT;
  CreateDatabaseResponse_Sign : PrivateKey -> CreateDatabaseResponse -> result SignatureT;
  PackAndSignBlock : PrivateKey -> Block -> result SignatureT;
  Now : Z;
  CallNode : NodeID -> string -> option UpdateService -> option error;
  arrival : list NodeID -> list NodeID;
  storeCommit : StoreOp -> option error;
  hashFn : list Z -> list Z
}.

(** [route.DBSDeploy.String()]. *)
Definition DBSDeploy : string := "DBS.Deploy".

(** *** sort.Slice *)

(** One insertion step of the insertion sort: [rp] is the sorted prefix in
    reverse; the new element moves left past every element it is less than. *)
Fixpoint insertLess {A} (less : A -> A -> bool) (x : A) (rp : list A) : list A :=
  match rp with
  | [] => [x]
  | y :: rp' => if less x y then y :: insertLess less x rp' else x :: rp
  end.

(** [sort.Slice(data, less)]: Go's sort does a plain insertion sort on short
    slices (up to twelve elements); the embedding takes that algorithm at
    every length.  On longer slices the library sorts with an unstable
    quicksort: there the embedding agrees with the code on the elements and on
    their order by the key, not on the order among elements that compare
    equal. *)
Definition sortSlice {A} (less : A -> A -> bool) (data : list A) : list A :=
  rev (fold_left (fun rp x => insertLess less x rp) data []).

(** *** Service map *)

(** Modelled from the spec: [DBServiceMap.Get], defined outside the files at
    hand.  Reads are served from the in-memory index, a miss is
    [ErrNoSuchDatabase]. *)
Definition ServiceMap_Get (m : ServiceMapT) (dbID : DatabaseID) : result ServiceInstance :=
  match m !! dbID with
  | Some instance => Ok instance
  | None => Err ErrNoSuchDatabase
  end.

(** Modelled from the spec: [DBServiceMap.Set], defined outside the files at
    hand.  The write is committed to the store first and the index updated
    only after the acknowledgement. *)
Definition ServiceMap_Set (env : Env) (m : ServiceMapT) (instance : ServiceInstance)
  : ServiceMapT * option error :=
  match storeCommit env (StoreSet instance) with
  | Some e => (m, Some e)
  | None => (<[ServiceInstance_DatabaseID instance := instance]> m, None)
  end.

(** Modelled from the spec: [DBServiceMap.Delete], defined outside the files
    at hand; it commits like [ServiceMap_Set]. *)
Definition ServiceMap_Delete (env : Env) (m : ServiceMapT) (dbID : DatabaseID)
  : ServiceMapT * option error :=
  match storeCommit env (StoreDelete dbID) with
  | Some e => (m, Some e)
  | None => (delete dbID m, None)
  end.

(** *** The proof-of-work miner *)

(** Modelled from the spec: [cpuminer.Uint256.Inc], defined outside the files
    at hand: the search cursor steps by one, wrapping at [2^256]. *)
Definition Uint256_Inc (v : Z) : Z := (v + 1) mod 2 ^ 256.

(** The number of leading zero bits of one byte. *)
Definition byteLeadingZeros (b : Z) : Z :=
  if b =? 0 then 8 else 7 - Z.log2 b.

(** Modelled from the spec: the difficulty of a hash ([hash.Hash.Difficulty],
    defined outside the files at hand), the number of leading zero bits of its
    bytes. *)
Fixpoint leadingZeroBits (h : list Z) : Z :=
  match h with
  | [] => 0
  | b :: r => if b =? 0 then 8 + leadingZeroBits r else byteLeadingZeros b
  end.

(** [cpuminer.NonceInfo]. *)
Record NonceInfo : Type := mkNonceInfo {
  NonceInfo_Nonce : Z;
  NonceInfo_Difficulty : Z;
  NonceInfo_Hash : list Z
}.

(** Modelled from the spec: [cpuminer.HashBlock], defined outside the files
    at hand.  The hash of a mining block is the domain hash of the data
    followed by the bytes of the nonce. *)
Definition HashBlock (env : Env) (data : list Z) (nonce : Z) : list Z :=
  hashFn env (data ++ RPCClient.Uint256_Bytes nonce)%list.

(** Modelled from the spec: [CPUMiner.ComputeBlockNonce], defined outside
    the files at hand, run with one worker.  The miner hashes
    [data ‖ nonce_bytes] for the nonces from [startNonce] on and delivers the
    first candidate whose hash has [difficulty] leading zero bits.  The search
    has no bound; [fuel] bounds the number of nonces tried and [None] is a
    search that has not delivered yet. *)
Fixpoint ComputeBlockNonce (env : Env) (fuel : nat) (data : list Z)
    (startNonce : Z) (difficulty : Z) : option NonceInfo :=
  match fuel with
  | O => None
  | S fuel' =>
      let h := HashBlock env data startNonce in
      if difficulty <=? leadingZeroBits h
      then Some (mkNonceInfo startNonce (leadingZeroBits h) h)
      else ComputeBlockNonce env fuel' data (Uint256_Inc startNonce) difficulty
  end.

(** A hexadecimal digit in lower case. *)
Definition hexDigit (n : Z) : ascii :=
  if n <? 10 then ascii_of_N (48 + Z.to_N n) else ascii_of_N (87 + Z.to_N n).

(** Modelled from the spec: [hash.Hash.String], defined outside the files at
    hand: the hexadecimal text of the hash bytes. *)
Fixpoint Hash_String (h : list Z) : string :=
  match h with
  | [] => EmptyString
  | b :: r => String (hexDigit (b / 16)) (String (hexDigit (b mod 16)) (Hash_String r))
  end.

(** [generateDatabaseID]: the miner is restarted after the last nonce until
    the service map does not know the hex of the hash.  [fuel] bounds the
    number of restarts, [mfuel] each search. *)
Fixpoint generateDatabaseIDFrom (env : Env) (m : ServiceMapT) (fuel mfuel : nat)
    (reqNodeID : list Z) (startNonce : Z) : option (DatabaseID * NonceInfo) :=
  match fuel with
  | O => None
  | S fuel' =>
      match ComputeBlockNonce env mfuel reqNodeID startNonce 4 with
      | None => None
      | Some nonce =>
          let startNonce' := Uint256_Inc (NonceInfo_Nonce nonce) in
          let dbID := Hash_String (NonceInfo_Hash nonce) in
          match ServiceMap_Get m dbID with
          | Err ErrNoSuchDatabase => Some (dbID, nonce)
          | _ => generateDatabaseIDFrom env m fuel' mfuel reqNodeID startNonce'
          end
      end
  end.

Definition generateDatabaseID (env : Env) (s : DBService) (fuel mfuel : nat)
    (reqNodeID : list Z) : option DatabaseID :=
  fst <$> generateDatabaseIDFrom env (ServiceMap s) fuel mfuel reqNodeID 0.

(** *** Node allocation *)

(** The value [metric.GetMetric()[0]] reads for a gauge and for a counter. *)
Definition gaugeValue (m : Metric) : Z := default 0 (Metric_Gauge m).
Definition counterValue (m : Metric) : Z := default 0 (Metric_Counter m).

(** [getMetric]: the first key that is present with a gauge or a counter
    decides; indexing an empty metric list panics. *)
Fixpoint getMetric (metric : MetricMap) (keys : list string) : outcome Z :=
  match keys with
  | [] => Fail ErrMetricNotCollected
  | key :: keys' =>
      match metric !! key with
      | None | Some None => getMetric metric keys'
      | Some (Some rawMetric) =>
          match MetricFamily_Type rawMetric with
          | MetricType_GAUGE =>
              match MetricFamily_Metric rawMetric with
              | [] => Panic indexOutOfRange
              | m :: _ => Done (gaugeValue m)
              end
          | MetricType_COUNTER =>
              match MetricFamily_Metric rawMetric with
              | [] => Panic indexOutOfRange
              | m :: _ => Done (counterValue m)
              end
          | _ => getMetric metric keys'
          end
      end
  end.

(** The nodes of a ring answer that are not excluded, in ring order. *)
Definition candidateIDs (nodes : list Node) (excludeNodes : gset string) : list NodeID :=
  Node_ID <$> filter (fun node => Node_ID node ∉ excludeNodes) nodes.

(** One iteration of the loop over the metric records of a round: the state
    is the exclusion set and the allocated slice. *)
Definition checkNode (memory : Z) (nodeID : NodeID) (nodeMetric : MetricMap)
    (st : gset string * list allocatedNode) : outcome (gset string * list allocatedNode) :=
  let '(excludeNodes, allocated) := st in
  match getMetric nodeMetric MetricKeyFreeMemory with
  | Panic e => Panic e
  | Fail _ => Done ({[nodeID]} ∪ excludeNodes, allocated)
  | Done metricValue =>
      if memory <? metricValue
      then Done (excludeNodes, allocated ++ [mkAllocatedNode nodeID metricValue])%list
      else Done ({[nodeID]} ∪ excludeNodes, allocated)
  end.

(** The loop over the metric records. *)
Fixpoint checkMetrics (memory : Z) (metrics : list (NodeID * MetricMap))
    (st : gset string * list allocatedNode) : outcome (gset string * list allocatedNode) :=
  match metrics with
  | [] => Done st
  | (nodeID, nodeMetric) :: rest =>
      match checkNode memory nodeID nodeMetric st with
      | Done st' => checkMetrics memory rest st'
      | Fail e => Fail e
      | Panic e => Panic e
      end
  end.

(** The comparison handed to [sort.Slice]. *)
Definition byMemoryMetric (a b : allocatedNode) : bool :=
  allocatedNode_MemoryMetric b <? allocatedNode_MemoryMetric a.

(** The server entry [buildPeers] creates for a node. *)
Definition follower (node : Node) : option Server :=
  Some (mkServer Follower (Node_ID node) (Node_PublicKey node)).

(** The loop of [buildPeers] that stores a follower at each index; storing
    past the end of [Servers] panics. *)
Fixpoint fillServers (idx : nat) (allocatedNodes : list Node)
    (servers : list (option Server)) : option (list (option Server)) :=
  match allocatedNodes with
  | [] => Some servers
  | node :: rest =>
      if bool_decide (idx < length servers)%nat
      then fillServers (S idx) rest (<[idx := follower node]> servers)
      else None
  end.

(** [buildPeers].  A result [(peers, err)] with a non-nil error is [Fail]. *)
Definition buildPeers (env : Env) (term : Z) (nodes : list Node)
    (allocated : list NodeID) : outcome Peers :=
  match GetLocalPublicKey env with
  | Err e => Fail e
  | Ok pubKey =>
      match GetLocalPrivateKey env with
      | Err e => Fail e
      | Ok privKey =>
          let allocatedMap : gset string := list_to_set allocated in
          let allocatedNodes := filter (fun node => Node_ID node ∈ allocatedMap) nodes in
          match fillServers 0 allocatedNodes (replicate (length allocated) None) with
          | None => Panic indexOutOfRange
          | Some servers =>
              match servers with
              | [] => Panic indexOutOfRange
              | None :: _ => Panic nilDereference
              | Some first :: others =>
                  let leader := mkServer Leader (Server_ID first) (Server_PubKey first) in
                  let peers := mkPeers term (Some leader) (Some leader :: others) pubKey None in
                  match Peers_Sign env privKey peers with
                  | Err e => Fail e
                  | Ok sig => Done (mkPeers term (Some leader) (Some leader :: others)
                                      pubKey (Some sig))
                  end
              end
          end
      end
  end.

(** The allocated slice after [sort.Slice] and the truncation to the
    requested node count. *)
Definition chosenNodes (resourceMeta : ResourceMeta) (allocated : list allocatedNode)
  : list allocatedNode :=
  take (Z.to_nat (ResourceMeta_Node resourceMeta)) (sortSlice byMemoryMetric allocated).

(** The role filter of a ring query. *)
Definition rolesFilter (s : DBService) : list ServerRole :=
  (Miner :: (if includeBPNodesForAllocation s then [Leader; Follower] else []))%list.

(** The allocation rounds still to run: the result and the ring queries made,
    oldest first. *)
Fixpoint allocateRounds (env : Env) (s : DBService) (rounds : nat) (lastTerm : Z)
    (dbID : DatabaseID) (resourceMeta : ResourceMeta) (curRange : Z)
    (excludeNodes : gset string) : outcome Peers * list RingQuery :=
  match rounds with
  | O => (Fail ErrDatabaseAllocation, [])
  | S rounds' =>
      let query := mkRingQuery dbID curRange (rolesFilter s) in
      let nodes := fst (Consistent_GetNeighborsEx s dbID curRange (rolesFilter s)) in
      let nodeIDs := candidateIDs nodes excludeNodes in
      let continue (curRange' : Z) (excludeNodes' : gset string) :=
        let '(r, qs) := allocateRounds env s rounds' lastTerm dbID resourceMeta
                          curRange' excludeNodes' in
        (r, query :: qs) in
      if Z.of_nat (length nodeIDs) <? ResourceMeta_Node resourceMeta
      then continue curRange excludeNodes
      else
        match checkMetrics (ResourceMeta_Memory resourceMeta)
                (NodeMetrics_GetMetrics s nodeIDs) (excludeNodes, []) with
        | Panic e => (Panic e, [query])
        | Fail e => (Fail e, [query])
        | Done (excludeNodes', allocated) =>
            if ResourceMeta_Node resourceMeta <=? Z.of_nat (length allocated)
            then
              let nodeAllocated :=
                allocatedNode_NodeID <$> chosenNodes resourceMeta allocated in
              (buildPeers env (wrapU64 (lastTerm + 1)) nodes nodeAllocated, [query])
            else
              continue (wrapInt (curRange + ResourceMeta_Node resourceMeta)) excludeNodes'
        end
  end.

(** The number of iterations of [for i := 0; i != s.AllocationRounds; i++]:
    a negative bound is reached after the counter has wrapped around. *)
Definition roundCount (s : DBService) : nat :=
  Z.to_nat (AllocationRounds s mod 2 ^ 64).

(** [allocateNodes]. *)
Definition allocateNodes (env : Env) (s : DBService) (lastTerm : Z)
    (dbID : DatabaseID) (resourceMeta : ResourceMeta) : outcome Peers * list RingQuery :=
  if ResourceMeta_Node resourceMeta <=? 0
  then (Fail ErrDatabaseAllocation, [])
  else
    let excludeNodes : gset string :=
      if negb (includeBPNodesForAllocation s) then list_to_set (GetBPs env) else ∅ in
    allocateRounds env s (roundCount s) lastTerm dbID resourceMeta
      (ResourceMeta_Node resourceMeta) excludeNodes.

(** *** Deployment fan-out *)

(** [peersToNodes].  A nil entry of [Servers] cannot be read. *)
Definition peersToNodes (peers : option Peers) : outcome (list NodeID) :=
  match peers with
  | None => Done []
  | Some p =>
      match mapM (fmap Server_ID) (Peers_Servers p) with
      | Some ids => Done ids
      | None => Panic nilDereference
      end
  end.

(** The calls of one fan-out of [req], in dispatch order. *)
Definition deployCalls (req : option UpdateService) (nodes : list NodeID) : list Call :=
  (fun node => mkCall node DBSDeploy req) <$> nodes.

(** [batchSendSingleSvcReq]: one call per target; after all have completed the
    first value in the error channel is the result (the zero value, nil, when
    the closed channel is empty). *)
Definition batchSendSingleSvcReq (env : Env) (req : option UpdateService)
    (nodes : list NodeID) : option error * list Call :=
  let errCh := (fun node => CallNode env node DBSDeploy req) <$> arrival env nodes in
  (match errCh with
   | [] => None
   | err :: _ => err
   end,
   deployCalls req nodes).

(** [batchSendSvcReq]. *)
Definition batchSendSvcReq (env : Env) (req rollbackReq : option UpdateService)
    (nodes : list NodeID) : option error * list Call :=
  let '(err, calls) := batchSendSingleSvcReq env req nodes in
  match err with
  | Some _ =>
      let '(_, rollbackCalls) := batchSendSingleSvcReq env rollbackReq nodes in
      (err, calls ++ rollbackCalls)%list
  | None => (err, calls)
  end.

(** *** The RPC endpoints *)

(** [UpdateService.Sign]: the request as the method leaves it, and its
    error. *)
Definition signUpdateService (env : Env) (signer : PrivateKey) (req : UpdateService)
  : UpdateService * option error :=
  match UpdateService_Sign env signer req with
  | Ok sig => (mkUpdateService (UpdateService_Op req) (UpdateService_Instance req)
                 (UpdateService_Signee req) (Some sig), None)
  | Err e => (req, Some e)
  end.

(** [CreateDatabaseResponse.Sign]. *)
Definition signResponse (env : Env) (signer : PrivateKey) (resp : CreateDatabaseResponse)
  : CreateDatabaseResponse * option error :=
  match CreateDatabaseResponse_Sign env signer resp with
  | Ok sig => (mkCreateDatabaseResponse (CreateDatabaseResponse_InstanceMeta resp)
                 (Some sig), None)
  | Err e => (resp, Some e)
  end.

(** [generateGenesisBlock]. *)
Definition generateGenesisBlock (env : Env) (dbID : DatabaseID)
    (resourceMeta : ResourceMeta) : result Block :=
  let emptyHash := replicate 32 0 in
  bindR (GetLocalPrivateKey env) (fun privKey =>
  bindR (GetLocalNodeID env) (fun nodeID =>
  let genesisBlock :=
    mkBlock (mkHeader 16777216 nodeID emptyHash emptyHash (Now env)) None in
  match PackAndSignBlock env privKey genesisBlock with
  | Err e => Err e
  | Ok sig => Ok (mkBlock (Block_Header genesisBlock) (Some sig))
  end)).

(** What an endpoint leaves behind: its result, the response as written, the
    service map and the calls sent to miners. *)
Record Run (R : Type) : Type := mkRun {
  Run_result : outcome R;
  Run_map : ServiceMapT;
  Run_calls : list Call
}.
Arguments mkRun {R} _ _ _.
Arguments Run_result {R} _.
Arguments Run_map {R} _.
Arguments Run_calls {R} _.

(** [CreateDatabase].  [None] is a call that is still mining a database
    identifier when the fuel is spent. *)
Definition CreateDatabase (env : Env) (s : DBService) (fuel mfuel : nat)
    (req : CreateDatabaseRequest) : option (Run CreateDatabaseResponse) :=
  let stop {R} (r : outcome R) := Some (mkRun r (ServiceMap s) []) in
  match CreateDatabaseRequest_Verify env req with
  | Some e => stop (Fail e)
  | None =>
  match generateDatabaseID env s fuel mfuel (CreateDatabaseRequest_NodeID req) with
  | None => None
  | Some dbID =>
  let resourceMeta := CreateDatabaseRequest_ResourceMeta req in
  match fst (allocateNodes env s 0 dbID resourceMeta) with
  | Fail e => stop (Fail e)
  | Panic e => stop (Panic e)
  | Done peers =>
  match generateGenesisBlock env dbID resourceMeta with
  | Err e => stop (Fail e)
  | Ok genesisBlock =>
  match GetLocalPrivateKey env with
  | Err e => stop (Fail e)
  | Ok privateKey =>
  let initSvcReq :=
    mkUpdateService CreateDB
      (mkServiceInstance dbID (Some peers) zeroResourceMeta (Some genesisBlock))
      None None in
  match signUpdateService env privateKey initSvcReq with
  | (_, Some e) => stop (Fail e)
  | (initSvcReq, None) =>
  let rollbackReq :=
    mkUpdateService DropDB (mkServiceInstance dbID None zeroResourceMeta None)
      None None in
  match signUpdateService env privateKey rollbackReq with
  | (_, Some e) => stop (Fail e)
  | (rollbackReq, None) =>
  match peersToNodes (Some peers) with
  | Fail e => stop (Fail e)
  | Panic e => stop (Panic e)
  | Done nodes =>
  let '(err, calls) := batchSendSvcReq env (Some initSvcReq) (Some rollbackReq) nodes in
  match err with
  | Some e => Some (mkRun (Fail e) (ServiceMap s) calls)
  | None =>
  let instanceMeta :=
    mkServiceInstance dbID (Some peers) resourceMeta (Some genesisBlock) in
  match ServiceMap_Set env (ServiceMap s) instanceMeta with
  | (m, Some e) => Some (mkRun (Fail e) m calls)
  | (m, None) =>
  match signResponse env privateKey
          (mkCreateDatabaseResponse instanceMeta None) with
  | (_, Some e) => Some (mkRun (Fail e) m calls)
  | (resp, None) => Some (mkRun (Done resp) m calls)
  end end end end end end end end end end end.

(** [DropDatabase].  The result of signing the drop request is dropped by the
    statement [if dropDBSvcReq.Sign(privateKey); err != nil]: the condition
    reads [err], which is nil after the private key was fetched. *)
Definition DropDatabase (env : Env) (s : DBService) (req : DropDatabaseRequest)
  : Run unit :=
  let stop (r : outcome unit) := mkRun r (ServiceMap s) [] in
  match DropDatabaseRequest_Verify env req with
  | Some e => stop (Fail e)
  | None =>
  match ServiceMap_Get (ServiceMap s) (DropDatabaseRequest_DatabaseID req) with
  | Err e => stop (Fail e)
  | Ok instanceMeta =>
  match GetLocalPublicKey env with
  | Err e => stop (Fail e)
  | Ok signee =>
  let dropDBSvcReq :=
    mkUpdateService DropDB
      (mkServiceInstance (DropDatabaseRequest_DatabaseID req) None zeroResourceMeta None)
      (Some signee) None in
  match GetLocalPrivateKey env with
  | Err e => stop (Fail e)
  | Ok privateKey =>
  let dropDBSvcReq := fst (signUpdateService env privateKey dropDBSvcReq) in
  match peersToNodes (ServiceInstance_Peers instanceMeta) with
  | Fail e => stop (Fail e)
  | Panic e => stop (Panic e)
  | Done nodes =>
  let '(err, calls) := batchSendSvcReq env (Some dropDBSvcReq) None nodes in
  match err with
  | Some e => mkRun (Fail e) (ServiceMap s) calls
  | None =>
  match ServiceMap_Delete env (ServiceMap s) (DropDatabaseRequest_DatabaseID req) with
  | (m, Some e) => mkRun (Fail e) m calls
  | (m, None) => mkRun (Done tt) m calls
  end end end end end end end.

(** *** Vocabulary of the properties *)



(** Element 0 of [servers] is a server with the leader role and no other
    entry has it: every other entry that is not nil is a follower. *)
Definition isLeaderAt0 (servers : list (option Server)) : Prop :=
  exists leader others, servers = Some leader :: others /\
    Server_Role leader = Leader /\
    Forall (fun o => forall srv, o = Some srv -> Server_Role srv = Follower) others.

(** The node identifiers of the servers and of the leader of a peer set. *)
Definition serverIDs (peers : Peers) : list (option NodeID) :=
  List.map (option_map Server_ID) (Peers_Servers peers).

Definition leaderID (peers : Peers) : option NodeID :=
  option_map Server_ID (Peers_Leader peers).

End DBS.

(** ** Concrete inputs: the scenarios of the specification *)

Module Scenario.

Import DBS.

(** One gibibyte. *)
Definition G : Z := 1073741824.

(** A metric record whose only family is the Linux free-memory gauge. *)
Definition freeMemory (v : Z) : MetricMap :=
  {[ "node_memory_MemFree_bytes" :=
       Some (mkMetricFamily MetricType_GAUGE [mkMetric (Some v) None]) ]}.

Definition miner (id : string) : Node := mkNode id Miner "10.250.100.2:2144" ("pk-" ++ id).

(** The five miners of scenarios S1 to S3, named after their free memory. *)
Definition fiveMetrics (id : NodeID) : option MetricMap :=
  if String.eqb id "n8" then Some (freeMemory (8 * G))
  else if String.eqb id "n6" then Some (freeMemory (6 * G))
  else if String.eqb id "n4" then Some (freeMemory (4 * G))
  else if String.eqb id "n2" then Some (freeMemory (2 * G))
  else if String.eqb id "n1" then Some (freeMemory (1 * G))
  else None.

(** [GetMetrics] over a table of collected metrics: nodes without a record are
    left out. *)
Definition metricsFrom (table : NodeID -> option MetricMap) (ids : list NodeID)
  : list (NodeID * MetricMap) :=
  omap (fun id => (fun m => (id, m)) <$> table id) ids.

(** A ring that answers with the first [k] nodes of a fixed clockwise order. *)
Definition ringOf (order : list Node) : string -> Z -> list ServerRole -> list Node * option error :=
  fun _ k _ => (take (Z.to_nat k) order, None).

(** A toy hash: 31 zero bytes followed by the low byte of the sum of the
    input. *)
Definition sumHash (data : list Z) : list Z :=
  (replicate 31 0 ++ [foldr Z.add 0 data mod 256])%list.

(** Collaborators that never fail; fan-out results arrive in dispatch
    order. *)
Definition quietEnv : Env :=
  mkEnv (Ok "bp-public") (Ok "bp-private") (Ok "bp0") ["bp0"]
    (fun _ _ => Ok "peers-signature") (fun _ => None) (fun _ => None)
    (fun _ _ => Ok "signature") (fun _ _ => Ok "signature")
    (fun _ _ => Ok "signature") 0
    (fun _ _ _ => None) (fun l => l) (fun _ => None) sumHash.

(** S1 with the ring listing the 8G node first, and with the 4G node first. *)
Definition serviceS1 : DBService :=
  mkDBService DefaultAllocationRounds ∅
    (ringOf [miner "n8"; miner "n6"; miner "n4"; miner "n2"; miner "n1"])
    (metricsFrom fiveMetrics) false.


Definition requestS1 : CreateDatabaseRequest :=
  mkCreateDatabaseRequest (mkResourceMeta 3 (3 * G)) (replicate 32 7).



(** A ring with three miners only, one below the requested memory. *)
Definition serviceSmallRing : DBService :=
  mkDBService DefaultAllocationRounds ∅
    (ringOf [miner "n8"; miner "n6"; miner "n4"]) (metricsFrom fiveMetrics) false.

(** S6: three targets, the second refuses the deployment. *)
Definition deployError : error := ExtError "deploy failed".

Definition envS6 : Env :=
  mkEnv (Ok "bp-public") (Ok "bp-private") (Ok "bp0") ["bp0"]
    (fun _ _ => Ok "peers-signature") (fun _ => None) (fun _ => None)
    (fun _ _ => Ok "signature") (fun _ _ => Ok "signature")
    (fun _ _ => Ok "signature") 0
    (fun node _ req =>
       match req with
       | Some r =>
           match UpdateService_Op r with
           | CreateDB => if String.eqb node "m2" then Some deployError else None
           | _ => None
           end
       | None => None
       end)
    (fun l => l) (fun _ => None) sumHash.

Definition createReq : UpdateService :=
  mkUpdateService CreateDB (mkServiceInstance "db" None zeroResourceMeta None)
    (Some "bp-public") (Some "signature").

Definition dropReq : UpdateService :=
  mkUpdateService DropDB (mkServiceInstance "db" None zeroResourceMeta None)
    (Some "bp-public") (Some "signature").

(** A block producer whose signing of update requests fails. *)
Definition signError : error := ExtError "sign failed".

Definition envBadSign : Env :=
  mkEnv (Ok "bp-public") (Ok "bp-private") (Ok "bp0") ["bp0"]
    (fun _ _ => Ok "peers-signature") (fun _ => None) (fun _ => None)
    (fun _ _ => Err signError) (fun _ _ => Ok "signature")
    (fun _ _ => Ok "signature") 0
    (fun _ _ _ => None) (fun l => l) (fun _ => None) sumHash.

Definition deployedPeers : Peers :=
  mkPeers 1 (Some (mkServer Leader "m1" "pk-m1"))
    [Some (mkServer Leader "m1" "pk-m1"); Some (mkServer Follower "m2" "pk-m2")]
    "bp-public" (Some "peers-signature").

Definition serviceDeployed : DBService :=
  mkDBService DefaultAllocationRounds
    {[ "db" := mkServiceInstance "db" (Some deployedPeers) (mkResourceMeta 2 G) None ]}
    (ringOf []) (metricsFrom fiveMetrics) false.

(** The transaction registry of scenario S5: tag 7 is registered. *)
Definition txS5 : TxWrapper.rtype := TxWrapper.mkRtype "*types.Transfer" true true.

Definition registryS5 : gmap Z TxWrapper.rtype := {[ 7 := txS5 ]}.

(** A stand-in for the codec: a transaction value is written as the name of
    its type, and decoding a body leaves it as it is. *)
Definition zeroOf (rt : TxWrapper.rtype) : string := TxWrapper.rt_name rt.

Definition keepBody (tx : option string) (body : TxWrapper.msgpack)
  : result (option string) := Ok tx.

Definition decodeS5 : TxWrapper.msgpack -> result (option string) :=
  TxWrapper.CodecDecodeSelf string zeroOf zeroOf keepBody false registryS5.



Definition netSilentShort : RPCClient.Net unit :=
  RPCClient.mkNet (fun _ _ => Ok tt) (fun _ _ => (10, None))
    (replicate 32 0) (Ok (replicate 32 1)) (Ok 5).

Definition netGood : RPCClient.Net unit :=
  RPCClient.mkNet (fun _ _ => Ok tt) (fun _ buf => (Z.of_nat (length buf), None))
    (replicate 32 0) (Ok (replicate 32 1)) (Ok 5).

End Scenario.

(** ** Further code of the same files *)

(** *** The read endpoint *)

Module DBSQuery.

Import DBS.

(** [GetDatabaseRequest] and [GetDatabaseResponse]. *)
Record GetDatabaseRequest : Type := mkGetDatabaseRequest {
  GetDatabaseRequest_DatabaseID : DatabaseID
}.

Record GetDatabaseResponse : Type := mkGetDatabaseResponse {
  GetDatabaseResponse_InstanceMeta : ServiceInstance;
  GetDatabaseResponse_Signee : option PublicKey;
  GetDatabaseResponse_Signature : option SignatureT
}.

(** The verification of a read request and the signing of its response. *)
Record QueryEnv : Type := mkQueryEnv {
  GetDatabaseRequest_Verify : GetDatabaseRequest -> option error;
  GetDatabaseResponse_Sign : PrivateKey -> GetDatabaseResponse -> result SignatureT
}.

(** [GetDatabase]: the response as the call leaves it, and the error.  A
    failed fetch of the public key stores the nil key it returns. *)
Definition GetDatabase (env : Env) (q : QueryEnv) (s : DBService)
    (req : GetDatabaseRequest) (resp : GetDatabaseResponse)
  : GetDatabaseResponse * option error :=
  match GetDatabaseRequest_Verify q req with
  | Some e => (resp, Some e)
  | None =>
  match ServiceMap_Get (ServiceMap s) (GetDatabaseRequest_DatabaseID req) with
  | Err e => (resp, Some e)
  | Ok instanceMeta =>
  let resp := mkGetDatabaseResponse instanceMeta
                (GetDatabaseResponse_Signee resp) (GetDatabaseResponse_Signature resp) in
  match GetLocalPublicKey env with
  | Err e => (mkGetDatabaseResponse instanceMeta None
                (GetDatabaseResponse_Signature resp), Some e)
  | Ok signee =>
  let resp := mkGetDatabaseResponse instanceMeta (Some signee)
                (GetDatabaseResponse_Signature resp) in
  match GetLocalPrivateKey env with
  | Err e => (resp, Some e)
  | Ok privateKey =>
  match GetDatabaseResponse_Sign q privateKey resp with
  | Err e => (resp, Some e)
  | Ok sig => (mkGetDatabaseResponse instanceMeta (Some signee) (Some sig), None)
  end end end end end.

(** A key, metric family or server entry that [getMetric] can read a value
    from. *)
Definition usableFamily (f : MetricFamily) : bool :=
  match MetricFamily_Type f with
  | MetricType_GAUGE | MetricType_COUNTER => true
  | _ => false
  end.

Definition usableKey (metric : MetricMap) (key : string) : bool :=
  match metric !! key with
  | Some (Some f) => usableFamily f
  | _ => false
  end.

(** The value [getMetric] reads from a usable family with a first metric. *)
Definition familyValue (f : MetricFamily) (m : Metric) : Z :=
  match MetricFamily_Type f with
  | MetricType_GAUGE => gaugeValue m
  | _ => counterValue m
  end.

(** The service after a call has left the service map [m]. *)
Definition withMap (s : DBService) (m : ServiceMapT) : DBService :=
  mkDBService (AllocationRounds s) m (Consistent_GetNeighborsEx s)
    (NodeMetrics_GetMetrics s) (includeBPNodesForAllocation s).

(** The nodes of a ring answer that [buildPeers] keeps. *)
Definition matchedNodes (nodes : list Node) (allocated : list NodeID) : list Node :=
  filter (fun node => Node_ID node ∈ (list_to_set allocated : gset string)) nodes.

(** Consecutive ranges of the ring queries of one allocation: each range
    repeats the one before or is wider by [step]. *)
Fixpoint rangeSteps (step : Z) (ranges : list Z) : Prop :=
  match ranges with
  | a :: (b :: _) as rest => (b = a \/ b = wrapInt (a + step)) /\ rangeSteps step rest
  | _ => True
  end.

(** Collaborators for reading back what was written. *)
Definition quietQuery : QueryEnv :=
  mkQueryEnv (fun _ => None) (fun _ _ => Ok "response-signature").

Definition zeroResponse : GetDatabaseResponse :=
  mkGetDatabaseResponse (mkServiceInstance "" None zeroResourceMeta None) None None.

(** A block producer that is also on the ring as a miner, with more free
    memory than any other node; the ring lists it fourth. *)
Definition bpMetrics (id : NodeID) : option MetricMap :=
  if String.eqb id "bp0" then Some (Scenario.freeMemory (16 * Scenario.G))
  else Scenario.fiveMetrics id.

Definition serviceBPOnRing : DBService :=
  mkDBService DefaultAllocationRounds ∅
    (Scenario.ringOf [Scenario.miner "n8"; Scenario.miner "n2"; Scenario.miner "n6";
                      Scenario.miner "bp0"])
    (Scenario.metricsFrom bpMetrics) false.

(** The same ring with the block producer listed first. *)
Definition serviceBPFirst : DBService :=
  mkDBService DefaultAllocationRounds ∅
    (Scenario.ringOf [Scenario.miner "bp0"; Scenario.miner "n8"; Scenario.miner "n6";
                      Scenario.miner "n4"])
    (Scenario.metricsFrom bpMetrics) false.

(** A block producer that cannot sign its responses, and miners that refuse
    every deployment. *)
Definition envBadResponseSign : Env :=
  mkEnv (Ok "bp-public") (Ok "bp-private") (Ok "bp0") ["bp0"]
    (fun _ _ => Ok "peers-signature") (fun _ => None) (fun _ => None)
    (fun _ _ => Ok "signature") (fun _ _ => Err Scenario.signError)
    (fun _ _ => Ok "signature") 0
    (fun _ _ _ => None) (fun l => l) (fun _ => None) Scenario.sumHash.

Definition envRefusing : Env :=
  mkEnv (Ok "bp-public") (Ok "bp-private") (Ok "bp0") ["bp0"]
    (fun _ _ => Ok "peers-signature") (fun _ => None) (fun _ => None)
    (fun _ _ => Ok "signature") (fun _ _ => Ok "signature")
    (fun _ _ => Ok "signature") 0
    (fun _ _ req => match req with
                    | Some _ => Some Scenario.deployError
                    | None => None
                    end)
    (fun l => l) (fun _ => None) Scenario.sumHash.

End DBSQuery.

(** *** Encoding the transaction envelope *)

Module TxEncode.

Import TxWrapper.

Section Encode.

(** Values that implement the [Transaction] interface, their
    [GetTransactionType] and the codec's encoding of their body
    ([helperEncoder.EncFallback]). *)
Variable Transaction : Type.
Variable GetTransactionType : Transaction -> Z.
Variable EncFallback : Transaction -> msgpack.

(** A [*TransactionWrapper]: [None] is the nil pointer, [Some None] a wrapper
    whose [Transaction] is nil. *)
Definition wrapper : Type := option (option Transaction).

(** [WrapTransaction]. *)
Definition WrapTransaction (tx : option Transaction) : wrapper := Some tx.

(** [TransactionWrapper.CodecEncodeSelf]: the value written to the stream. *)
Definition CodecEncodeSelf (w : wrapper) : msgpack :=
  match w with
  | None | Some None => MNil
  | Some (Some tx) => MArray [MUint (GetTransactionType tx); EncFallback tx]
  end.

End Encode.

(** A stand-in for the codec of transaction bodies: a transaction is written
    as a string and read back from one; every transaction carries tag 7. *)
Definition bodyOf (tx : string) : msgpack := MStr tx.

Definition readBody (tx : option string) (body : msgpack) : result (option string) :=
  match body with
  | MStr s => Ok (Some s)
  | _ => Err (ExtError "not a transaction body")
  end.

Definition tagOf (tx : string) : Z := 7.

End TxEncode.

(** *** Dialling a node *)

Module RPCDial.

Import RPCClient.

Section DialToNode.

(** [net.Conn], [etls.Cipher], the symmetric key, a [yamux.Session] and a
    stream of it. *)
Variables Conn Cipher Key Session Stream : Type.

(** What [dialToNodeEx] and [DialToNode] use besides the network: the
    conversion of a node identifier to its raw form, the shared secret, the
    address directory, the cipher and the stream multiplexer. *)
Record Directory : Type := mkDirectory {
  ToRawNodeID : string -> list Z;
  GetSharedSecretWith : list Z -> bool -> result Key;
  GetNodeAddr : list Z -> result string;
  NewCipher : Key -> Cipher;
  yamux_Client : option (CryptoConn Conn Cipher) -> result Session;
  Session_Open : Session -> option Stream * option error
}.

(** [dialToNodeEx]: the named results [(conn, err)]. *)
Definition dialToNodeEx (net : Net Conn) (dir : Directory) (nodeID : string)
    (isAnonymous : bool) : option (CryptoConn Conn Cipher) * option error :=
  let rawNodeID := ToRawNodeID dir nodeID in
  match GetSharedSecretWith dir rawNodeID isAnonymous with
  | Err e => (None, Some e)
  | Ok symmetricKey =>
      match GetNodeAddr dir rawNodeID with
      | Err e => (None, Some e)
      | Ok nodeAddr =>
          let cipher := NewCipher dir symmetricKey in
          dial net "tcp" nodeAddr rawNodeID cipher isAnonymous
      end
  end.

(** [dialToNode]. *)
Definition dialToNode (net : Net Conn) (dir : Directory) (nodeID : string)
  : option (CryptoConn Conn Cipher) * option error :=
  dialToNodeEx net dir nodeID false.

(** [DialToNode]: [pool] is the [Get] method of the session pool, [None] a
    nil pool. *)
Definition DialToNode (net : Net Conn) (dir : Directory) (nodeID : string)
    (pool : option (string -> option Stream * option error)) (isAnonymous : bool)
  : option Stream * option error :=
  let direct :=
    match dialToNodeEx net dir nodeID isAnonymous with
    | (_, Some e) => (None, Some e)
    | (ETLSConn, None) =>
        match yamux_Client dir ETLSConn with
        | Err e => (None, Some e)
        | Ok sess => Session_Open dir sess
        end
    end in
  match pool with
  | None => direct
  | Some get => if isAnonymous then direct else get nodeID
  end.

End DialToNode.

Arguments mkDirectory {Conn Cipher Key Session Stream} _ _ _ _ _ _.
Arguments ToRawNodeID {Conn Cipher Key Session Stream} _ _.
Arguments GetSharedSecretWith {Conn Cipher Key Session Stream} _ _ _.
Arguments GetNodeAddr {Conn Cipher Key Session Stream} _ _.
Arguments NewCipher {Conn Cipher Key Session Stream} _ _.
Arguments yamux_Client {Conn Cipher Key Session Stream} _ _.
Arguments Session_Open {Conn Cipher Key Session Stream} _ _.
Arguments dialToNodeEx {Conn Cipher Key Session Stream} _ _ _ _.
Arguments dialToNode {Conn Cipher Key Session Stream} _ _ _.
Arguments DialToNode {Conn Cipher Key Session Stream} _ _ _ _ _.

(** A directory that knows every node at one address; keys, sessions and
    streams are written as text. *)
Definition plainDirectory : @Directory unit string string string string :=
  mkDirectory (fun _ => replicate 32 9) (fun _ _ => Ok "shared-secret")
    (fun _ => Ok "10.250.100.2:2144") (fun key => ("aes:" ++ key)%string)
    (fun _ => Ok "session") (fun _ => (Some "stream", None)).

End RPCDial.

(** *** cql-utils: the choice of the tool *)

Module CqlUtils.

(** What [main] does after parsing the flags. *)
Inductive Action : Type :=
  | RequiredError (msg : string)
  | Run (tool : string)
  | UsageExit.

(** The defaults of the flags [-tool], [-public], [-private] and
    [-config]. *)
Definition defaultTool : string := "".
Definition defaultPublicKeyHex : string := "".
Definition defaultPrivateKeyFile : string := "private.key".
Definition defaultConfigFile : string := "config.yaml".

Definition isEmpty (s : string) : bool := String.eqb s "".

(** The [switch tool] of [main]: an error exit with status 1, the tool that
    runs, or the usage text with exit status 1. *)
Definition main (tool publicKeyHex privateKeyFile : string) : Action :=
  if String.eqb tool "miner" then
    if (isEmpty publicKeyHex && isEmpty privateKeyFile)%bool
    then RequiredError "publicKey or privateKey is required in miner mode"
    else Run "miner"
  else if String.eqb tool "keygen" then
    if isEmpty privateKeyFile
    then RequiredError "privateKey path is required for keygen"
    else Run "keygen"
  else if String.eqb tool "keytool" then
    if isEmpty privateKeyFile
    then RequiredError "privateKey path is required for keytool"
    else Run "keytool"
  else if String.eqb tool "rpc" then Run "rpc"
  else if String.eqb tool "nonce" then Run "nonce"
  else if String.eqb tool "confgen" then Run "confgen"
  else if String.eqb tool "adapterconfgen" then Run "adapterconfgen"
  else if String.eqb tool "addrgen" then
    if (isEmpty privateKeyFile && isEmpty publicKeyHex)%bool
    then RequiredError "privateKey path or publicKey hex is required for addrgen"
    else Run "addrgen"
  else UsageExit.

(** The tools the usage text of [-tool] lists. *)
Definition listedTools : list string :=
  ["miner"; "keygen"; "keytool"; "rpc"; "nonce"; "confgen"; "addrgen"; "adapterconfgen"].

End CqlUtils.

(** *** Further scenarios of the allocation and of the identifier generator *)

Module ScenarioMore.

Import DBS.

(** A metric store in which the 4G node reports 9G whenever more than three
    nodes are asked about at once. *)
Definition recoveredMetrics (id : NodeID) : option MetricMap :=
  if String.eqb id "n8" then Some (Scenario.freeMemory (8 * Scenario.G))
  else if String.eqb id "n7" then Some (Scenario.freeMemory (7 * Scenario.G))
  else if String.eqb id "n6" then Some (Scenario.freeMemory (6 * Scenario.G))
  else if String.eqb id "n4" then Some (Scenario.freeMemory (9 * Scenario.G))
  else None.

Definition firstMetrics (id : NodeID) : option MetricMap :=
  if String.eqb id "n4" then Some (Scenario.freeMemory (4 * Scenario.G))
  else recoveredMetrics id.

Definition recoveringStore (ids : list NodeID) : list (NodeID * MetricMap) :=
  Scenario.metricsFrom
    (if (length ids <=? 3)%nat then firstMetrics else recoveredMetrics) ids.

Definition serviceRecovering : DBService :=
  mkDBService DefaultAllocationRounds ∅
    (Scenario.ringOf [Scenario.miner "n8"; Scenario.miner "n6"; Scenario.miner "n4";
                      Scenario.miner "n7"])
    recoveringStore false.

(** A ring with a node that the metric store has no record of. *)
Definition serviceUnknownNode : DBService :=
  mkDBService DefaultAllocationRounds ∅
    (Scenario.ringOf [Scenario.miner "n8"; Scenario.miner "n9"; Scenario.miner "n6";
                      Scenario.miner "n4"])
    (Scenario.metricsFrom Scenario.fiveMetrics) false.

(** A hash that has its leading zero bits only on inputs whose bytes sum to
    an odd number. *)
Definition pickyHash (data : list Z) : list Z :=
  if Z.odd (foldr Z.add 0 data) then Scenario.sumHash data else replicate 32 255.

Definition envPicky : Env :=
  mkEnv (Ok "bp-public") (Ok "bp-private") (Ok "bp0") ["bp0"]
    (fun _ _ => Ok "peers-signature") (fun _ => None) (fun _ => None)
    (fun _ _ => Ok "signature") (fun _ _ => Ok "signature")
    (fun _ _ => Ok "signature") 0
    (fun _ _ _ => None) (fun l => l) (fun _ => None) pickyHash.

(** The identifier that nonce 1 gives the requester of scenario S1, and a
    service map that holds it already. *)
Definition takenID : DatabaseID :=
  Eval vm_compute in
    Hash_String (pickyHash (replicate 32 7 ++ RPCClient.Uint256_Bytes 1)).

Definition serviceTaken : DBService :=
  mkDBService DefaultAllocationRounds
    {[ takenID := mkServiceInstance takenID None (mkResourceMeta 1 Scenario.G) None ]}
    (Scenario.ringOf []) (Scenario.metricsFrom Scenario.fiveMetrics) false.

End ScenarioMore.

(** *** Vocabulary of the further properties *)

Module DSNMore.

Import DSN.

(** The unreserved bytes of a URL: letters, digits and the four marks. *)
Definition isUnreserved (c : ascii) : bool :=
  (isAlnum c || memByte c ["-"; "_"; "."; "~"]%char)%bool.

Definition isUnreservedString (s : string) : bool := string_forallb isUnreserved s.

(** The bytes of a query that is carried as it is: unreserved bytes and the
    separators of parameters. *)
Definition isQueryByte (c : ascii) : bool :=
  (isUnreserved c || memByte c ["="; "&"]%char)%bool.

End DSNMore.

(** * Properties *)

(** ** client/config.go *)

Module DSNFacts.

Import DSN.

Lemma append_String a s t : String a s ++ t = String a (s ++ t).
Proof. reflexivity. Qed.

Lemma append_Empty t : "" ++ t = t.
Proof. reflexivity. Qed.

Lemma append_empty_r s : s ++ "" = s.
Proof. induction s as [|a r IH]; [done|]. by rewrite append_String, IH. Qed.

Lemma forallb_app p a b :
  string_forallb p (a ++ b) = (string_forallb p a && string_forallb p b)%bool.
Proof. induction a as [|c r IH]; simpl; [done|]. by rewrite IH, andb_assoc. Qed.

Lemma forallb_impl (p q : ascii -> bool) s :
  (forall c, p c = true -> q c = true) ->
  string_forallb p s = true -> string_forallb q s = true.
Proof.
  intros Hpq. induction s as [|a r IH]; simpl; [done|].
  intros [Ha Hr]%andb_true_iff. by rewrite (Hpq _ Ha), IH.
Qed.

(** A byte that fails [p] does not occur in a string whose bytes all pass. *)
Lemma forallb_cutByte p c s :
  string_forallb p s = true -> p c = false -> cutByte c s = None.
Proof.
  intros Hs Hc. induction s as [|a r IH]; simpl in *; [done|].
  apply andb_true_iff in Hs as [Ha Hr].
  destruct (Ascii.eqb_spec a c) as [->|_]; [congruence|].
  by rewrite IH.
Qed.

Lemma forallb_cutLastByte p c s :
  string_forallb p s = true -> p c = false -> cutLastByte c s = None.
Proof.
  intros Hs Hc. induction s as [|a r IH]; simpl in *; [done|].
  apply andb_true_iff in Hs as [Ha Hr]. rewrite IH by done.
  destruct (Ascii.eqb_spec a c) as [->|_]; [congruence|done].
Qed.

Lemma forallb_countByte p c s :
  string_forallb p s = true -> p c = false -> countByte c s = O.
Proof.
  intros Hs Hc. induction s as [|a r IH]; simpl in *; [done|].
  apply andb_true_iff in Hs as [Ha Hr]. rewrite IH by done.
  destruct (Ascii.eqb_spec a c) as [->|_]; [congruence|done].
Qed.

(** A hexadecimal digit is none of the bytes the URL syntax gives a meaning
    to. *)
Lemma ishex_plain c :
  ishex c = true ->
  shouldEscape c encodeHost = false /\ Ascii.eqb c "%" = false /\
  Ascii.eqb c "+" = false /\ isCTL c = false /\ Ascii.eqb c "[" = false.
Proof.
  destruct c as [[] [] [] [] [] [] [] []]; vm_compute; intros; repeat split; congruence.
Qed.

Lemma escape_hex s : isHexString s = true -> escape s encodeHost = s.
Proof.
  unfold isHexString. induction s as [|a r IH]; simpl; [done|].
  intros [Ha Hr]%andb_true_iff. destruct (ishex_plain a Ha) as (-> & _).
  by rewrite IH.
Qed.

Lemma unescape_hex s : isHexString s = true -> unescape s encodeHost = Ok s.
Proof.
  unfold isHexString. induction s as [|a r IH]; [done|].
  intros [Ha Hr]%andb_true_iff. destruct (ishex_plain a Ha) as (He & Hp & Hplus & _).
  cbn [unescape]. rewrite Hp, Hplus, He. cbn. rewrite andb_false_r.
  by rewrite IH.
Qed.

Lemma substring_all s : substring 0 (String.length s) s = s.
Proof. induction s as [|a r IH]; simpl; [done|]. by rewrite IH. Qed.

Lemma getScheme_dsn rest :
  getScheme (String "c" (String "o" (String "v" (String "e" (String "n"
    (String "a" (String "n" (String "t" (String "s" (String "q" (String "l"
    (String ":" rest)))))))))))) = Ok ("covenantsql", rest).
Proof. reflexivity. Qed.

Lemma hex_prefix_bracket id : isHexString id = true -> HasPrefix id "[" = false.
Proof.
  destruct id as [|a r]; [done|]. unfold isHexString. simpl.
  intros [Ha _]%andb_true_iff. destruct (ishex_plain a Ha) as (_ & _ & _ & _ & Hb).
  by rewrite Hb.
Qed.

Lemma parseHost_hex id : isHexString id = true -> parseHost id = Ok id.
Proof.
  intros Hid. unfold parseHost. rewrite hex_prefix_bracket by done.
  rewrite (forallb_cutLastByte ishex) by done. by apply unescape_hex.
Qed.

Lemma parseAuthority_hex id :
  isHexString id = true -> parseAuthority id = Ok (None, id).
Proof.
  intros Hid. unfold parseAuthority.
  rewrite (forallb_cutLastByte ishex) by done.
  by rewrite parseHost_hex.
Qed.

Lemma splitQuery_hex id :
  isHexString id = true ->
  splitQuery (String "/" (String "/" id)) = (String "/" (String "/" id), false, "").
Proof.
  intros Hid. unfold splitQuery. cbn [countByte cutByte].
  rewrite (forallb_countByte ishex), (forallb_cutByte ishex) by done.
  replace (Nat.eqb _ 1) with false by reflexivity.
  by rewrite andb_false_r.
Qed.

Lemma parseHier_hex id :
  isHexString id = true ->
  parseHier "covenantsql" (String "/" (String "/" id)) false "" =
  Ok (mkURL "covenantsql" "" None id "" "" false "" "").
Proof.
  intros Hid. unfold parseHier.
  replace (HasPrefix (String "/" (String "/" id)) "/") with true by reflexivity.
  replace (HasPrefix (String "/" (String "/" id)) "//") with true by reflexivity.
  cbn [negb andb orb String.eqb Ascii.eqb].
  replace (String.length (String "/" (String "/" id)) - 2)%nat
    with (String.length id) by (simpl; lia).
  change (substring 2 (String.length id) (String "/" (String "/" id)))
    with (substring 0 (String.length id) id).
  rewrite substring_all, (forallb_cutByte ishex) by done.
  rewrite parseAuthority_hex by done. reflexivity.
Qed.

(** Parsing the DSN of a hexadecimal identifier yields it as the host. *)
Lemma url_Parse_hex id :
  isHexString id = true ->
  url_Parse ("covenantsql://" ++ id) =
  Ok (mkURL "covenantsql" "" None id "" "" false "" "").
Proof.
  intros Hid.
  assert (Hcut : cutByte "#" ("covenantsql://" ++ id) = None).
  { apply (forallb_cutByte (fun c => negb (Ascii.eqb c "#"))); [|done].
    rewrite forallb_app. apply andb_true_iff. split; [reflexivity|].
    eapply forallb_impl; [|exact Hid].
    intros c Hc. by destruct c as [[] [] [] [] [] [] [] []]. }
  assert (Hctl : string_forallb (fun c => negb (isCTL c)) ("covenantsql://" ++ id) = true).
  { rewrite forallb_app. apply andb_true_iff. split; [reflexivity|].
    eapply forallb_impl; [|exact Hid].
    intros c Hc. by destruct (ishex_plain c Hc) as (_ & _ & _ & -> & _). }
  unfold url_Parse. rewrite Hcut. unfold parse. rewrite Hctl.
  rewrite !append_String, append_Empty.
  rewrite getScheme_dsn. cbn [negb bindR String.eqb Ascii.eqb Bool.eqb].
  rewrite splitQuery_hex by done.
  change (ToLower "covenantsql") with "covenantsql".
  by rewrite parseHier_hex.
Qed.

Lemma FormatDSN_hex id :
  isHexString id = true -> id <> "" ->
  FormatDSN (mkConfig id) = "covenantsql://" ++ id.
Proof.
  intros Hid Hne. unfold FormatDSN, url_String.
  cbn [Scheme Opaque User Host Path RawPath ForceQuery RawQuery Fragment].
  destruct id as [|a r]; [done|]. rewrite escape_hex by done.
  change (String.eqb (String a r) "") with false. cbn [negb orb andb escape].
  change (String.eqb DBScheme "") with false. change (String.eqb "" "") with true.
  cbn [negb orb andb]. rewrite !append_empty_r. reflexivity.
Qed.

(** A DSN without a scheme is completed with [DBScheme] before parsing; a
    host that is no host name is refused by the URL parser. *)
Example ParseDSN_bare_identifier :
  ParseDSN "cql" "abc123" = Ok (mkConfig "abc123").
Proof. reflexivity. Qed.

Example ParseDSN_bad_host :
  ParseDSN "cql" "covenantsql://ab cd" = Err (InvalidHostError " ").
Proof. reflexivity. Qed.

(** C9.  For every configuration whose [DatabaseID] is a non-empty string of
    hexadecimal digits, parsing the formatted DSN gives the configuration
    back, whatever the scheme alias is; formatting [{DatabaseID: "abc123"}]
    yields ["covenantsql://abc123"] and parsing that DSN yields
    [{DatabaseID: "abc123"}]. *)
Theorem ParseDSN_FormatDSN (alias : string) (cfg : Config) :
  isHexString (DatabaseID cfg) = true ->
  DatabaseID cfg <> "" ->
  ParseDSN alias (FormatDSN cfg) = Ok cfg /\
  FormatDSN (mkConfig "abc123") = "covenantsql://abc123" /\
  ParseDSN alias "covenantsql://abc123" = Ok (mkConfig "abc123").
Proof.
  destruct cfg as [id]. simpl. intros Hid Hne. split; [|split].
  - rewrite FormatDSN_hex by done. unfold ParseDSN.
    replace (HasPrefix ("covenantsql://" ++ id) DBScheme) with true by reflexivity.
    cbn [negb andb]. by rewrite url_Parse_hex.
  - reflexivity.
  - unfold ParseDSN.
    replace (HasPrefix "covenantsql://abc123" DBScheme) with true by reflexivity.
    cbn [negb andb]. reflexivity.
Qed.

Lemma ParseDSN_FormatDSN_witness :
  ParseDSN "cql" (FormatDSN (mkConfig "0a1b2c3d4e5f")) = Ok (mkConfig "0a1b2c3d4e5f") /\
  FormatDSN (mkConfig "abc123") = "covenantsql://abc123" /\
  ParseDSN "cql" "covenantsql://abc123" = Ok (mkConfig "abc123").
Proof.
  apply (ParseDSN_FormatDSN "cql" (mkConfig "0a1b2c3d4e5f")).
  - reflexivity.
  - discriminate.
Defined.

End DSNFacts.

(** ** blockproducer/interfaces/transaction_wrapper.go *)

Module TxWrapperFacts.

Import TxWrapper.

Section Codec.

Context {Transaction : Type}.
Context (TypeOf : Transaction -> rtype).
Context (newPtr newValue : rtype -> Transaction).
Context (DecFallback : option Transaction -> msgpack -> result (option Transaction)).
Context (ErrorIfNoField : bool).

Local Abbreviation decode :=
  (CodecDecodeSelf Transaction newPtr newValue DecFallback ErrorIfNoField).
Local Abbreviation newTx := (NewTransaction Transaction newPtr newValue).

Lemma RegisterTransaction_OK reg reg' t tx :
  registryOK reg ->
  RegisterTransaction Transaction TypeOf t tx reg = Done reg' ->
  registryOK reg'.
Proof.
  intros Hreg. unfold RegisterTransaction.
  destruct tx as [v|]; [|done].
  destruct (rtype_eqb (TypeOf v) txWrapperType) eqn:Hw; [done|].
  intros [= <-] t' rt'. rewrite lookup_insert.
  case_decide; [by intros [= <-]|]. apply Hreg.
Qed.

Lemma NewTransaction_unregistered reg t :
  reg !! t = None ->
  newTx reg t = Err (Wrapf ErrInvalidTransactionType "transaction not registered").
Proof. intros H. unfold NewTransaction. by rewrite H. Qed.

Lemma NewTransaction_registered reg t rt :
  reg !! t = Some rt ->
  rt_implementsTx rt = true ->
  rtype_eqb rt txWrapperType = false ->
  newTx reg t = Ok (if rt_isPtr rt then newPtr rt else newValue rt).
Proof.
  intros H Hi Hw. unfold NewTransaction. rewrite H, Hi, Hw. simpl.
  by destruct (rt_isPtr rt).
Qed.

Lemma UintV_fits v : 0 <= v < 2 ^ 32 -> UintV v 32 = Ok v.
Proof. intros Hv. unfold UintV. case_match; [done|]. lia. Qed.

(** C7, amended.  Decoding fails with [ErrInvalidContainerType] when the
    outer value is not an array (of whatever length); it fails with
    [ErrInvalidTransactionType] when the value is an array whose first element
    is nil, or an unsigned integer tag of 32 bits that is not registered; and
    decoding the one-element array [[tag]] of a registered tag yields the fresh
    zero value of the registered type. *)
Theorem CodecDecodeSelf_envelope (reg : registry) (v : msgpack)
    (rest : list msgpack) (t u : Z) (rt : rtype) :
  (forall elems, v <> MArray elems) ->
  0 <= u < 2 ^ 32 -> reg !! u = None ->
  0 <= t < 2 ^ 32 -> reg !! t = Some rt ->
  rt_implementsTx rt = true -> rtype_eqb rt txWrapperType = false ->
  (exists e, decode reg v = Err e /\ Cause e = ErrInvalidContainerType) /\
  decode reg (MArray (MNil :: rest)) = Err ErrInvalidTransactionType /\
  (exists e, decode reg (MArray (MUint u :: rest)) = Err e /\
             Cause e = ErrInvalidTransactionType) /\
  decode reg (MArray [MUint t]) =
    Ok (Some (if rt_isPtr rt then newPtr rt else newValue rt)).
Proof.
  intros Hv Hu Hru Ht Hrt Himpl Hwrap. split; [|split; [|split]].
  - exists (Wrapf ErrInvalidContainerType "type applied"). split; [|done].
    destruct v; try done. by destruct (Hv elems).
  - done.
  - exists (Wrapf ErrInvalidTransactionType "transaction not registered").
    split; [|done]. unfold CodecDecodeSelf. simpl.
    rewrite UintV_fits by done. simpl.
    by rewrite NewTransaction_unregistered.
  - unfold CodecDecodeSelf. simpl. rewrite UintV_fits by done. simpl.
    by rewrite (NewTransaction_registered _ _ rt).
Qed.

End Codec.

Lemma CodecDecodeSelf_envelope_witness :
  (exists e, Scenario.decodeS5 MNil = Err e /\ Cause e = ErrInvalidContainerType) /\
  Scenario.decodeS5 (MArray [MNil; MNil]) = Err ErrInvalidTransactionType /\
  (exists e, Scenario.decodeS5 (MArray [MUint 99; MNil]) = Err e /\
             Cause e = ErrInvalidTransactionType) /\
  Scenario.decodeS5 (MArray [MUint 7]) = Ok (Some "*types.Transfer").
Proof.
  apply (CodecDecodeSelf_envelope Scenario.zeroOf Scenario.zeroOf Scenario.keepBody
           false Scenario.registryS5 MNil [MNil] 7 99 Scenario.txS5).
  - discriminate.
  - lia.
  - reflexivity.
  - lia.
  - reflexivity.
  - reflexivity.
  - reflexivity.
Defined.

(** C7 as stated fails: arrays that do not have two elements pass the
    container check.  The empty array decodes to the nil transaction and a
    three-element array to the instance of its tag, neither with
    [ErrInvalidContainerType]; and a first element that is no integer at all
    fails with the error of the codec, not with [ErrInvalidTransactionType]. *)
Lemma CodecDecodeSelf_accepts_other_lengths :
  Scenario.decodeS5 (MArray []) = Ok None /\
  Scenario.decodeS5 (MArray [MUint 7; MNil; MNil]) = Ok (Some "*types.Transfer") /\
  exists e, Scenario.decodeS5 (MArray [MStr "seven"; MNil]) = Err e /\
            Cause e <> ErrInvalidTransactionType.
Proof.
  split; [reflexivity|]. split; [reflexivity|].
  eexists. split; [reflexivity|]. discriminate.
Qed.

End TxWrapperFacts.

(** ** rpc/client.go *)

Module RPCClientFacts.

Import RPCClient.


Lemma Uint256_Bytes_zero : Uint256_Bytes 0 = replicate 32 0.
Proof. reflexivity. Qed.


(** An anonymous dial over a connection that takes every byte is wrapped. *)
Example dial_anonymous_wrapped :
  dial Scenario.netGood "tcp" "10.250.100.2:2144" (replicate 32 9) tt true
  = (Some (NewConn tt tt (replicate 32 9)), None).
Proof. reflexivity. Qed.

(** A connection that reports a short write without an error makes [dial]
    return neither a connection nor an error. *)
Example dial_short_write_without_error :
  dial Scenario.netSilentShort "tcp" "10.250.100.2:2144" (replicate 32 9) tt false
  = (None, None).
Proof. reflexivity. Qed.


End RPCClientFacts.

(** ** The block producer's database service *)

Module DBSFacts.

Import DBS.

(** *** sort.Slice *)

Lemma insertLess_perm {A} (less : A -> A -> bool) x rp :
  insertLess less x rp ≡ₚ x :: rp.
Proof.
  induction rp as [|y rp IH]; simpl; [done|].
  destruct (less x y); [|done]. rewrite IH. apply Permutation_swap.
Qed.

Lemma insertAll_perm {A} (less : A -> A -> bool) data acc :
  fold_left (fun rp x => insertLess less x rp) data acc ≡ₚ (data ++ acc)%list.
Proof.
  revert acc. induction data as [|x data IH]; intros acc; simpl; [done|].
  rewrite IH, insertLess_perm. by rewrite Permutation_middle.
Qed.

Lemma sortSlice_perm {A} (less : A -> A -> bool) data :
  sortSlice less data ≡ₚ data.
Proof.
  unfold sortSlice. rewrite <- Permutation_rev.
  rewrite insertAll_perm. by rewrite app_nil_r.
Qed.





(** *** The metric loop *)

Lemma checkNode_inv memory nodeID nodeMetric excl allocated st' :
  checkNode memory nodeID nodeMetric (excl, allocated) = Done st' ->
  (st' = ({[nodeID]} ∪ excl, allocated) /\
   (getMetric nodeMetric MetricKeyFreeMemory = Fail ErrMetricNotCollected \/
    exists v, getMetric nodeMetric MetricKeyFreeMemory = Done v /\ v <= memory)) \/
  (exists v, getMetric nodeMetric MetricKeyFreeMemory = Done v /\ memory < v /\
     st' = (excl, allocated ++ [mkAllocatedNode nodeID v])%list).
Proof.
  unfold checkNode.
  destruct (getMetric nodeMetric MetricKeyFreeMemory) as [v|e|e] eqn:Hm; [| |done].
  - destruct (Z.ltb_spec memory v); intros [= <-].
    + right. by exists v.
    + left. split; [done|]. right. by exists v.
  - intros [= <-]. left. split; [done|]. left.
    clear -Hm. revert Hm. generalize MetricKeyFreeMemory.
    intros keys. induction keys as [|k keys IH]; simpl; [by intros [= <-]|].
    repeat case_match; try done; auto.
Qed.

Lemma checkMetrics_inv memory metrics excl allocated excl' allocated' :
  checkMetrics memory metrics (excl, allocated) = Done (excl', allocated') ->
  excl ⊆ excl' /\
  exists new, allocated' = (allocated ++ new)%list /\
    Forall (fun a => memory < allocatedNode_MemoryMetric a /\
                     allocatedNode_NodeID a ∈ metrics.*1) new.
Proof.
  revert excl allocated.
  induction metrics as [|[id m] metrics IH]; intros excl allocated; cbn [checkMetrics].
  - intros [= <- <-]. split; [done|]. exists []. by rewrite app_nil_r.
  - destruct (checkNode memory id m (excl, allocated)) as [[ex1 al1]|e|e] eqn:Hn;
      [|done|done].
    intros Hrest. destruct (IH _ _ Hrest) as (Hsub & new & Heq & Hnew).
    clear IH Hrest. subst allocated'.
    assert (Hnew' : Forall (fun a => memory < allocatedNode_MemoryMetric a /\
                     allocatedNode_NodeID a ∈ id :: metrics.*1) new).
    { eapply Forall_impl; [exact Hnew|]. intros a [? ?]. split; [done|].
      by apply list_elem_of_further. }
    apply checkNode_inv in Hn as [[[= -> ->] _]|(v & _ & Hv & [= -> ->])].
    + split; [set_solver|]. by exists new.
    + split; [done|]. exists (mkAllocatedNode id v :: new).
      split; [by rewrite <- app_assoc|].
      constructor; [|done]. simpl. split; [done|apply list_elem_of_here].
Qed.

(** *** buildPeers *)

Lemma fillServers_spec idx nodes servers servers' :
  fillServers idx nodes servers = Some servers' ->
  (nodes = [] \/ (idx + length nodes <= length servers)%nat) /\
  servers' = (take idx servers ++ (follower <$> nodes) ++
              drop (idx + length nodes) servers)%list.
Proof.
  revert idx servers. induction nodes as [|node nodes IH]; intros idx servers; simpl.
  - intros [= <-]. split; [by left|]. by rewrite Nat.add_0_r, take_drop.
  - case_bool_decide as Hidx; [|done]. intros Hrest.
    change (Some (mkServer Follower (Node_ID node) (Node_PublicKey node)))
      with (follower node) in Hrest.
    apply IH in Hrest as [Hlen ->]. rewrite length_insert in Hlen.
    split.
    { right. destruct Hlen as [->|]; simpl; lia. }
    rewrite take_insert_lt by lia.
    rewrite drop_insert_lt by lia.
    replace (S idx + length nodes)%nat with (idx + S (length nodes))%nat by lia.
    assert (Hsplit : <[idx:=follower node]> (take (S idx) servers)
                     = (take idx servers ++ [follower node])%list).
    { destruct (lookup_lt_is_Some_2 servers idx Hidx) as [x Hx].
      rewrite (take_S_r _ _ _ Hx).
      rewrite insert_app_r_alt by (rewrite length_take; lia).
      rewrite length_take. replace (idx - idx `min` length servers)%nat with O by lia.
      done. }
    rewrite Hsplit. by rewrite <- app_assoc.
Qed.

Lemma buildPeers_inv env term nodes allocated peers :
  buildPeers env term nodes allocated = Done peers ->
  Peers_Term peers = term /\
  length (Peers_Servers peers) = length allocated /\
  head (Peers_Servers peers) = Some (Peers_Leader peers) /\
  isLeaderAt0 (Peers_Servers peers) /\
  Forall (fun o => forall srv, o = Some srv -> Server_ID srv ∈ allocated)
    (Peers_Servers peers).
Proof.
  unfold buildPeers.
  destruct (GetLocalPublicKey env) as [pub|]; [|done].
  destruct (GetLocalPrivateKey env) as [priv|]; [|done].
  destruct (fillServers _ _ _) as [servers|] eqn:Hfill; [|done].
  apply fillServers_spec in Hfill as [Hlen Hservers].
  rewrite take_0, app_nil_l, Nat.add_0_l in Hservers.
  destruct servers as [|[first|] others]; [done| |done].
  destruct (Peers_Sign env priv _) as [sig|]; [|done].
  intros [= <-]. simpl.
  assert (Hl : length (Some first :: others) = length allocated).
  { rewrite Hservers, length_app, length_fmap, length_drop, length_replicate.
    rewrite length_replicate in Hlen. destruct Hlen as [->|]; simpl; lia. }
  assert (Hall : Forall (fun o => forall srv, o = Some srv ->
                   Server_Role srv = Follower /\ Server_ID srv ∈ allocated)
                   (Some first :: others)).
  { rewrite Hservers. apply Forall_app. split.
    - apply Forall_fmap, Forall_forall. intros node Hnode srv [= <-]. simpl.
      apply list_elem_of_filter in Hnode as [Hin _]. split; [done|set_solver].
    - apply Forall_forall. intros o Ho srv ->.
      apply subseteq_drop in Ho.
      by apply elem_of_replicate_inv in Ho. }
  apply Forall_cons in Hall as [Hfirst Hothers].
  split; [done|]. split; [exact Hl|]. split; [done|]. split.
  - exists (mkServer Leader (Server_ID first) (Server_PubKey first)), others.
    split; [done|]. split; [done|].
    eapply Forall_impl; [exact Hothers|]. intros o Ho srv Hs. by apply Ho.
  - constructor.
    + intros srv [= <-]. simpl. by apply (Hfirst first).
    + eapply Forall_impl; [exact Hothers|]. intros o Ho srv Hs. by apply Ho.
Qed.

(** *** allocateNodes *)

Lemma allocateRounds_Done env s rounds lastTerm dbID rm cur excl peers qs :
  allocateRounds env s rounds lastTerm dbID rm cur excl = (Done peers, qs) ->
  exists cur' excl0 excl' allocated,
    excl ⊆ excl0 /\
    checkMetrics (ResourceMeta_Memory rm)
      (NodeMetrics_GetMetrics s
         (candidateIDs (fst (Consistent_GetNeighborsEx s dbID cur' (rolesFilter s))) excl0))
      (excl0, []) = Done (excl', allocated) /\
    ResourceMeta_Node rm <= Z.of_nat (length allocated) /\
    buildPeers env (wrapU64 (lastTerm + 1))
      (fst (Consistent_GetNeighborsEx s dbID cur' (rolesFilter s)))
      (allocatedNode_NodeID <$> chosenNodes rm allocated) = Done peers.
Proof.
  revert cur excl qs. induction rounds as [|rounds IH]; intros cur excl qs; [done|].
  cbn [allocateRounds].
  set (nodes := fst (Consistent_GetNeighborsEx s dbID cur (rolesFilter s))).
  destruct (Z.ltb_spec (Z.of_nat (length (candidateIDs nodes excl))) (ResourceMeta_Node rm)).
  { destruct (allocateRounds env s rounds lastTerm dbID rm cur excl) as [r qs'] eqn:Hrec.
    intros Heq. assert (r = Done peers) as -> by congruence.
    by apply IH in Hrec. }
  destruct (checkMetrics _ _ _) as [[excl' allocated]|e|e] eqn:Hm; [|done|done].
  destruct (Z.leb_spec (ResourceMeta_Node rm) (Z.of_nat (length allocated))).
  - intros Heq. assert (Hb : buildPeers env (wrapU64 (lastTerm + 1)) nodes
                         (allocatedNode_NodeID <$> chosenNodes rm allocated)
                       = Done peers) by congruence.
    by exists cur, excl, excl', allocated.
  - destruct (allocateRounds env s rounds lastTerm dbID rm _ excl') as [r qs'] eqn:Hrec.
    intros Heq. assert (r = Done peers) as -> by congruence.
    apply IH in Hrec as (c & e0 & e1 & al & Hsub & ?).
    exists c, e0, e1, al. split; [|done].
    apply checkMetrics_inv in Hm as [Hsub' _].
    intros x Hx. by apply Hsub, Hsub'.
Qed.

Lemma allocateNodes_Done env s lastTerm dbID rm peers qs :
  allocateNodes env s lastTerm dbID rm = (Done peers, qs) ->
  0 < ResourceMeta_Node rm /\
  exists cur excl excl' allocated,
    checkMetrics (ResourceMeta_Memory rm)
      (NodeMetrics_GetMetrics s
         (candidateIDs (fst (Consistent_GetNeighborsEx s dbID cur (rolesFilter s))) excl))
      (excl, []) = Done (excl', allocated) /\
    ResourceMeta_Node rm <= Z.of_nat (length allocated) /\
    buildPeers env (wrapU64 (lastTerm + 1))
      (fst (Consistent_GetNeighborsEx s dbID cur (rolesFilter s)))
      (allocatedNode_NodeID <$> chosenNodes rm allocated) = Done peers.
Proof.
  unfold allocateNodes.
  destruct (Z.leb_spec (ResourceMeta_Node rm) 0) as [|Hpos]; [done|].
  intros (cur & excl & excl' & allocated & _ & Hm & Hn & Hb)%allocateRounds_Done.
  split; [done|]. by exists cur, excl, excl', allocated.
Qed.

(** The term of an allocated peer set is the last term plus one, in the
    arithmetic of [uint64]. *)
Lemma allocateNodes_term env s lastTerm dbID rm peers qs :
  allocateNodes env s lastTerm dbID rm = (Done peers, qs) ->
  Peers_Term peers = wrapU64 (lastTerm + 1).
Proof.
  intros (_ & cur & excl & excl' & allocated & _ & _ & Hb)%allocateNodes_Done.
  by apply buildPeers_inv in Hb as (Hterm & _).
Qed.

Lemma length_chosenNodes rm allocated :
  0 < ResourceMeta_Node rm ->
  ResourceMeta_Node rm <= Z.of_nat (length allocated) ->
  Z.of_nat (length (chosenNodes rm allocated)) = ResourceMeta_Node rm.
Proof.
  intros Hpos Hn. unfold chosenNodes.
  rewrite length_take, (Permutation_length (sortSlice_perm _ _)). lia.
Qed.

(** Scenario S1 on a ring that lists the 8G node first: the three nearest
    miners are accepted and the 8G node leads, with term 1. *)
Example allocateNodes_S1 :
  exists peers qs,
    allocateNodes Scenario.quietEnv Scenario.serviceS1 0 "db"
      (mkResourceMeta 3 (3 * Scenario.G)) = (Done peers, qs) /\
    serverIDs peers = [Some "n8"; Some "n6"; Some "n4"] /\
    leaderID peers = Some "n8" /\ Peers_Term peers = 1.
Proof. eexists _, _. split; [vm_compute; reflexivity|]. repeat split. Qed.

(** Scenario S2: with 5G requested only two miners qualify and the
    allocation is exhausted after three rounds. *)
Example allocateNodes_S2 :
  allocateNodes Scenario.quietEnv Scenario.serviceS1 0 "db"
    (mkResourceMeta 3 (5 * Scenario.G))
  = (Fail ErrDatabaseAllocation,
     [mkRingQuery "db" 3 [Miner]; mkRingQuery "db" 6 [Miner]; mkRingQuery "db" 9 [Miner]]).
Proof. vm_compute. reflexivity. Qed.




Lemma getMetric_absent (m : MetricMap) :
  m !! "node_memory_free_bytes_total" = None ->
  m !! "node_memory_MemFree_bytes" = None ->
  getMetric m MetricKeyFreeMemory = Fail ErrMetricNotCollected.
Proof. intros H1 H2. simpl. by rewrite H1, H2. Qed.

Lemma candidateIDs_excluded nodes (excl : gset string) id :
  id ∈ excl -> id ∉ candidateIDs nodes excl.
Proof.
  intros Hin (node & -> & Hnode)%list_elem_of_fmap.
  by apply list_elem_of_filter in Hnode as [Hnot _].
Qed.

(** The exclusion is permanent within a call: when the metric service
    answers for requested nodes only, no server of the result is in the
    exclusion set the remaining rounds started with. *)
Lemma allocateRounds_excluded env s rounds lastTerm dbID rm cur (excl : gset string) peers qs :
  (forall ids, (NodeMetrics_GetMetrics s ids).*1 ⊆ ids) ->
  allocateRounds env s rounds lastTerm dbID rm cur excl = (Done peers, qs) ->
  forall srv, Some srv ∈ Peers_Servers peers -> Server_ID srv ∉ excl.
Proof.
  intros Hkeys (cur' & excl0 & excl' & allocated & Hsub & Hm & _ & Hb)%allocateRounds_Done
    srv Hsrv Hin.
  apply buildPeers_inv in Hb as (_ & _ & _ & _ & Hids).
  rewrite Forall_forall in Hids. specialize (Hids _ Hsrv srv eq_refl).
  apply list_elem_of_fmap in Hids as (a & Ha & Hchosen).
  apply subseteq_take in Hchosen. rewrite sortSlice_perm in Hchosen.
  apply checkMetrics_inv in Hm as (_ & new & -> & Hnew). simpl in Hchosen.
  rewrite Forall_forall in Hnew. destruct (Hnew _ Hchosen) as [_ Hkey].
  apply Hkeys in Hkey. rewrite <- Ha in Hkey.
  eapply candidateIDs_excluded; [|exact Hkey]. by apply Hsub.
Qed.

(** *** CreateDatabase *)

(** A peer set whose servers can all be read has no nil entry. *)
Lemma peersToNodes_Done_servers peers nodes :
  peersToNodes (Some peers) = Done nodes ->
  Forall (fun o => exists srv, o = Some srv) (Peers_Servers peers).
Proof.
  unfold peersToNodes.
  destruct (mapM (fmap Server_ID) (Peers_Servers peers)) as [ids|] eqn:Hids; [|done].
  intros _. apply mapM_Some in Hids.
  induction Hids as [|o id servers ids Ho _ IH]; constructor; [|exact IH].
  destruct o as [srv|]; [by exists srv|done].
Qed.

(** C4.  When [CreateDatabase] returns without error, the instance in the
    response has the resource meta of the request and a peer set whose
    [Servers] has exactly [ResourceMeta.Node] entries, every one of them a
    server (none is nil); element 0 is the one server with the leader role,
    every other one is a follower, element 0 is the [Leader] of the peer set,
    and the term is the previous term 0 of the freshly mined identifier plus
    one. *)
Theorem CreateDatabase_peers env s fuel mfuel req run resp :
  CreateDatabase env s fuel mfuel req = Some run ->
  Run_result run = Done resp ->
  exists peers,
    ServiceInstance_Peers (CreateDatabaseResponse_InstanceMeta resp) = Some peers /\
    ServiceInstance_ResourceMeta (CreateDatabaseResponse_InstanceMeta resp)
      = CreateDatabaseRequest_ResourceMeta req /\
    Z.of_nat (length (Peers_Servers peers))
      = ResourceMeta_Node (CreateDatabaseRequest_ResourceMeta req) /\
    Forall (fun o => exists srv, o = Some srv) (Peers_Servers peers) /\
    isLeaderAt0 (Peers_Servers peers) /\
    head (Peers_Servers peers) = Some (Peers_Leader peers) /\
    Peers_Term peers = 0 + 1.
Proof.
  unfold CreateDatabase.
  destruct (CreateDatabaseRequest_Verify env req); [by intros [= <-]|].
  destruct (generateDatabaseID env s fuel mfuel _) as [dbID|]; [|done].
  destruct (allocateNodes env s 0 dbID _) as [[peers|e|e] qs] eqn:Halloc; cbn [fst];
    [|by intros [= <-]..].
  destruct (generateGenesisBlock env dbID _) as [genesis|]; [|by intros [= <-]].
  destruct (GetLocalPrivateKey env) as [priv|]; [|by intros [= <-]].
  destruct (signUpdateService env priv _) as [initReq [e|]]; [by intros [= <-]|].
  destruct (signUpdateService env priv _) as [rollbackReq [e|]]; [by intros [= <-]|].
  destruct (peersToNodes (Some peers)) as [nodes|e|e] eqn:Hnodes; [|by intros [= <-]..].
  destruct (batchSendSvcReq env _ _ nodes) as [[e|] calls]; [by intros [= <-]|].
  destruct (ServiceMap_Set env _ _) as [m [e|]]; [by intros [= <-]|].
  unfold signResponse.
  destruct (CreateDatabaseResponse_Sign env priv _) as [sig|e]; [|by intros [= <-]].
  intros [= <-] [= <-]. simpl. exists peers.
  apply allocateNodes_Done in Halloc
    as (Hpos & cur & excl & excl' & allocated & _ & Hn & Hb).
  apply buildPeers_inv in Hb as (Hterm & Hlen & Hhead & Hlead & _).
  split; [done|]. split; [done|]. split.
  { rewrite Hlen, length_fmap. by apply length_chosenNodes. }
  split; [by eapply peersToNodes_Done_servers|].
  split; [done|]. split; [done|]. by rewrite Hterm.
Qed.

Lemma CreateDatabase_peers_witness :
  exists run resp,
    CreateDatabase Scenario.quietEnv Scenario.serviceS1 1 1 Scenario.requestS1 = Some run /\
    Run_result run = Done resp /\
    exists peers,
      ServiceInstance_Peers (CreateDatabaseResponse_InstanceMeta resp) = Some peers /\
      ServiceInstance_ResourceMeta (CreateDatabaseResponse_InstanceMeta resp)
        = CreateDatabaseRequest_ResourceMeta Scenario.requestS1 /\
      Z.of_nat (length (Peers_Servers peers)) = 3 /\
      Forall (fun o => exists srv, o = Some srv) (Peers_Servers peers) /\
      isLeaderAt0 (Peers_Servers peers) /\
      head (Peers_Servers peers) = Some (Peers_Leader peers) /\
      Peers_Term peers = 0 + 1.
Proof.
  eexists _, _. split; [vm_compute; reflexivity|]. split; [reflexivity|].
  eapply (CreateDatabase_peers Scenario.quietEnv Scenario.serviceS1 1 1 Scenario.requestS1);
    [vm_compute; reflexivity|reflexivity].
Defined.

(** *** generateDatabaseID *)

Lemma ComputeBlockNonce_inv env fuel data start difficulty nonce :
  ComputeBlockNonce env fuel data start difficulty = Some nonce ->
  NonceInfo_Hash nonce = HashBlock env data (NonceInfo_Nonce nonce) /\
  difficulty <= leadingZeroBits (NonceInfo_Hash nonce).
Proof.
  revert start. induction fuel as [|fuel IH]; intros start; simpl; [done|].
  destruct (Z.leb_spec difficulty (leadingZeroBits (HashBlock env data start))).
  - by intros [= <-].
  - apply IH.
Qed.

Lemma ServiceMap_Get_Err (m : ServiceMapT) dbID e :
  ServiceMap_Get m dbID = Err e -> e = ErrNoSuchDatabase /\ m !! dbID = None.
Proof. unfold ServiceMap_Get. by destruct (m !! dbID); intros [= <-]. Qed.

Lemma generateDatabaseIDFrom_inv env m fuel mfuel reqNodeID start dbID nonce :
  generateDatabaseIDFrom env m fuel mfuel reqNodeID start = Some (dbID, nonce) ->
  dbID = Hash_String (NonceInfo_Hash nonce) /\
  NonceInfo_Hash nonce = HashBlock env reqNodeID (NonceInfo_Nonce nonce) /\
  4 <= leadingZeroBits (NonceInfo_Hash nonce) /\
  m !! dbID = None.
Proof.
  revert start. induction fuel as [|fuel IH]; intros start; simpl; [done|].
  destruct (ComputeBlockNonce env mfuel reqNodeID start 4) as [ni|] eqn:Hmine; [|done].
  destruct (ServiceMap_Get m _) as [inst|e] eqn:Hget; [apply IH|].
  apply ServiceMap_Get_Err in Hget as [-> Hfresh].
  intros [= <- <-]. by apply ComputeBlockNonce_inv in Hmine as [? ?].
Qed.

(** Termination of the search. *)

Lemma ComputeBlockNonce_mono env fuel fuel' data start difficulty nonce :
  ComputeBlockNonce env fuel data start difficulty = Some nonce ->
  (fuel <= fuel')%nat ->
  ComputeBlockNonce env fuel' data start difficulty = Some nonce.
Proof.
  revert fuel' start. induction fuel as [|fuel IH]; intros fuel' start; [done|].
  destruct fuel' as [|fuel']; [lia|]. simpl.
  destruct (difficulty <=? leadingZeroBits (HashBlock env data start)); [done|].
  intros H Hle. apply IH; [done|lia].
Qed.

Lemma ComputeBlockNonce_finds env k data start difficulty :
  difficulty <= leadingZeroBits (HashBlock env data (Nat.iter k Uint256_Inc start)) ->
  exists j nonce, (j <= k)%nat /\
    ComputeBlockNonce env (S k) data start difficulty = Some nonce /\
    NonceInfo_Nonce nonce = Nat.iter j Uint256_Inc start.
Proof.
  revert start. induction k as [|k IH]; intros start Hk.
  - exists O. simpl in *. destruct (Z.leb_spec difficulty
      (leadingZeroBits (HashBlock env data start))); [|lia]. by eexists.
  - cbn [ComputeBlockNonce].
    destruct (Z.leb_spec difficulty (leadingZeroBits (HashBlock env data start))).
    + exists O. eexists. split; [lia|]. done.
    + rewrite Nat.iter_succ_r in Hk. apply IH in Hk as (j & nonce & Hj & Hc & Hn).
      exists (S j), nonce. split; [lia|]. split; [done|].
      by rewrite Nat.iter_succ_r.
Qed.

Lemma generateDatabaseIDFrom_mono env m fuel fuel' mfuel mfuel' reqNodeID start r :
  generateDatabaseIDFrom env m fuel mfuel reqNodeID start = Some r ->
  (fuel <= fuel')%nat -> (mfuel <= mfuel')%nat ->
  generateDatabaseIDFrom env m fuel' mfuel' reqNodeID start = Some r.
Proof.
  revert fuel' start. induction fuel as [|fuel IH]; intros fuel' start; [done|].
  destruct fuel' as [|fuel']; [lia|]. simpl. intros H Hf Hm.
  destruct (ComputeBlockNonce env mfuel reqNodeID start 4) as [ni|] eqn:Hmine; [|done].
  rewrite (ComputeBlockNonce_mono _ _ mfuel' _ _ _ _ Hmine Hm).
  destruct (ServiceMap_Get m _) as [inst|[]]; try done; apply IH; (done || lia).
Qed.

(** The generator returns: when the [k]-th nonce after the start gives an
    accepted hash whose hex text is not in the service map, [S k] restarts of
    [S k] hashes each are enough. *)
Lemma generateDatabaseIDFrom_returns env (m : ServiceMapT) k reqNodeID start :
  4 <= leadingZeroBits (HashBlock env reqNodeID (Nat.iter k Uint256_Inc start)) ->
  m !! Hash_String (HashBlock env reqNodeID (Nat.iter k Uint256_Inc start)) = None ->
  exists r, generateDatabaseIDFrom env m (S k) (S k) reqNodeID start = Some r.
Proof.
  revert start. induction (lt_wf k) as [k _ IH]. intros start Hacc Hfresh.
  destruct (ComputeBlockNonce_finds env k reqNodeID start 4 Hacc)
    as (j & nonce & Hj & Hmine & Hnonce).
  cbn [generateDatabaseIDFrom]. rewrite Hmine.
  pose proof (ComputeBlockNonce_inv _ _ _ _ _ _ Hmine) as [Hh _].
  destruct (ServiceMap_Get m _) as [inst|e] eqn:Hget.
  2:{ apply ServiceMap_Get_Err in Hget as [-> _]. by eexists. }
  assert (j <> k) as Hne.
  { intros ->. unfold ServiceMap_Get in Hget.
    by rewrite Hh, Hnonce, Hfresh in Hget. }
  destruct (IH (k - S j)%nat ltac:(lia) (Uint256_Inc (NonceInfo_Nonce nonce))) as [r Hr].
  - rewrite Hnonce, <- Nat.iter_succ, <- Nat.iter_add.
    by replace (k - S j + S j)%nat with k by lia.
  - rewrite Hnonce, <- Nat.iter_succ, <- Nat.iter_add.
    by replace (k - S j + S j)%nat with k by lia.
  - exists r. eapply generateDatabaseIDFrom_mono; [exact Hr|lia|lia].
Qed.

(** *** Fan-out *)

Lemma batchSendSvcReq_all_nil env req rollbackReq nodes :
  (forall node, node ∈ arrival env nodes -> CallNode env node DBSDeploy req = None) ->
  batchSendSvcReq env req rollbackReq nodes = (None, deployCalls req nodes).
Proof.
  intros Hnil. unfold batchSendSvcReq, batchSendSingleSvcReq.
  destruct (arrival env nodes) as [|node rest]; [done|]. simpl.
  by rewrite (Hnil node) by apply list_elem_of_here.
Qed.

Lemma batchSendSvcReq_first_error env req rollbackReq nodes node rest e :
  arrival env nodes = node :: rest ->
  CallNode env node DBSDeploy req = Some e ->
  batchSendSvcReq env req rollbackReq nodes
    = (Some e, deployCalls req nodes ++ deployCalls rollbackReq nodes)%list.
Proof.
  intros Ha He. unfold batchSendSvcReq, batchSendSingleSvcReq.
  rewrite Ha. simpl. by rewrite He.
Qed.

(** Only the first result to arrive is read: when it is nil, the failures of
    the other targets go unnoticed. *)
Lemma batchSendSvcReq_first_nil env req rollbackReq nodes node rest :
  arrival env nodes = node :: rest ->
  CallNode env node DBSDeploy req = None ->
  batchSendSvcReq env req rollbackReq nodes = (None, deployCalls req nodes).
Proof.
  intros Ha He. unfold batchSendSvcReq, batchSendSingleSvcReq.
  rewrite Ha. simpl. by rewrite He.
Qed.

Lemma batchSendSvcReq_nil_calls env req rollbackReq nodes calls :
  batchSendSvcReq env req rollbackReq nodes = (None, calls) ->
  calls = deployCalls req nodes.
Proof.
  unfold batchSendSvcReq. destruct (batchSendSingleSvcReq env req nodes) as [[e|] c] eqn:H.
  - by destruct (batchSendSingleSvcReq env rollbackReq nodes).
  - intros [= <-]. unfold batchSendSingleSvcReq in H. by injection H as _ <-.
Qed.

(** C1, at scenario S6.  The second of three targets refuses the deployment
    and the results reach the error channel in dispatch order: the fan-out
    reads the nil of the first target, returns nil and sends no rollback. *)
Theorem batchSendSvcReq_S6_no_rollback :
  CallNode Scenario.envS6 "m2" DBSDeploy (Some Scenario.createReq)
    = Some Scenario.deployError /\
  batchSendSvcReq Scenario.envS6 (Some Scenario.createReq) (Some Scenario.dropReq)
    ["m1"; "m2"; "m3"]
  = (None, deployCalls (Some Scenario.createReq) ["m1"; "m2"; "m3"]).
Proof. split; reflexivity. Qed.

(** A round that finds fewer candidates than requested is followed by a round
    with the same range and the same exclusion set. *)
Lemma allocateRounds_few_candidates env s rounds lastTerm dbID rm cur excl :
  Z.of_nat (length (candidateIDs
    (fst (Consistent_GetNeighborsEx s dbID cur (rolesFilter s))) excl))
    < ResourceMeta_Node rm ->
  allocateRounds env s (S rounds) lastTerm dbID rm cur excl =
  (fst (allocateRounds env s rounds lastTerm dbID rm cur excl),
   mkRingQuery dbID cur (rolesFilter s)
     :: snd (allocateRounds env s rounds lastTerm dbID rm cur excl)).
Proof.
  intros Hfew. cbn [allocateRounds].
  destruct (Z.ltb_spec (Z.of_nat (length (candidateIDs
    (fst (Consistent_GetNeighborsEx s dbID cur (rolesFilter s))) excl)))
    (ResourceMeta_Node rm)); [|lia].
  by destruct (allocateRounds env s rounds lastTerm dbID rm cur excl).
Qed.

(** A round that accepts fewer nodes than requested is followed by a round
    whose range is wider by the requested count. *)
Lemma allocateRounds_few_accepted env s rounds lastTerm dbID rm cur excl excl' allocated :
  ResourceMeta_Node rm <= Z.of_nat (length (candidateIDs
    (fst (Consistent_GetNeighborsEx s dbID cur (rolesFilter s))) excl)) ->
  checkMetrics (ResourceMeta_Memory rm)
    (NodeMetrics_GetMetrics s (candidateIDs
       (fst (Consistent_GetNeighborsEx s dbID cur (rolesFilter s))) excl))
    (excl, []) = Done (excl', allocated) ->
  Z.of_nat (length allocated) < ResourceMeta_Node rm ->
  allocateRounds env s (S rounds) lastTerm dbID rm cur excl =
  (fst (allocateRounds env s rounds lastTerm dbID rm
          (wrapInt (cur + ResourceMeta_Node rm)) excl'),
   mkRingQuery dbID cur (rolesFilter s)
     :: snd (allocateRounds env s rounds lastTerm dbID rm
               (wrapInt (cur + ResourceMeta_Node rm)) excl')).
Proof.
  intros Hmany Hm Hfew. cbn [allocateRounds].
  destruct (Z.ltb_spec (Z.of_nat (length (candidateIDs
    (fst (Consistent_GetNeighborsEx s dbID cur (rolesFilter s))) excl)))
    (ResourceMeta_Node rm)); [lia|].
  rewrite Hm.
  destruct (Z.leb_spec (ResourceMeta_Node rm) (Z.of_nat (length allocated))); [lia|].
  by destruct (allocateRounds env s rounds lastTerm dbID rm _ excl').
Qed.

(** C6, on a ring of three miners with [N = 3].  Round 1 finds two
    candidates only and leaves the range alone: round 2 queries the range 6
    again, not 9. *)
Theorem allocateNodes_range_not_widened :
  RingQuery_range <$>
    snd (allocateNodes Scenario.quietEnv Scenario.serviceSmallRing 0 "db"
           (mkResourceMeta 3 (5 * Scenario.G)))
  = [3; 6; 6].
Proof. vm_compute. reflexivity. Qed.

(** *** DropDatabase *)

(** C10.  When the request is verified, the instance is known, both local keys
    are available and signing the drop request fails, [DropDatabase] does not
    stop: the unsigned request is fanned out to the peers of the instance, and
    when the fan-out reports nil and the store acknowledges, the instance is
    deleted from the service map and the result is nil. *)
Theorem DropDatabase_sign_error_ignored env s req instanceMeta signee privateKey e nodes :
  DropDatabaseRequest_Verify env req = None ->
  ServiceMap s !! DropDatabaseRequest_DatabaseID req = Some instanceMeta ->
  GetLocalPublicKey env = Ok signee ->
  GetLocalPrivateKey env = Ok privateKey ->
  peersToNodes (ServiceInstance_Peers instanceMeta) = Done nodes ->
  let dropDBSvcReq :=
    mkUpdateService DropDB
      (mkServiceInstance (DropDatabaseRequest_DatabaseID req) None zeroResourceMeta None)
      (Some signee) None in
  UpdateService_Sign env privateKey dropDBSvcReq = Err e ->
  fst (batchSendSvcReq env (Some dropDBSvcReq) None nodes) = None ->
  storeCommit env (StoreDelete (DropDatabaseRequest_DatabaseID req)) = None ->
  DropDatabase env s req =
    mkRun (Done tt) (delete (DropDatabaseRequest_DatabaseID req) (ServiceMap s))
      (deployCalls (Some dropDBSvcReq) nodes).
Proof.
  intros Hverify Hget Hpub Hpriv Hnodes dropDBSvcReq Hsign Hsend Hcommit.
  unfold DropDatabase, ServiceMap_Get, ServiceMap_Delete, signUpdateService.
  rewrite Hverify, Hget, Hpub, Hpriv. fold dropDBSvcReq. rewrite Hsign, Hnodes.
  cbn [fst].
  destruct (batchSendSvcReq env (Some dropDBSvcReq) None nodes) as [err calls] eqn:Hb.
  simpl in Hsend. subst err. rewrite Hcommit.
  by rewrite (batchSendSvcReq_nil_calls _ _ _ _ _ Hb).
Qed.

Lemma DropDatabase_sign_error_ignored_witness :
  UpdateService_Sign Scenario.envBadSign "bp-private"
    (mkUpdateService DropDB (mkServiceInstance "db" None zeroResourceMeta None)
       (Some "bp-public") None) = Err Scenario.signError /\
  DropDatabase Scenario.envBadSign Scenario.serviceDeployed (mkDropDatabaseRequest "db") =
    mkRun (Done tt) (delete "db" (ServiceMap Scenario.serviceDeployed))
      (deployCalls
         (Some (mkUpdateService DropDB (mkServiceInstance "db" None zeroResourceMeta None)
                  (Some "bp-public") None)) ["m1"; "m2"]).
Proof.
  split; [reflexivity|].
  apply (DropDatabase_sign_error_ignored Scenario.envBadSign Scenario.serviceDeployed
           (mkDropDatabaseRequest "db")
           (mkServiceInstance "db" (Some Scenario.deployedPeers)
              (mkResourceMeta 2 Scenario.G) None)
           "bp-public" "bp-private" Scenario.signError ["m1"; "m2"]);
    reflexivity.
Defined.

(** *** The exclusion set through the rounds of one allocation *)

(** Every record of the metric loop is judged: its node ends up in the
    exclusion set or in the accepted list. *)
Lemma checkMetrics_records memory metrics excl allocated excl' allocated' :
  checkMetrics memory metrics (excl, allocated) = Done (excl', allocated') ->
  forall nodeID m, (nodeID, m) ∈ metrics ->
    match getMetric m MetricKeyFreeMemory with
    | Fail _ => nodeID ∈ excl'
    | Done v =>
        if memory <? v then mkAllocatedNode nodeID v ∈ allocated' else nodeID ∈ excl'
    | Panic _ => False
    end.
Proof.
  revert excl allocated.
  induction metrics as [|[id0 m0] rest IH]; intros excl allocated Hrun nodeID m Hin.
  { by apply elem_of_nil in Hin. }
  cbn [checkMetrics] in Hrun.
  destruct (checkNode memory id0 m0 (excl, allocated)) as [[excl1 alloc1]|e|e] eqn:Hnode;
    [|done..].
  apply elem_of_cons in Hin as [[= -> ->]|Hin]; [|by eapply IH].
  apply checkMetrics_inv in Hrun as (Hsub & new & -> & _).
  unfold checkNode in Hnode.
  destruct (getMetric m0 MetricKeyFreeMemory) as [v|e|e]; [| |done].
  - destruct (memory <? v); injection Hnode as <- <-.
    + apply elem_of_app. left. apply elem_of_app. right. apply list_elem_of_here.
    + apply Hsub. apply elem_of_union_l. by apply elem_of_singleton.
  - injection Hnode as <- <-. apply Hsub. apply elem_of_union_l. by apply elem_of_singleton.
Qed.

(** C3, amended.  In a round of one allocation call that reaches the metric
    loop, every node for which the metric store returns a record is judged:
    with no free-memory key present (or no readable value) it is added to the
    exclusion set, with a value less than or equal to the requested memory
    it is added to the exclusion set, and with a value strictly greater it is
    recorded as accepted with that value.  The exclusion set only grows, a
    round that does not allocate hands it to the next round, and so an
    excluded node is no candidate of any later ring answer and, with a metric
    store that answers only for the nodes asked about, is not among the
    servers the call returns. *)
Theorem allocateRounds_exclusion env s (rounds : nat) lastTerm dbID rm cur
    (excl excl' : gset string) (allocated : list allocatedNode) :
  let nodes := fst (Consistent_GetNeighborsEx s dbID cur (rolesFilter s)) in
  let metrics := NodeMetrics_GetMetrics s (candidateIDs nodes excl) in
  let memory := ResourceMeta_Memory rm in
  let rest := allocateRounds env s rounds lastTerm dbID rm
                (wrapInt (cur + ResourceMeta_Node rm)) excl' in
  ResourceMeta_Node rm <= Z.of_nat (length (candidateIDs nodes excl)) ->
  checkMetrics memory metrics (excl, []) = Done (excl', allocated) ->
  (forall nodeID m, (nodeID, m) ∈ metrics ->
     (m !! "node_memory_free_bytes_total" = None ->
      m !! "node_memory_MemFree_bytes" = None -> nodeID ∈ excl') /\
     (forall e, getMetric m MetricKeyFreeMemory = Fail e -> nodeID ∈ excl') /\
     (forall v, getMetric m MetricKeyFreeMemory = Done v -> v <= memory ->
        nodeID ∈ excl') /\
     (forall v, getMetric m MetricKeyFreeMemory = Done v -> memory < v ->
        mkAllocatedNode nodeID v ∈ allocated)) /\
  excl ⊆ excl' /\
  (Z.of_nat (length allocated) < ResourceMeta_Node rm ->
   allocateRounds env s (S rounds) lastTerm dbID rm cur excl =
   (fst rest, mkRingQuery dbID cur (rolesFilter s) :: snd rest)) /\
  (forall nodeID, nodeID ∈ excl' ->
     (forall nodes' (later : gset string), excl' ⊆ later ->
        nodeID ∉ candidateIDs nodes' later) /\
     ((forall ids, (NodeMetrics_GetMetrics s ids).*1 ⊆ ids) ->
      Z.of_nat (length allocated) < ResourceMeta_Node rm ->
      forall peers qs,
        allocateRounds env s (S rounds) lastTerm dbID rm cur excl = (Done peers, qs) ->
        forall srv, Some srv ∈ Peers_Servers peers -> Server_ID srv <> nodeID)).
Proof.
  intros nodes metrics memory rest Hcand Hrun.
  pose proof (checkMetrics_records _ _ _ _ _ _ Hrun) as Hrec.
  split; [|split; [|split]].
  - intros nodeID m Hin. specialize (Hrec nodeID m Hin).
    split; [|split; [|split]].
    + intros H1 H2. by rewrite (getMetric_absent m H1 H2) in Hrec.
    + intros e He. by rewrite He in Hrec.
    + intros v Hv Hle. rewrite Hv in Hrec.
      destruct (Z.ltb_spec memory v); [lia|done].
    + intros v Hv Hlt. rewrite Hv in Hrec.
      destruct (Z.ltb_spec memory v); [done|lia].
  - by apply checkMetrics_inv in Hrun as [? _].
  - intros Hfew. by apply (allocateRounds_few_accepted env s rounds lastTerm dbID rm cur
                             excl excl' allocated).
  - intros nodeID Hex. split.
    + intros nodes' later Hsub. apply candidateIDs_excluded. by apply Hsub.
    + intros Hkeys Hfew peers qs Hdone srv Hsrv Heq.
      rewrite (allocateRounds_few_accepted env s rounds lastTerm dbID rm cur
                 excl excl' allocated Hcand Hrun Hfew) in Hdone.
      fold rest in Hdone. destruct rest as [r qs'] eqn:Hrest. cbn [fst snd] in Hdone.
      injection Hdone as -> _.
      apply (allocateRounds_excluded env s rounds lastTerm dbID rm _ excl' peers qs'
               Hkeys Hrest srv Hsrv).
      by rewrite Heq.
Qed.

Lemma metricsFrom_subset table ids : (Scenario.metricsFrom table ids).*1 ⊆ ids.
Proof.
  unfold Scenario.metricsFrom. induction ids as [|id ids IH]; [done|].
  cbn [omap list_omap]. destruct (table id) as [m|]; cbn [fmap option_fmap option_map].
  - cbn [fmap list_fmap fst]. intros x Hx. apply elem_of_cons in Hx as [->|Hx].
    + apply list_elem_of_here.
    + apply list_elem_of_further. by apply IH.
  - intros x Hx. apply list_elem_of_further. by apply IH.
Qed.

(** The 4G node is excluded in the first round; the store rates it at 9G when
    it is asked about four nodes, yet the second round leaves it out. *)
Lemma allocateRounds_exclusion_witness :
  checkMetrics (5 * Scenario.G) (ScenarioMore.recoveringStore ["n8"; "n6"; "n4"])
    (list_to_set ["bp0"], [])
  = Done ({["n4"]} ∪ list_to_set ["bp0"],
          [mkAllocatedNode "n8" (8 * Scenario.G); mkAllocatedNode "n6" (6 * Scenario.G)]) /\
  ScenarioMore.recoveredMetrics "n4" = Some (Scenario.freeMemory (9 * Scenario.G)) /\
  (exists peers qs,
     allocateNodes Scenario.quietEnv ScenarioMore.serviceRecovering 0 "db"
       (mkResourceMeta 3 (5 * Scenario.G)) = (Done peers, qs) /\
     serverIDs peers = [Some "n8"; Some "n6"; Some "n7"] /\
     RingQuery_range <$> qs = [3; 6]) /\
  (forall peers qs,
     allocateRounds Scenario.quietEnv ScenarioMore.serviceRecovering 3 0 "db"
       (mkResourceMeta 3 (5 * Scenario.G)) 3 (list_to_set ["bp0"]) = (Done peers, qs) ->
     forall srv, Some srv ∈ Peers_Servers peers -> Server_ID srv <> "n4").
Proof.
  assert (Hcand : ResourceMeta_Node (mkResourceMeta 3 (5 * Scenario.G)) <=
            Z.of_nat (length (candidateIDs
              (fst (Consistent_GetNeighborsEx ScenarioMore.serviceRecovering "db" 3
                      (rolesFilter ScenarioMore.serviceRecovering)))
              (list_to_set ["bp0"])))) by (vm_compute; discriminate).
  assert (Hrun : checkMetrics (5 * Scenario.G) (ScenarioMore.recoveringStore ["n8"; "n6"; "n4"])
            (list_to_set ["bp0"], [])
          = Done ({["n4"]} ∪ list_to_set ["bp0"],
                  [mkAllocatedNode "n8" (8 * Scenario.G);
                   mkAllocatedNode "n6" (6 * Scenario.G)])) by (vm_compute; reflexivity).
  destruct (allocateRounds_exclusion Scenario.quietEnv ScenarioMore.serviceRecovering 2 0 "db"
              (mkResourceMeta 3 (5 * Scenario.G)) 3 (list_to_set ["bp0"])
              ({["n4"]} ∪ list_to_set ["bp0"])
              [mkAllocatedNode "n8" (8 * Scenario.G); mkAllocatedNode "n6" (6 * Scenario.G)]
              Hcand Hrun) as (_ & _ & _ & Hperm).
  split; [exact Hrun|]. split; [reflexivity|].
  split; [eexists _, _; split; [vm_compute; reflexivity|split; reflexivity]|].
  apply (Hperm "n4").
  - vm_compute. reflexivity.
  - intros ids. apply metricsFrom_subset.
  - vm_compute. reflexivity.
Defined.

(** C3 as stated fails on two counts.  At equality: a node whose free memory
    equals the requested memory is excluded, not accepted.  And not every
    candidate is judged: a candidate the metric store returns no record for
    is neither excluded nor accepted, and is a candidate again in the next
    round. *)
Lemma allocation_exclusion_counterexample :
  (getMetric (Scenario.freeMemory (4 * Scenario.G)) MetricKeyFreeMemory
     = Done (4 * Scenario.G) /\
   4 * Scenario.G >= 4 * Scenario.G /\
   checkNode (4 * Scenario.G) "n4" (Scenario.freeMemory (4 * Scenario.G)) (∅, [])
     = Done ({["n4"]} ∪ ∅, []) /\
   checkNode (4 * Scenario.G) "n4" (Scenario.freeMemory (4 * Scenario.G)) (∅, [])
     <> Done (∅, [mkAllocatedNode "n4" (4 * Scenario.G)])) /\
  (candidateIDs
     (fst (Consistent_GetNeighborsEx ScenarioMore.serviceUnknownNode "db" 3
             (rolesFilter ScenarioMore.serviceUnknownNode))) (list_to_set ["bp0"])
     = ["n8"; "n9"; "n6"] /\
   NodeMetrics_GetMetrics ScenarioMore.serviceUnknownNode ["n8"; "n9"; "n6"]
     = [("n8", Scenario.freeMemory (8 * Scenario.G));
        ("n6", Scenario.freeMemory (6 * Scenario.G))] /\
   checkMetrics (3 * Scenario.G)
     (NodeMetrics_GetMetrics ScenarioMore.serviceUnknownNode ["n8"; "n9"; "n6"])
     (list_to_set ["bp0"], [])
     = Done (list_to_set ["bp0"],
             [mkAllocatedNode "n8" (8 * Scenario.G);
              mkAllocatedNode "n6" (6 * Scenario.G)]) /\
   RingQuery_range <$>
     snd (allocateNodes Scenario.quietEnv ScenarioMore.serviceUnknownNode 0 "db"
            (mkResourceMeta 3 (3 * Scenario.G))) = [3; 6] /\
   candidateIDs
     (fst (Consistent_GetNeighborsEx ScenarioMore.serviceUnknownNode "db" 6
             (rolesFilter ScenarioMore.serviceUnknownNode))) (list_to_set ["bp0"])
     = ["n8"; "n9"; "n6"; "n4"]).
Proof.
  split.
  - split; [reflexivity|]. split; [vm_compute; congruence|]. split; [reflexivity|].
    vm_compute. congruence.
  - split; [vm_compute; reflexivity|]. split; [reflexivity|].
    split; [vm_compute; reflexivity|]. split; [vm_compute; reflexivity|].
    vm_compute. reflexivity.
Qed.

(** *** The identifier generator returns *)

Lemma iter_Inc_shift k start :
  Nat.iter k Uint256_Inc (Uint256_Inc start) = Nat.iter (S k) Uint256_Inc start.
Proof. by rewrite Nat.iter_succ_r. Qed.

Lemma generateDatabaseIDFrom_first env (m : ServiceMapT) k :
  forall reqNodeID start fuel mfuel,
  let h j := HashBlock env reqNodeID (Nat.iter j Uint256_Inc start) in
  4 <= leadingZeroBits (h k) ->
  m !! Hash_String (h k) = None ->
  (forall j, (j < k)%nat ->
     leadingZeroBits (h j) < 4 \/ m !! Hash_String (h j) <> None) ->
  (S k <= fuel)%nat -> (S k <= mfuel)%nat ->
  generateDatabaseIDFrom env m fuel mfuel reqNodeID start =
  Some (Hash_String (h k),
        mkNonceInfo (Nat.iter k Uint256_Inc start) (leadingZeroBits (h k)) (h k)).
Proof.
  induction k as [|k IH]; intros reqNodeID start fuel mfuel h Hd Hfree Hbefore Hfuel Hmfuel.
  - destruct fuel as [|fuel]; [lia|]. destruct mfuel as [|mfuel]; [lia|].
    subst h. cbv beta in *.
    assert (H0 : Nat.iter 0 Uint256_Inc start = start) by reflexivity.
    rewrite H0 in *.
    cbn [generateDatabaseIDFrom ComputeBlockNonce].
    destruct (Z.leb_spec 4 (leadingZeroBits (HashBlock env reqNodeID start))); [|lia].
    cbn [NonceInfo_Hash NonceInfo_Nonce]. unfold ServiceMap_Get. by rewrite Hfree.
  - destruct fuel as [|fuel]; [lia|]. destruct mfuel as [|mfuel]; [lia|].
    assert (Hshift : forall j, h (S j) =
              HashBlock env reqNodeID (Nat.iter j Uint256_Inc (Uint256_Inc start))).
    { intros j. subst h. cbv beta. by rewrite iter_Inc_shift. }
    assert (Hnext : forall fuel' mfuel', (S k <= fuel')%nat -> (S k <= mfuel')%nat ->
              generateDatabaseIDFrom env m fuel' mfuel' reqNodeID (Uint256_Inc start) =
              Some (Hash_String (h (S k)),
                    mkNonceInfo (Nat.iter (S k) Uint256_Inc start)
                      (leadingZeroBits (h (S k))) (h (S k)))).
    { intros fuel' mfuel' Hf Hmf.
      rewrite (IH reqNodeID (Uint256_Inc start) fuel' mfuel'); try lia.
      - rewrite <- !Hshift. by rewrite iter_Inc_shift.
      - by rewrite <- Hshift.
      - by rewrite <- Hshift.
      - intros j Hj. rewrite <- Hshift. apply Hbefore. lia. }
    destruct (Hbefore 0%nat ltac:(lia)) as [Hlow|Htaken].
    + (* the miner passes nonce [start] *)
      specialize (Hnext (S fuel) mfuel ltac:(lia) ltac:(lia)).
      cbn [generateDatabaseIDFrom ComputeBlockNonce] in Hnext |- *.
      subst h. cbv beta in Hlow.
      assert (H0 : Nat.iter 0 Uint256_Inc start = start) by reflexivity.
      rewrite H0 in Hlow.
      destruct (Z.leb_spec 4 (leadingZeroBits (HashBlock env reqNodeID start))); [lia|].
      destruct (ComputeBlockNonce env mfuel reqNodeID (Uint256_Inc start) 4)
        as [nonce|]; [|done].
      destruct (ServiceMap_Get m _) as [inst|[]]; try done;
        by apply (generateDatabaseIDFrom_mono env m fuel fuel mfuel (S mfuel)); [|lia|lia].
    + (* the identifier of nonce [start] is taken *)
      cbn [generateDatabaseIDFrom ComputeBlockNonce].
      destruct (Z.leb_spec 4 (leadingZeroBits (HashBlock env reqNodeID start))) as [Hok|Hlow].
      * cbn [NonceInfo_Hash NonceInfo_Nonce]. unfold ServiceMap_Get.
        subst h. cbv beta in Htaken.
        assert (H0 : Nat.iter 0 Uint256_Inc start = start) by reflexivity.
        rewrite H0 in Htaken.
        destruct (m !! Hash_String (HashBlock env reqNodeID start)); [|done].
        apply Hnext; lia.
      * specialize (Hnext (S fuel) mfuel ltac:(lia) ltac:(lia)).
        cbn [generateDatabaseIDFrom] in Hnext.
        destruct (ComputeBlockNonce env mfuel reqNodeID (Uint256_Inc start) 4)
          as [nonce|]; [|done].
        destruct (ServiceMap_Get m _) as [inst|[]]; try done;
          by apply (generateDatabaseIDFrom_mono env m fuel fuel mfuel (S mfuel)); [|lia|lia].
Qed.

(** C5.  Every database identifier the generator returns is the hex text of
    the hash of the requester's raw node identifier followed by the bytes of
    a nonce, that hash has at least 4 leading zero bits, and the identifier
    is not a key of the service map, whose lookup answers
    [ErrNoSuchDatabase].  And the generator does produce it: with the nonces
    counted from zero, it returns the identifier of the first nonce whose hash
    has 4 leading zero bits and whose hex text the service map does not hold,
    having passed over every earlier nonce, once the miner and the loop are
    given as many steps as that nonce needs. *)
Theorem generateDatabaseID_fresh env s reqNodeID :
  let h (nonce : Z) := hashFn env (reqNodeID ++ RPCClient.Uint256_Bytes nonce)%list in
  let nth (j : nat) := Nat.iter j Uint256_Inc 0 in
  (forall fuel mfuel dbID,
     generateDatabaseID env s fuel mfuel reqNodeID = Some dbID ->
     exists nonce,
       dbID = Hash_String (h nonce) /\
       4 <= leadingZeroBits (h nonce) /\
       ServiceMap s !! dbID = None /\
       ServiceMap_Get (ServiceMap s) dbID = Err ErrNoSuchDatabase) /\
  (forall k : nat,
     4 <= leadingZeroBits (h (nth k)) ->
     ServiceMap s !! Hash_String (h (nth k)) = None ->
     (forall j, (j < k)%nat ->
        leadingZeroBits (h (nth j)) < 4 \/
        ServiceMap s !! Hash_String (h (nth j)) <> None) ->
     forall fuel mfuel, (S k <= fuel)%nat -> (S k <= mfuel)%nat ->
       generateDatabaseID env s fuel mfuel reqNodeID = Some (Hash_String (h (nth k)))).
Proof.
  intros h nth. split.
  - intros fuel mfuel dbID. unfold generateDatabaseID.
    destruct (generateDatabaseIDFrom _ _ _ _ _ _) as [[id ni]|] eqn:Hgen; [|done].
    intros [= <-]. apply generateDatabaseIDFrom_inv in Hgen as (-> & Hh & Hd & Hfresh).
    exists (NonceInfo_Nonce ni). subst h. cbv beta. unfold HashBlock in Hh. rewrite <- Hh.
    split; [done|]. split; [done|]. split; [done|].
    unfold ServiceMap_Get. by destruct (ServiceMap s !! _).
  - intros k Hd Hfree Hbefore fuel mfuel Hf Hmf. unfold generateDatabaseID.
    by rewrite (generateDatabaseIDFrom_first env (ServiceMap s) k reqNodeID 0 fuel mfuel
                  Hd Hfree Hbefore Hf Hmf).
Qed.

(** Nonces 0 and 2 are refused by the miner and the identifier of nonce 1 is
    taken: the generator returns the identifier of nonce 3. *)
Lemma generateDatabaseID_fresh_witness :
  Hash_String (ScenarioMore.pickyHash (replicate 32 7 ++ RPCClient.Uint256_Bytes 1)) = ScenarioMore.takenID /\
  ServiceMap ScenarioMore.serviceTaken !! ScenarioMore.takenID <> None /\
  forall fuel mfuel, (4 <= fuel)%nat -> (4 <= mfuel)%nat ->
    generateDatabaseID ScenarioMore.envPicky ScenarioMore.serviceTaken fuel mfuel (replicate 32 7)
    = Some (Hash_String (ScenarioMore.pickyHash (replicate 32 7 ++ RPCClient.Uint256_Bytes 3))).
Proof.
  split; [reflexivity|]. split; [vm_compute; discriminate|].
  apply (proj2 (generateDatabaseID_fresh ScenarioMore.envPicky ScenarioMore.serviceTaken (replicate 32 7)) 3%nat).
  - vm_compute. discriminate.
  - vm_compute. reflexivity.
  - intros j Hj. destruct j as [|[|[|j]]]; [left|right|left|lia].
    + vm_compute. reflexivity.
    + vm_compute. discriminate.
    + vm_compute. reflexivity.
Defined.

End DBSFacts.

(** ** Further properties of the database service *)

Module DBSExtra.

Import DBS DBSQuery DBSFacts.

(** *** getMetric *)

Lemma getMetric_skip (m : MetricMap) key keys :
  usableKey m key = false -> getMetric m (key :: keys) = getMetric m keys.
Proof.
  unfold usableKey, usableFamily. cbn [getMetric].
  destruct (m !! key) as [[f|]|]; [|done|done].
  by destruct (MetricFamily_Type f).
Qed.

(** X1.  The first key of the list that is present with a gauge or a counter
    family decides the result of [getMetric], whatever the later keys hold:
    the value is read from the first metric of that family, and a family
    with an empty metric list makes the call panic. *)
Theorem getMetric_first_usable (m : MetricMap) (before after : list string)
    (key : string) (f : MetricFamily) :
  Forall (fun k => usableKey m k = false) before ->
  m !! key = Some (Some f) ->
  usableFamily f = true ->
  getMetric m (before ++ key :: after)%list =
  match MetricFamily_Metric f with
  | [] => Panic indexOutOfRange
  | x :: _ => Done (familyValue f x)
  end.
Proof.
  intros Hbefore Hkey Hf. induction Hbefore as [|k before Hk _ IH].
  - cbn [app getMetric]. rewrite Hkey. unfold usableFamily in Hf. unfold familyValue.
    by destruct (MetricFamily_Type f).
  - cbn [app]. by rewrite getMetric_skip.
Qed.

Lemma getMetric_first_usable_witness :
  getMetric
    (<["node_memory_free_bytes_total" :=
         Some (mkMetricFamily MetricType_SUMMARY [mkMetric (Some 1) None])]>
       (Scenario.freeMemory (6 * Scenario.G)))
    MetricKeyFreeMemory = Done (6 * Scenario.G).
Proof.
  apply (getMetric_first_usable _ ["node_memory_free_bytes_total"] []
           "node_memory_MemFree_bytes"
           (mkMetricFamily MetricType_GAUGE [mkMetric (Some (6 * Scenario.G)) None])).
  - repeat constructor.
  - reflexivity.
  - reflexivity.
Defined.

(** X2.  [getMetric] returns an error exactly when no key of the list is
    present with a gauge or a counter family, and the error is then
    [ErrMetricNotCollected]. *)
Theorem getMetric_Fail_iff (m : MetricMap) (keys : list string) (e : error) :
  getMetric m keys = Fail e <->
  e = ErrMetricNotCollected /\ Forall (fun k => usableKey m k = false) keys.
Proof.
  induction keys as [|k keys IH].
  - simpl. split; [by intros [= <-]|by intros [-> _]].
  - destruct (usableKey m k) eqn:Hk.
    + split.
      * unfold usableKey, usableFamily in Hk. cbn [getMetric].
        destruct (m !! k) as [[f|]|]; [|done|done].
        destruct (MetricFamily_Type f); try done;
          by destruct (MetricFamily_Metric f).
      * intros [_ Hall]. apply Forall_cons in Hall as [Hk' _]. congruence.
    + rewrite getMetric_skip by done. rewrite IH. split.
      * intros [-> Hall]. split; [done|]. by constructor.
      * intros [-> Hall]. split; [done|]. by apply Forall_cons in Hall as [_ ?].
Qed.

(** *** allocateNodes *)

Lemma allocateRounds_queries env s rounds lastTerm dbID rm cur excl :
  let qs := snd (allocateRounds env s rounds lastTerm dbID rm cur excl) in
  (length qs <= rounds)%nat /\
  Forall (fun q => RingQuery_key q = dbID /\ RingQuery_roles q = rolesFilter s) qs /\
  (forall q, head qs = Some q -> RingQuery_range q = cur) /\
  rangeSteps (ResourceMeta_Node rm) (RingQuery_range <$> qs).
Proof.
  revert cur excl. induction rounds as [|rounds IH]; intros cur excl.
  - simpl. split; [lia|]. split; [constructor|]. split; [done|done].
  - cbn [allocateRounds].
    assert (Hcont : forall cur' excl',
      (cur' = cur \/ cur' = wrapInt (cur + ResourceMeta_Node rm)) ->
      let qs := snd (let '(r, qs) := allocateRounds env s rounds lastTerm dbID rm cur' excl' in
                     (r, mkRingQuery dbID cur (rolesFilter s) :: qs)) in
      (length qs <= S rounds)%nat /\
      Forall (fun q => RingQuery_key q = dbID /\ RingQuery_roles q = rolesFilter s) qs /\
      (forall q, head qs = Some q -> RingQuery_range q = cur) /\
      rangeSteps (ResourceMeta_Node rm) (RingQuery_range <$> qs)).
    { intros cur' excl' Hcur. specialize (IH cur' excl').
      destruct (allocateRounds env s rounds lastTerm dbID rm cur' excl') as [r qs].
      cbn [snd] in *. destruct IH as (Hlen & Hall & Hhead & Hsteps).
      split; [simpl; lia|]. split; [by constructor|].
      split; [by intros q [= <-]|].
      destruct qs as [|q qs]; [done|].
      cbn [fmap list_fmap rangeSteps]. split; [|exact Hsteps].
      rewrite (Hhead q eq_refl). exact Hcur. }
    assert (Hone : forall r : outcome Peers,
      let qs := snd (r, [mkRingQuery dbID cur (rolesFilter s)]) in
      (length qs <= S rounds)%nat /\
      Forall (fun q => RingQuery_key q = dbID /\ RingQuery_roles q = rolesFilter s) qs /\
      (forall q, head qs = Some q -> RingQuery_range q = cur) /\
      rangeSteps (ResourceMeta_Node rm) (RingQuery_range <$> qs)).
    { intros r. cbn [snd]. split; [simpl; lia|]. split; [by repeat constructor|].
      split; [by intros q [= <-]|done]. }
    destruct (_ <? _).
    + apply Hcont. by left.
    + destruct (checkMetrics _ _ _) as [[excl' allocated]|e|e]; [|apply Hone|apply Hone].
      destruct (_ <=? _); [apply Hone|]. apply Hcont. by right.
Qed.

(** X3.  Whatever its result, one call of [allocateNodes] queries the ring at
    most [AllocationRounds] times, every query is for the database
    identifier with the role filter of the service, the first query has the
    requested node count as its range, and each later range repeats the one
    before or is wider by the node count. *)
Theorem allocateNodes_queries env s lastTerm dbID rm :
  let qs := snd (allocateNodes env s lastTerm dbID rm) in
  (length qs <= roundCount s)%nat /\
  Forall (fun q => RingQuery_key q = dbID /\ RingQuery_roles q = rolesFilter s) qs /\
  (forall q, head qs = Some q -> RingQuery_range q = ResourceMeta_Node rm) /\
  rangeSteps (ResourceMeta_Node rm) (RingQuery_range <$> qs).
Proof.
  unfold allocateNodes. destruct (_ <=? _).
  - simpl. split; [lia|]. split; [constructor|]. done.
  - apply allocateRounds_queries.
Qed.

(** X4.  A request for no node (a count of zero or less), and a service
    configured with zero allocation rounds, fail with
    [ErrDatabaseAllocation] without a query to the ring. *)
Theorem allocateNodes_nothing_to_do env s lastTerm dbID rm :
  ResourceMeta_Node rm <= 0 \/ AllocationRounds s mod 2 ^ 64 = 0 ->
  allocateNodes env s lastTerm dbID rm = (Fail ErrDatabaseAllocation, []).
Proof.
  intros H. unfold allocateNodes. destruct (Z.leb_spec (ResourceMeta_Node rm) 0); [done|].
  destruct H as [?|H]; [lia|]. unfold roundCount. by rewrite H.
Qed.

Lemma allocateNodes_nothing_to_do_witness :
  allocateNodes Scenario.quietEnv Scenario.serviceS1 0 "db" (mkResourceMeta 0 Scenario.G)
  = (Fail ErrDatabaseAllocation, []).
Proof. apply allocateNodes_nothing_to_do. left. simpl. lia. Defined.

Lemma allocateRounds_stuck env s rounds lastTerm dbID rm cur excl :
  Z.of_nat (length (candidateIDs
    (fst (Consistent_GetNeighborsEx s dbID cur (rolesFilter s))) excl))
    < ResourceMeta_Node rm ->
  allocateRounds env s rounds lastTerm dbID rm cur excl =
  (Fail ErrDatabaseAllocation, replicate rounds (mkRingQuery dbID cur (rolesFilter s))).
Proof.
  intros Hfew. induction rounds as [|rounds IH]; [done|].
  rewrite allocateRounds_few_candidates by done. by rewrite IH.
Qed.

(** X5.  When the first ring answer holds fewer nodes outside the exclusion
    set than were requested, every round repeats the same query and the
    allocation fails with [ErrDatabaseAllocation]: the range is never
    widened and no metric is read. *)
Theorem allocateNodes_short_answer env s lastTerm dbID rm :
  0 < ResourceMeta_Node rm ->
  Z.of_nat (length (candidateIDs
    (fst (Consistent_GetNeighborsEx s dbID (ResourceMeta_Node rm) (rolesFilter s)))
    (if negb (includeBPNodesForAllocation s) then list_to_set (GetBPs env) else ∅)))
    < ResourceMeta_Node rm ->
  allocateNodes env s lastTerm dbID rm =
  (Fail ErrDatabaseAllocation,
   replicate (roundCount s)
     (mkRingQuery dbID (ResourceMeta_Node rm) (rolesFilter s))).
Proof.
  intros Hpos Hfew. unfold allocateNodes.
  destruct (Z.leb_spec (ResourceMeta_Node rm) 0); [lia|].
  by apply allocateRounds_stuck.
Qed.

Lemma allocateNodes_short_answer_witness :
  allocateNodes Scenario.quietEnv serviceBPFirst 0 "db" (mkResourceMeta 2 Scenario.G) =
  (Fail ErrDatabaseAllocation,
   [mkRingQuery "db" 2 [Miner]; mkRingQuery "db" 2 [Miner]; mkRingQuery "db" 2 [Miner]]).
Proof.
  apply (allocateNodes_short_answer Scenario.quietEnv serviceBPFirst 0 "db"
           (mkResourceMeta 2 Scenario.G)).
  - simpl. lia.
  - vm_compute. reflexivity.
Defined.

Lemma metricsFrom_keys table ids : (Scenario.metricsFrom table ids).*1 ⊆ ids.
Proof.
  unfold Scenario.metricsFrom. induction ids as [|id ids IH]; [done|].
  cbn [omap list_omap]. destruct (table id) as [m|]; cbn [fmap option_fmap option_map].
  - cbn [fmap list_fmap fst]. intros x Hx. apply elem_of_cons in Hx as [->|Hx].
    + apply list_elem_of_here.
    + apply list_elem_of_further. by apply IH.
  - intros x Hx. apply list_elem_of_further. by apply IH.
Qed.

(** X6.  With [includeBPNodesForAllocation] off and a metric store that
    answers only for the nodes it is asked about, a successful allocation
    has queried the ring for miners only and none of its servers is a block
    producer, however much free memory a block producer on the ring
    reports. *)
Theorem allocateNodes_block_producers_left_out env s lastTerm dbID rm peers qs :
  includeBPNodesForAllocation s = false ->
  (forall ids, (NodeMetrics_GetMetrics s ids).*1 ⊆ ids) ->
  allocateNodes env s lastTerm dbID rm = (Done peers, qs) ->
  Forall (fun q => RingQuery_roles q = [Miner]) qs /\
  forall srv, Some srv ∈ Peers_Servers peers -> Server_ID srv ∉ GetBPs env.
Proof.
  intros Hbp Hmetrics Hrun. split.
  - pose proof (allocateNodes_queries env s lastTerm dbID rm) as Hq.
    rewrite Hrun in Hq. cbn [snd] in Hq. destruct Hq as (_ & Hall & _).
    eapply Forall_impl; [exact Hall|]. intros q [_ ->]. unfold rolesFilter. by rewrite Hbp.
  - unfold allocateNodes in Hrun. destruct (_ <=? _); [done|].
    rewrite Hbp in Hrun. cbn [negb] in Hrun.
    intros srv Hsrv Hin.
    eapply allocateRounds_excluded; [exact Hmetrics|exact Hrun|exact Hsrv|].
    by apply elem_of_list_to_set.
Qed.

Lemma allocateNodes_block_producers_left_out_witness :
  exists peers qs,
    allocateNodes Scenario.quietEnv serviceBPOnRing 0 "db" (mkResourceMeta 2 (3 * Scenario.G))
      = (Done peers, qs) /\
    serverIDs peers = [Some "n8"; Some "n6"] /\
    RingQuery_range <$> qs = [2; 4] /\
    Forall (fun q => RingQuery_roles q = [Miner]) qs /\
    forall srv, Some srv ∈ Peers_Servers peers ->
      Server_ID srv ∉ GetBPs Scenario.quietEnv.
Proof.
  eexists _, _. split; [vm_compute; reflexivity|].
  split; [reflexivity|]. split; [reflexivity|].
  apply (allocateNodes_block_producers_left_out Scenario.quietEnv serviceBPOnRing 0 "db"
           (mkResourceMeta 2 (3 * Scenario.G))).
  - reflexivity.
  - intros ids. apply metricsFrom_keys.
  - vm_compute. reflexivity.
Defined.

(** *** buildPeers *)

Lemma fillServers_overflow idx nodes servers :
  (length servers < idx + length nodes)%nat -> nodes <> [] ->
  fillServers idx nodes servers = None.
Proof.
  revert idx servers. induction nodes as [|node rest IH]; intros idx servers Hlen Hne; [done|].
  cbn [fillServers]. case_bool_decide as Hidx; [|done].
  apply IH.
  - rewrite length_insert. simpl in Hlen. lia.
  - intros ->. simpl in Hlen. lia.
Qed.

Lemma serverIDs_follower (nodes : list Node) :
  List.map (option_map Server_ID) (follower <$> nodes) = (fun n => Some (Node_ID n)) <$> nodes.
Proof. induction nodes as [|n nodes IH]; [done|]. simpl. by f_equal. Qed.

Lemma serverIDs_replicate n :
  List.map (option_map Server_ID) (replicate n None) = replicate n None.
Proof. induction n as [|n IH]; [done|]. simpl. by f_equal. Qed.

(** X7.  The servers of a peer set that [buildPeers] returns are the nodes of
    the ring answer whose identifier was allocated, in the order of the ring
    answer (not of the allocated list), followed by nil entries up to the
    length of the allocated list; at least one ring node matches and no more
    nodes match than identifiers were allocated. *)
Theorem buildPeers_ring_order env term nodes allocated peers :
  buildPeers env term nodes allocated = Done peers ->
  let matched := matchedNodes nodes allocated in
  matched <> [] /\
  (length matched <= length allocated)%nat /\
  serverIDs peers =
    (((fun n => Some (Node_ID n)) <$> matched) ++
     replicate (length allocated - length matched) None)%list.
Proof.
  unfold buildPeers, matchedNodes.
  destruct (GetLocalPublicKey env) as [pubKey|]; [|done].
  destruct (GetLocalPrivateKey env) as [privKey|]; [|done].
  set (matched := filter _ nodes).
  destruct (fillServers 0 matched _) as [servers|] eqn:Hfill; [|done].
  apply fillServers_spec in Hfill as [Hlen ->].
  rewrite length_replicate in Hlen. cbn [take app Nat.add] in *.
  assert (Hids : List.map (option_map Server_ID)
            ((follower <$> matched) ++ drop (length matched) (replicate (length allocated) None)) =
          (((fun n => Some (Node_ID n)) <$> matched) ++
            replicate (length allocated - length matched) None)%list).
  { rewrite List.map_app, serverIDs_follower, drop_replicate, serverIDs_replicate. done. }
  destruct matched as [|n matched'] eqn:Hm.
  - cbn [fmap list_fmap app length drop]. destruct (length allocated); done.
  - cbn [fmap list_fmap app follower] in *.
    simpl. destruct (Peers_Sign env privKey _) as [sig|]; [|done].
    intros [= <-]. split; [done|]. split; [destruct Hlen as [?|?]; [done|simpl in *; lia]|].
    unfold serverIDs. cbn [Peers_Servers]. exact Hids.
Qed.

Lemma buildPeers_ring_order_witness :
  exists peers,
    buildPeers Scenario.quietEnv 1
      [Scenario.miner "n4"; Scenario.miner "n8"; Scenario.miner "n2"; Scenario.miner "n6"]
      ["n8"; "n6"; "n4"] = Done peers /\
    serverIDs peers = [Some "n4"; Some "n8"; Some "n6"].
Proof.
  eexists. split; [vm_compute; reflexivity|].
  apply (buildPeers_ring_order Scenario.quietEnv 1
           [Scenario.miner "n4"; Scenario.miner "n8"; Scenario.miner "n2"; Scenario.miner "n6"]
           ["n8"; "n6"; "n4"]).
  vm_compute. reflexivity.
Defined.

(** X8.  With both local keys at hand, [buildPeers] panics instead of
    returning an error when the ring answer does not fit the allocated list:
    with a nil dereference (an index out of range for an empty list) when no
    node of the ring answer was allocated, and with an index out of range
    when more nodes of the ring answer match than identifiers were
    allocated. *)
Theorem buildPeers_panics env term nodes allocated pubKey privKey :
  GetLocalPublicKey env = Ok pubKey ->
  GetLocalPrivateKey env = Ok privKey ->
  (matchedNodes nodes allocated = [] ->
   buildPeers env term nodes allocated =
   Panic (if decide (allocated = []) then indexOutOfRange else nilDereference)) /\
  ((length allocated < length (matchedNodes nodes allocated))%nat ->
   buildPeers env term nodes allocated = Panic indexOutOfRange).
Proof.
  intros Hpub Hpriv. unfold buildPeers, matchedNodes. rewrite Hpub, Hpriv. split.
  - intros ->. cbn [fillServers]. by destruct allocated.
  - intros Hlen. rewrite fillServers_overflow; [done| |].
    + rewrite length_replicate. lia.
    + intros Hnil. rewrite Hnil in Hlen. simpl in Hlen. lia.
Qed.

Lemma buildPeers_panics_witness :
  buildPeers Scenario.quietEnv 1 [Scenario.miner "n8"] ["n6"] = Panic nilDereference /\
  buildPeers Scenario.quietEnv 1 [Scenario.miner "n8"; Scenario.miner "n8"] ["n8"]
    = Panic indexOutOfRange.
Proof.
  split.
  - apply (proj1 (buildPeers_panics Scenario.quietEnv 1 [Scenario.miner "n8"] ["n6"]
                    "bp-public" "bp-private" eq_refl eq_refl)).
    reflexivity.
  - apply (proj2 (buildPeers_panics Scenario.quietEnv 1
                    [Scenario.miner "n8"; Scenario.miner "n8"] ["n8"]
                    "bp-public" "bp-private" eq_refl eq_refl)).
    vm_compute. lia.
Defined.

(** *** The fan-out and the identifier generator *)

(** X9.  With the answers of a fan-out arriving in some order of its
    targets: an error returned by [batchSendSvcReq] is the answer of one of
    the targets, and every target is then sent the rollback, whose answers are
    dropped; a fan-out that returns no error sent no rollback, and at least
    one target (if there is any) accepted the request. *)
Theorem batchSendSvcReq_result env req rollbackReq nodes err calls :
  arrival env nodes ≡ₚ nodes ->
  batchSendSvcReq env req rollbackReq nodes = (err, calls) ->
  match err with
  | Some e =>
      (exists node, node ∈ nodes /\ CallNode env node DBSDeploy req = Some e) /\
      calls = (deployCalls req nodes ++ deployCalls rollbackReq nodes)%list
  | None =>
      (nodes = [] \/ exists node, node ∈ nodes /\ CallNode env node DBSDeploy req = None) /\
      calls = deployCalls req nodes
  end.
Proof.
  intros Hperm. unfold batchSendSvcReq, batchSendSingleSvcReq.
  destruct (arrival env nodes) as [|node rest] eqn:Harrival; cbn.
  - intros [= <- <-]. split; [|done]. left. by apply Permutation_nil.
  - assert (Hnode : node ∈ nodes).
    { rewrite <- Hperm. apply list_elem_of_here. }
    destruct (CallNode env node DBSDeploy req) as [e|] eqn:Hcall.
    + intros [= <- <-]. split; [|done]. by exists node.
    + intros [= <- <-]. split; [|done]. right. by exists node.
Qed.

Lemma batchSendSvcReq_result_witness :
  exists calls,
    batchSendSvcReq envRefusing (Some Scenario.createReq) (Some Scenario.dropReq)
      ["m1"; "m2"; "m3"] = (Some Scenario.deployError, calls) /\
    (exists node, node ∈ ["m1"; "m2"; "m3"] /\
       CallNode envRefusing node DBSDeploy (Some Scenario.createReq)
         = Some Scenario.deployError) /\
    calls = (deployCalls (Some Scenario.createReq) ["m1"; "m2"; "m3"] ++
             deployCalls (Some Scenario.dropReq) ["m1"; "m2"; "m3"])%list.
Proof.
  eexists. split; [reflexivity|].
  apply (batchSendSvcReq_result envRefusing (Some Scenario.createReq)
           (Some Scenario.dropReq) ["m1"; "m2"; "m3"] (Some Scenario.deployError)).
  - reflexivity.
  - reflexivity.
Defined.

(** X10.  The loop of [generateDatabaseID] returns: when the [k]-th nonce
    counted from zero gives a hash with at least four leading zero bits whose
    hex text is not a key of the service map, [k + 1] restarts of a miner
    that tries [k + 1] nonces are enough, and the identifier returned is not
    in the service map. *)
Theorem generateDatabaseID_returns env s (k : nat) reqNodeID :
  4 <= leadingZeroBits (HashBlock env reqNodeID (Nat.iter k Uint256_Inc 0)) ->
  ServiceMap s !! Hash_String (HashBlock env reqNodeID (Nat.iter k Uint256_Inc 0)) = None ->
  exists dbID,
    generateDatabaseID env s (S k) (S k) reqNodeID = Some dbID /\
    ServiceMap s !! dbID = None.
Proof.
  intros Hdifficulty Hfree.
  destruct (generateDatabaseIDFrom_returns env (ServiceMap s) k reqNodeID 0 Hdifficulty Hfree)
    as [[dbID nonce] Hgen].
  exists dbID. unfold generateDatabaseID. rewrite Hgen. split; [done|].
  by apply generateDatabaseIDFrom_inv in Hgen as (_ & _ & _ & ?).
Qed.

Lemma generateDatabaseID_returns_witness :
  exists dbID,
    generateDatabaseID Scenario.quietEnv Scenario.serviceS1 1 1 (replicate 32 7) = Some dbID /\
    ServiceMap Scenario.serviceS1 !! dbID = None.
Proof.
  apply (generateDatabaseID_returns Scenario.quietEnv Scenario.serviceS1 0 (replicate 32 7)).
  - vm_compute. discriminate.
  - vm_compute. reflexivity.
Defined.

End DBSExtra.

(** ** Further properties of the endpoints *)

Module DBSEndpoints.

Import DBS DBSQuery DBSFacts.

(** *** Helper inversions *)

Lemma signUpdateService_inv env signer req req' :
  signUpdateService env signer req = (req', None) ->
  exists sig, UpdateService_Sign env signer req = Ok sig /\
    req' = mkUpdateService (UpdateService_Op req) (UpdateService_Instance req)
             (UpdateService_Signee req) (Some sig).
Proof.
  unfold signUpdateService. destruct (UpdateService_Sign env signer req) as [sig|]; [|done].
  intros [= <-]. by exists sig.
Qed.

Lemma signUpdateService_keeps env signer req :
  UpdateService_Op (fst (signUpdateService env signer req)) = UpdateService_Op req /\
  UpdateService_Instance (fst (signUpdateService env signer req)) = UpdateService_Instance req.
Proof. unfold signUpdateService. by destruct (UpdateService_Sign env signer req). Qed.

Lemma batchSendSvcReq_calls env req rollbackReq nodes err calls :
  batchSendSvcReq env req rollbackReq nodes = (err, calls) ->
  err = (head (arrival env nodes) ≫= fun node => CallNode env node DBSDeploy req) /\
  calls = (deployCalls req nodes ++
           match err with Some _ => deployCalls rollbackReq nodes | None => [] end)%list.
Proof.
  unfold batchSendSvcReq, batchSendSingleSvcReq.
  destruct (arrival env nodes) as [|node rest]; cbn.
  - intros [= <- <-]. by rewrite app_nil_r.
  - destruct (CallNode env node DBSDeploy req).
    + by intros [= <- <-].
    + intros [= <- <-]. by rewrite app_nil_r.
Qed.

Lemma deployCalls_targets req nodes : Call_target <$> deployCalls req nodes = nodes.
Proof.
  unfold deployCalls. induction nodes as [|n nodes IH]; [done|]. cbn. by f_equal.
Qed.

Lemma elem_of_deployCalls c req nodes :
  c ∈ deployCalls req nodes -> Call_req c = req /\ Call_target c ∈ nodes.
Proof.
  unfold deployCalls. intros Hc. apply list_elem_of_fmap in Hc as (n & -> & Hn). done.
Qed.

Lemma buildPeers_keys env term nodes allocated peers :
  buildPeers env term nodes allocated = Done peers ->
  exists pubKey privKey,
    GetLocalPublicKey env = Ok pubKey /\ GetLocalPrivateKey env = Ok privKey.
Proof.
  unfold buildPeers.
  destruct (GetLocalPublicKey env) as [pubKey|]; [|done].
  destruct (GetLocalPrivateKey env) as [privKey|]; [|done].
  intros _. by exists pubKey, privKey.
Qed.

Lemma CreateDatabase_Done_inv env s fuel mfuel req run resp :
  CreateDatabase env s fuel mfuel req = Some run ->
  Run_result run = Done resp ->
  exists dbID peers genesis nodes sig sigR,
    let rm := CreateDatabaseRequest_ResourceMeta req in
    let instance := mkServiceInstance dbID (Some peers) rm (Some genesis) in
    let initSvcReq :=
      mkUpdateService CreateDB
        (mkServiceInstance dbID (Some peers) zeroResourceMeta (Some genesis))
        None (Some sig) in
    generateDatabaseID env s fuel mfuel (CreateDatabaseRequest_NodeID req) = Some dbID /\
    fst (allocateNodes env s 0 dbID rm) = Done peers /\
    peersToNodes (Some peers) = Done nodes /\
    storeCommit env (StoreSet instance) = None /\
    resp = mkCreateDatabaseResponse instance (Some sigR) /\
    run = mkRun (Done resp) (<[dbID := instance]> (ServiceMap s))
            (deployCalls (Some initSvcReq) nodes).
Proof.
  unfold CreateDatabase.
  destruct (CreateDatabaseRequest_Verify env req); [by intros [= <-]|].
  destruct (generateDatabaseID env s fuel mfuel _) as [dbID|] eqn:Hid; [|done].
  destruct (allocateNodes env s 0 dbID _) as [[peers|e|e] qs] eqn:Halloc; cbn [fst];
    [|by intros [= <-]..].
  destruct (generateGenesisBlock env dbID _) as [genesis|]; [|by intros [= <-]].
  destruct (GetLocalPrivateKey env) as [priv|]; [|by intros [= <-]].
  destruct (signUpdateService env priv _) as [initReq [e|]] eqn:Hinit; [by intros [= <-]|].
  destruct (signUpdateService env priv _) as [rollbackReq [e|]] eqn:Hrb in |- *;
    [by intros [= <-]|].
  destruct (peersToNodes (Some peers)) as [nodes|e|e] eqn:Hnodes; [|by intros [= <-]..].
  destruct (batchSendSvcReq env _ _ nodes) as [[e|] calls] eqn:Hsend; [by intros [= <-]|].
  unfold ServiceMap_Set.
  destruct (storeCommit env _) as [e|] eqn:Hcommit; [by intros [= <-]|].
  unfold signResponse.
  destruct (CreateDatabaseResponse_Sign env priv _) as [sigR|e]; [|by intros [= <-]].
  intros [= <-] [= <-].
  apply signUpdateService_inv in Hinit as (sig & _ & ->).
  apply batchSendSvcReq_nil_calls in Hsend as ->.
  exists dbID, peers, genesis, nodes, sig, sigR. cbv zeta.
  split; [done|]. split; [by rewrite Halloc|]. split; [done|]. split; [done|]. done.
Qed.

Lemma generateDatabaseID_unused env s fuel mfuel reqNodeID dbID :
  generateDatabaseID env s fuel mfuel reqNodeID = Some dbID -> ServiceMap s !! dbID = None.
Proof.
  unfold generateDatabaseID.
  destruct (generateDatabaseIDFrom env _ fuel mfuel _ 0) as [[dbID' nonce]|] eqn:Hgen; [|done].
  cbn. intros [= <-].
  by apply generateDatabaseIDFrom_inv in Hgen as (_ & _ & _ & ?).
Qed.

(** *** CreateDatabase *)

(** X11.  When [CreateDatabase] returns without error, the identifier of the
    new instance was not in the service map before, the write of the
    instance was committed to the store, the service map afterwards is the
    old one with the instance under its identifier, and the calls sent are one
    [CreateDB] per server of the instance, in the order of the servers,
    carrying the peers and the genesis block but a zero resource
    description; no rollback was sent. *)
Theorem CreateDatabase_registers env s fuel mfuel req run resp :
  CreateDatabase env s fuel mfuel req = Some run ->
  Run_result run = Done resp ->
  let instance := CreateDatabaseResponse_InstanceMeta resp in
  let dbID := ServiceInstance_DatabaseID instance in
  ServiceMap s !! dbID = None /\
  storeCommit env (StoreSet instance) = None /\
  Run_map run = <[dbID := instance]> (ServiceMap s) /\
  exists nodes initSvcReq,
    peersToNodes (ServiceInstance_Peers instance) = Done nodes /\
    Run_calls run = deployCalls (Some initSvcReq) nodes /\
    UpdateService_Op initSvcReq = CreateDB /\
    UpdateService_Instance initSvcReq =
      mkServiceInstance dbID (ServiceInstance_Peers instance) zeroResourceMeta
        (ServiceInstance_GenesisBlock instance).
Proof.
  intros Hrun Hres.
  destruct (CreateDatabase_Done_inv _ _ _ _ _ _ _ Hrun Hres)
    as (dbID & peers & genesis & nodes & sig & sigR & Hid & _ & Hnodes & Hcommit & -> & ->).
  cbn. split; [by eapply generateDatabaseID_unused|].
  split; [done|]. split; [done|].
  eexists nodes, _. split; [done|]. split; [reflexivity|]. done.
Qed.

Lemma CreateDatabase_registers_witness :
  exists run resp,
    CreateDatabase Scenario.quietEnv Scenario.serviceS1 1 1 Scenario.requestS1 = Some run /\
    Run_result run = Done resp /\
    Run_map run =
      <[ServiceInstance_DatabaseID (CreateDatabaseResponse_InstanceMeta resp) :=
          CreateDatabaseResponse_InstanceMeta resp]> (ServiceMap Scenario.serviceS1) /\
    Call_target <$> Run_calls run = ["n8"; "n6"; "n4"].
Proof.
  eexists _, _. split; [vm_compute; reflexivity|]. split; [reflexivity|].
  split.
  - eapply (CreateDatabase_registers Scenario.quietEnv Scenario.serviceS1 1 1
              Scenario.requestS1); [vm_compute; reflexivity|reflexivity].
  - reflexivity.
Defined.

(** X12.  A [CreateDatabase] that returns an error or panics leaves the
    service map as it was, with one exception: when only the signing of the
    response fails, the instance is already committed and registered although
    the caller is told that the creation failed. *)
Theorem CreateDatabase_failure env s fuel mfuel req run :
  CreateDatabase env s fuel mfuel req = Some run ->
  (forall resp, Run_result run <> Done resp) ->
  Run_map run = ServiceMap s \/
  exists privateKey instance e,
    GetLocalPrivateKey env = Ok privateKey /\
    CreateDatabaseResponse_Sign env privateKey (mkCreateDatabaseResponse instance None)
      = Err e /\
    storeCommit env (StoreSet instance) = None /\
    Run_result run = Fail e /\
    Run_map run = <[ServiceInstance_DatabaseID instance := instance]> (ServiceMap s).
Proof.
  unfold CreateDatabase.
  destruct (CreateDatabaseRequest_Verify env req); [intros [= <-] _; by left|].
  destruct (generateDatabaseID env s fuel mfuel _) as [dbID|]; [|done].
  destruct (allocateNodes env s 0 dbID _) as [[peers|e|e] qs] eqn:Halloc; cbn [fst];
    [|intros [= <-] _; by left..].
  destruct (generateGenesisBlock env dbID _) as [genesis|]; [|intros [= <-] _; by left].
  destruct (GetLocalPrivateKey env) as [priv|]; [|intros [= <-] _; by left].
  destruct (signUpdateService env priv _) as [initReq [e|]] eqn:Hinit;
    [intros [= <-] _; by left|].
  destruct (signUpdateService env priv _) as [rollbackReq [e|]] eqn:Hrb in |- *;
    [intros [= <-] _; by left|].
  destruct (peersToNodes (Some peers)) as [nodes|e|e] eqn:Hnodes;
    [|intros [= <-] _; by left..].
  destruct (batchSendSvcReq env _ _ nodes) as [[e|] calls] eqn:Hsend;
    [intros [= <-] _; by left|].
  unfold ServiceMap_Set.
  destruct (storeCommit env _) as [e|] eqn:Hcommit; [intros [= <-] _; by left|].
  unfold signResponse.
  destruct (CreateDatabaseResponse_Sign env priv _) as [sigR|e] eqn:Hsign.
  - intros [= <-] Hne. by destruct (Hne _ eq_refl).
  - intros [= <-] _. right. eexists priv, _, e. split; [done|]. split; [exact Hsign|]. done.
Qed.

Lemma CreateDatabase_failure_witness :
  exists run,
    CreateDatabase envBadResponseSign Scenario.serviceS1 1 1 Scenario.requestS1 = Some run /\
    Run_result run = Fail Scenario.signError /\
    Call_target <$> Run_calls run = ["n8"; "n6"; "n4"] /\
    (Run_map run = ServiceMap Scenario.serviceS1 \/
     exists privateKey instance e,
       GetLocalPrivateKey envBadResponseSign = Ok privateKey /\
       CreateDatabaseResponse_Sign envBadResponseSign privateKey
         (mkCreateDatabaseResponse instance None) = Err e /\
       storeCommit envBadResponseSign (StoreSet instance) = None /\
       Run_result run = Fail e /\
       Run_map run =
         <[ServiceInstance_DatabaseID instance := instance]>
           (ServiceMap Scenario.serviceS1)).
Proof.
  eexists. split; [vm_compute; reflexivity|]. split; [reflexivity|].
  split; [reflexivity|].
  eapply (CreateDatabase_failure envBadResponseSign Scenario.serviceS1 1 1
            Scenario.requestS1); [vm_compute; reflexivity|].
  intros resp. discriminate.
Defined.

(** X13.  [CreateDatabase] sends a [DropDB] to a miner only as the rollback of
    a failed deployment: the call then returns an error, the service map is
    unchanged, and the same miner was sent the [CreateDB] for the same
    database identifier in the same call. *)
Theorem CreateDatabase_rollback env s fuel mfuel req run c r :
  CreateDatabase env s fuel mfuel req = Some run ->
  c ∈ Run_calls run ->
  Call_req c = Some r ->
  UpdateService_Op r = DropDB ->
  (exists e, Run_result run = Fail e) /\
  Run_map run = ServiceMap s /\
  exists c' r',
    c' ∈ Run_calls run /\
    Call_target c' = Call_target c /\
    Call_req c' = Some r' /\
    UpdateService_Op r' = CreateDB /\
    ServiceInstance_DatabaseID (UpdateService_Instance r')
      = ServiceInstance_DatabaseID (UpdateService_Instance r).
Proof.
  unfold CreateDatabase.
  assert (Hnil : forall x : Call, x ∈ @nil Call -> False) by (intros x Hx; inversion Hx).
  destruct (CreateDatabaseRequest_Verify env req);
    [intros [= <-] Hc; by destruct (Hnil _ Hc)|].
  destruct (generateDatabaseID env s fuel mfuel _) as [dbID|]; [|done].
  destruct (allocateNodes env s 0 dbID _) as [[peers|e|e] qs] eqn:Halloc; cbn [fst];
    [|intros [= <-] Hc; by destruct (Hnil _ Hc)..].
  destruct (generateGenesisBlock env dbID _) as [genesis|];
    [|intros [= <-] Hc; by destruct (Hnil _ Hc)].
  destruct (GetLocalPrivateKey env) as [priv|];
    [|intros [= <-] Hc; by destruct (Hnil _ Hc)].
  match goal with |- context [signUpdateService env priv ?x] =>
    pose proof (signUpdateService_keeps env priv x) as [HinitOp HinitInst] end.
  destruct (signUpdateService env priv _) as [initReq [e|]] eqn:Hinit;
    [intros [= <-] Hc; by destruct (Hnil _ Hc)|].
  match goal with |- context [signUpdateService env priv ?x] =>
    pose proof (signUpdateService_keeps env priv x) as [HrbOp HrbInst] end.
  destruct (signUpdateService env priv _) as [rollbackReq [e|]] eqn:Hrb in HrbOp, HrbInst |- *;
    [intros [= <-] Hc; by destruct (Hnil _ Hc)|].
  cbn in HinitOp, HinitInst, HrbOp, HrbInst.
  destruct (peersToNodes (Some peers)) as [nodes|e|e] eqn:Hnodes;
    [|intros [= <-] Hc; by destruct (Hnil _ Hc)..].
  destruct (batchSendSvcReq env _ _ nodes) as [[e|] calls] eqn:Hsend.
  - apply batchSendSvcReq_calls in Hsend as [_ ->].
    intros [= <-]. cbn [Run_calls Run_result Run_map]. intros Hc Hreq Hop.
    apply elem_of_app in Hc as [Hc|Hc]; apply elem_of_deployCalls in Hc as [Hc Htarget].
    { rewrite Hreq in Hc. injection Hc as ->. congruence. }
    rewrite Hreq in Hc. injection Hc as ->.
    split; [by exists e|]. split; [done|].
    exists (mkCall (Call_target c) DBSDeploy (Some initReq)), initReq.
    split.
    { apply elem_of_app. left. unfold deployCalls.
      apply list_elem_of_fmap. by exists (Call_target c). }
    split; [done|]. split; [done|]. split; [done|].
    by rewrite HinitInst, HrbInst.
  - apply batchSendSvcReq_calls in Hsend as [_ ->]. rewrite app_nil_r.
    assert (Hcreate : c ∈ deployCalls (Some initReq) nodes -> Call_req c = Some r ->
                      UpdateService_Op r = DropDB -> False).
    { intros Hc Hreq Hop. apply elem_of_deployCalls in Hc as [Hc _].
      rewrite Hreq in Hc. injection Hc as ->. congruence. }
    destruct (ServiceMap_Set env _ _) as [m [e|]];
      [intros [= <-] Hc Hreq Hop; by destruct (Hcreate Hc Hreq Hop)|].
    destruct (signResponse env priv _) as [resp [e|]];
      intros [= <-] Hc Hreq Hop; by destruct (Hcreate Hc Hreq Hop).
Qed.

Lemma CreateDatabase_rollback_witness :
  exists run c r,
    CreateDatabase envRefusing Scenario.serviceS1 1 1 Scenario.requestS1 = Some run /\
    Call_target <$> Run_calls run = ["n8"; "n6"; "n4"; "n8"; "n6"; "n4"] /\
    Run_calls run !! 3%nat = Some c /\
    Call_req c = Some r /\
    UpdateService_Op r = DropDB /\
    (exists e, Run_result run = Fail e) /\
    Run_map run = ServiceMap Scenario.serviceS1 /\
    exists c' r',
      c' ∈ Run_calls run /\
      Call_target c' = Call_target c /\
      Call_req c' = Some r' /\
      UpdateService_Op r' = CreateDB /\
      ServiceInstance_DatabaseID (UpdateService_Instance r')
        = ServiceInstance_DatabaseID (UpdateService_Instance r).
Proof.
  eexists _, _, _. split; [vm_compute; reflexivity|]. split; [reflexivity|].
  split; [reflexivity|]. split; [reflexivity|]. split; [reflexivity|].
  eapply (CreateDatabase_rollback envRefusing Scenario.serviceS1 1 1 Scenario.requestS1).
  - vm_compute. reflexivity.
  - apply (list_elem_of_lookup_2 _ 3%nat). reflexivity.
  - reflexivity.
  - reflexivity.
Defined.

(** *** DropDatabase *)

Lemma DropDatabase_Done_inv env s req :
  Run_result (DropDatabase env s req) = Done tt ->
  exists instance nodes signee privateKey,
    let dbID := DropDatabaseRequest_DatabaseID req in
    let dropDBSvcReq :=
      fst (signUpdateService env privateKey
             (mkUpdateService DropDB (mkServiceInstance dbID None zeroResourceMeta None)
                (Some signee) None)) in
    DropDatabaseRequest_Verify env req = None /\
    ServiceMap s !! dbID = Some instance /\
    GetLocalPublicKey env = Ok signee /\
    GetLocalPrivateKey env = Ok privateKey /\
    peersToNodes (ServiceInstance_Peers instance) = Done nodes /\
    storeCommit env (StoreDelete dbID) = None /\
    DropDatabase env s req =
      mkRun (Done tt) (delete dbID (ServiceMap s)) (deployCalls (Some dropDBSvcReq) nodes).
Proof.
  cbv zeta. unfold DropDatabase, ServiceMap_Get, ServiceMap_Delete.
  destruct (DropDatabaseRequest_Verify env req) eqn:Hverify; [done|].
  destruct (ServiceMap s !! DropDatabaseRequest_DatabaseID req) as [instance|] eqn:Hget;
    [|done].
  destruct (GetLocalPublicKey env) as [signee|] eqn:Hpub; [|done].
  destruct (GetLocalPrivateKey env) as [priv|] eqn:Hpriv; [|done].
  destruct (peersToNodes _) as [nodes|e|e] eqn:Hnodes; [|done..].
  destruct (batchSendSvcReq env _ _ nodes) as [[e|] calls] eqn:Hsend; [done|].
  destruct (storeCommit env _) as [e|] eqn:Hcommit; [done|].
  intros _. apply batchSendSvcReq_nil_calls in Hsend as ->.
  exists instance, nodes, signee, priv.
  rewrite Hnodes. done.
Qed.

(** X14.  When [DropDatabase] returns without error, the database was in the
    service map, the deletion was committed to the store, the service map
    afterwards is the old one without that identifier (every other database
    stays), and the calls sent are one [DropDB] for that identifier per
    server of the dropped instance. *)
Theorem DropDatabase_removes env s req :
  Run_result (DropDatabase env s req) = Done tt ->
  let dbID := DropDatabaseRequest_DatabaseID req in
  let run := DropDatabase env s req in
  storeCommit env (StoreDelete dbID) = None /\
  Run_map run = delete dbID (ServiceMap s) /\
  Run_map run !! dbID = None /\
  (forall other, other <> dbID -> Run_map run !! other = ServiceMap s !! other) /\
  exists instance nodes dropDBSvcReq,
    ServiceMap s !! dbID = Some instance /\
    peersToNodes (ServiceInstance_Peers instance) = Done nodes /\
    Run_calls run = deployCalls (Some dropDBSvcReq) nodes /\
    UpdateService_Op dropDBSvcReq = DropDB /\
    ServiceInstance_DatabaseID (UpdateService_Instance dropDBSvcReq) = dbID.
Proof.
  intros Hres.
  destruct (DropDatabase_Done_inv env s req Hres)
    as (instance & nodes & signee & priv & _ & Hget & _ & _ & Hnodes & Hcommit & ->).
  cbn. split; [done|]. split; [done|]. split; [apply lookup_delete_eq|].
  split; [intros other Hne; by apply lookup_delete_ne|].
  eexists instance, nodes, _. split; [done|]. split; [done|]. split; [reflexivity|].
  match goal with |- context [signUpdateService env priv ?x] =>
    destruct (signUpdateService_keeps env priv x) as [-> ->] end.
  done.
Qed.

Lemma DropDatabase_removes_witness :
  Run_map (DropDatabase Scenario.quietEnv Scenario.serviceDeployed (mkDropDatabaseRequest "db"))
    !! "db" = None /\
  Call_target <$>
    Run_calls (DropDatabase Scenario.quietEnv Scenario.serviceDeployed
                 (mkDropDatabaseRequest "db")) = ["m1"; "m2"].
Proof.
  split; [|reflexivity].
  apply (DropDatabase_removes Scenario.quietEnv Scenario.serviceDeployed
           (mkDropDatabaseRequest "db")).
  reflexivity.
Defined.

(** X15.  A [DropDatabase] that does not return successfully (a refused
    request, an unknown database, a missing key, a failed fan-out, a failed
    commit or a panic) leaves the service map as it was. *)
Theorem DropDatabase_failure_keeps_map env s req :
  Run_result (DropDatabase env s req) <> Done tt ->
  Run_map (DropDatabase env s req) = ServiceMap s.
Proof.
  unfold DropDatabase, ServiceMap_Get, ServiceMap_Delete.
  destruct (DropDatabaseRequest_Verify env req); [done|].
  destruct (ServiceMap s !! DropDatabaseRequest_DatabaseID req) as [instance|]; [|done].
  destruct (GetLocalPublicKey env) as [signee|]; [|done].
  destruct (GetLocalPrivateKey env) as [priv|]; [|done].
  destruct (peersToNodes _) as [nodes|e|e]; [|done..].
  destruct (batchSendSvcReq env _ _ nodes) as [[e|] calls] eqn:Hsend; [done|].
  destruct (storeCommit env _) as [e|]; [done|].
  cbn. intros H. by destruct H.
Qed.

Lemma DropDatabase_failure_keeps_map_witness :
  Run_result (DropDatabase Scenario.quietEnv Scenario.serviceDeployed
                (mkDropDatabaseRequest "other")) = Fail ErrNoSuchDatabase /\
  Run_map (DropDatabase Scenario.quietEnv Scenario.serviceDeployed
             (mkDropDatabaseRequest "other")) = ServiceMap Scenario.serviceDeployed.
Proof.
  split; [reflexivity|].
  apply (DropDatabase_failure_keeps_map Scenario.quietEnv Scenario.serviceDeployed
           (mkDropDatabaseRequest "other")).
  vm_compute. discriminate.
Defined.

(** X16.  When the miner whose answer arrives first refuses the drop,
    [DropDatabase] returns that error, keeps the database in the service map
    and calls every server of the instance a second time, with a nil
    request: the rollback request it hands to the fan-out is nil. *)
Theorem DropDatabase_nil_rollback env s req instance signee privateKey nodes node rest e :
  DropDatabaseRequest_Verify env req = None ->
  ServiceMap s !! DropDatabaseRequest_DatabaseID req = Some instance ->
  GetLocalPublicKey env = Ok signee ->
  GetLocalPrivateKey env = Ok privateKey ->
  peersToNodes (ServiceInstance_Peers instance) = Done nodes ->
  let dropDBSvcReq :=
    fst (signUpdateService env privateKey
           (mkUpdateService DropDB
              (mkServiceInstance (DropDatabaseRequest_DatabaseID req) None
                 zeroResourceMeta None)
              (Some signee) None)) in
  arrival env nodes = node :: rest ->
  CallNode env node DBSDeploy (Some dropDBSvcReq) = Some e ->
  DropDatabase env s req =
    mkRun (Fail e) (ServiceMap s)
      (deployCalls (Some dropDBSvcReq) nodes ++ deployCalls None nodes)%list.
Proof.
  intros Hverify Hget Hpub Hpriv Hnodes dropDBSvcReq Harrival Hcall.
  unfold DropDatabase, ServiceMap_Get.
  rewrite Hverify, Hget, Hpub, Hpriv, Hnodes. fold dropDBSvcReq.
  by rewrite (batchSendSvcReq_first_error env _ _ nodes node rest e Harrival Hcall).
Qed.

Lemma DropDatabase_nil_rollback_witness :
  exists r,
    DropDatabase envRefusing Scenario.serviceDeployed (mkDropDatabaseRequest "db") =
    mkRun (Fail Scenario.deployError) (ServiceMap Scenario.serviceDeployed)
      [mkCall "m1" DBSDeploy (Some r); mkCall "m2" DBSDeploy (Some r);
       mkCall "m1" DBSDeploy None; mkCall "m2" DBSDeploy None].
Proof.
  eexists.
  apply (DropDatabase_nil_rollback envRefusing Scenario.serviceDeployed
           (mkDropDatabaseRequest "db")
           (mkServiceInstance "db" (Some Scenario.deployedPeers)
              (mkResourceMeta 2 Scenario.G) None)
           "bp-public" "bp-private" ["m1"; "m2"] "m1" ["m2"] Scenario.deployError);
    reflexivity.
Defined.

(** *** GetDatabase and the endpoints in sequence *)

(** X17.  When [GetDatabase] returns without error, the request was verified,
    the instance of the response is the one the service map holds under the
    requested identifier, the signee is the local public key and the
    signature is the one computed over the response with the local private
    key. *)
Theorem GetDatabase_reads_map env q s req resp0 resp :
  GetDatabase env q s req resp0 = (resp, None) ->
  GetDatabaseRequest_Verify q req = None /\
  ServiceMap s !! GetDatabaseRequest_DatabaseID req
    = Some (GetDatabaseResponse_InstanceMeta resp) /\
  exists signee privateKey sig,
    GetLocalPublicKey env = Ok signee /\
    GetLocalPrivateKey env = Ok privateKey /\
    GetDatabaseResponse_Sign q privateKey
      (mkGetDatabaseResponse (GetDatabaseResponse_InstanceMeta resp) (Some signee)
         (GetDatabaseResponse_Signature resp0)) = Ok sig /\
    resp = mkGetDatabaseResponse (GetDatabaseResponse_InstanceMeta resp)
             (Some signee) (Some sig).
Proof.
  unfold GetDatabase, ServiceMap_Get.
  destruct (GetDatabaseRequest_Verify q req); [done|].
  destruct (ServiceMap s !! GetDatabaseRequest_DatabaseID req) as [instance|]; [|done].
  destruct (GetLocalPublicKey env) as [signee|]; [|done].
  destruct (GetLocalPrivateKey env) as [priv|]; [|done].
  cbn [GetDatabaseResponse_Signature].
  destruct (GetDatabaseResponse_Sign q priv _) as [sig|] eqn:Hsign; [|done].
  intros [= <-]. cbn. split; [done|]. split; [done|].
  by exists signee, priv, sig.
Qed.

Lemma GetDatabase_reads_map_witness :
  exists resp,
    GetDatabase Scenario.quietEnv quietQuery Scenario.serviceDeployed
      (mkGetDatabaseRequest "db") zeroResponse = (resp, None) /\
    ServiceMap Scenario.serviceDeployed !! "db"
      = Some (GetDatabaseResponse_InstanceMeta resp).
Proof.
  eexists. split; [reflexivity|].
  eapply (GetDatabase_reads_map Scenario.quietEnv quietQuery Scenario.serviceDeployed
            (mkGetDatabaseRequest "db") zeroResponse).
  reflexivity.
Defined.

(** X18.  After a successful [CreateDatabase], a verified [GetDatabase] for
    the identifier of the response, served from the service map the creation
    left, answers with the very instance that the creation returned, signed
    by the local public key; it can fail only in the signing of its
    response. *)
Theorem CreateDatabase_then_GetDatabase env q s fuel mfuel req run resp greq resp0 :
  CreateDatabase env s fuel mfuel req = Some run ->
  Run_result run = Done resp ->
  GetDatabaseRequest_Verify q greq = None ->
  GetDatabaseRequest_DatabaseID greq
    = ServiceInstance_DatabaseID (CreateDatabaseResponse_InstanceMeta resp) ->
  let got := GetDatabase env q (withMap s (Run_map run)) greq resp0 in
  GetDatabaseResponse_InstanceMeta (fst got) = CreateDatabaseResponse_InstanceMeta resp /\
  (exists signee, GetLocalPublicKey env = Ok signee /\
     GetDatabaseResponse_Signee (fst got) = Some signee) /\
  (forall e, snd got = Some e ->
     exists privateKey r, GetDatabaseResponse_Sign q privateKey r = Err e).
Proof.
  intros Hrun Hres Hverify Hid.
  destruct (CreateDatabase_Done_inv _ _ _ _ _ _ _ Hrun Hres)
    as (dbID & peers & genesis & nodes & sig & sigR & _ & Halloc & _ & _ & -> & ->).
  cbn in Hid. cbn [Run_map CreateDatabaseResponse_InstanceMeta].
  destruct (allocateNodes env s 0 dbID _) as [r qs] eqn:Ha. cbn in Halloc. subst r.
  apply allocateNodes_Done in Ha as (_ & cur & excl & excl' & allocated & _ & _ & Hb).
  apply buildPeers_keys in Hb as (pubKey & privKey & Hpub & Hpriv).
  unfold GetDatabase, ServiceMap_Get, withMap. cbn [ServiceMap].
  rewrite Hverify, Hid, lookup_insert_eq, Hpub, Hpriv.
  destruct (GetDatabaseResponse_Sign q privKey _) as [gsig|e] eqn:Hsign; cbn.
  - split; [done|]. split; [by exists pubKey|]. done.
  - split; [done|]. split; [by exists pubKey|]. intros e' [= <-]. eauto.
Qed.

Lemma CreateDatabase_then_GetDatabase_witness :
  exists run resp,
    CreateDatabase Scenario.quietEnv Scenario.serviceS1 1 1 Scenario.requestS1 = Some run /\
    Run_result run = Done resp /\
    GetDatabaseResponse_InstanceMeta
      (fst (GetDatabase Scenario.quietEnv quietQuery
              (withMap Scenario.serviceS1 (Run_map run))
              (mkGetDatabaseRequest
                 (ServiceInstance_DatabaseID (CreateDatabaseResponse_InstanceMeta resp)))
              zeroResponse))
    = CreateDatabaseResponse_InstanceMeta resp.
Proof.
  eexists _, _. split; [vm_compute; reflexivity|]. split; [reflexivity|].
  eapply (CreateDatabase_then_GetDatabase Scenario.quietEnv quietQuery Scenario.serviceS1
            1 1 Scenario.requestS1).
  - vm_compute. reflexivity.
  - reflexivity.
  - reflexivity.
  - reflexivity.
Defined.

(** X19.  A successful [DropDatabase] of a database that a successful
    [CreateDatabase] has just registered sends its [DropDB] to exactly the
    miners that received the [CreateDB], in the same order, and leaves the
    service map as it was before the creation. *)
Theorem CreateDatabase_then_DropDatabase env s fuel mfuel req run resp dreq :
  CreateDatabase env s fuel mfuel req = Some run ->
  Run_result run = Done resp ->
  DropDatabaseRequest_DatabaseID dreq
    = ServiceInstance_DatabaseID (CreateDatabaseResponse_InstanceMeta resp) ->
  let dropped := DropDatabase env (withMap s (Run_map run)) dreq in
  Run_result dropped = Done tt ->
  Run_map dropped = ServiceMap s /\
  Call_target <$> Run_calls dropped = Call_target <$> Run_calls run.
Proof.
  intros Hrun Hres Hid dropped Hdrop. subst dropped.
  destruct (CreateDatabase_Done_inv _ _ _ _ _ _ _ Hrun Hres)
    as (dbID & peers & genesis & nodes & sig & sigR & Hgen & _ & Hnodes & _ & -> & ->).
  cbn in Hid. cbn [Run_map Run_calls] in *.
  apply generateDatabaseID_unused in Hgen.
  destruct (DropDatabase_Done_inv _ _ _ Hdrop)
    as (instance & nodes' & signee & priv & _ & Hget & _ & _ & Hnodes' & _ & ->).
  cbn [withMap ServiceMap Run_map Run_calls] in *.
  rewrite Hid in *. rewrite lookup_insert_eq in Hget. injection Hget as <-.
  cbn [ServiceInstance_Peers] in Hnodes'. rewrite Hnodes in Hnodes'. injection Hnodes' as <-.
  split; [by apply delete_insert_id|].
  by rewrite !deployCalls_targets.
Qed.

Lemma CreateDatabase_then_DropDatabase_witness :
  exists run resp,
    CreateDatabase Scenario.quietEnv Scenario.serviceS1 1 1 Scenario.requestS1 = Some run /\
    Run_result run = Done resp /\
    let dropped :=
      DropDatabase Scenario.quietEnv (withMap Scenario.serviceS1 (Run_map run))
        (mkDropDatabaseRequest
           (ServiceInstance_DatabaseID (CreateDatabaseResponse_InstanceMeta resp))) in
    Run_map dropped = ServiceMap Scenario.serviceS1 /\
    Call_target <$> Run_calls dropped = Call_target <$> Run_calls run.
Proof.
  eexists _, _. split; [vm_compute; reflexivity|]. split; [reflexivity|].
  eapply (CreateDatabase_then_DropDatabase Scenario.quietEnv Scenario.serviceS1
            1 1 Scenario.requestS1).
  - vm_compute. reflexivity.
  - reflexivity.
  - reflexivity.
  - vm_compute. reflexivity.
Defined.

End DBSEndpoints.

(** ** Further properties of the transaction envelope *)

Module TxWrapperExtra.

Import TxWrapper TxEncode TxWrapperFacts.

Section Codec.

Context {Transaction : Type}.
Context (TypeOf : Transaction -> rtype).
Context (GetTransactionType : Transaction -> Z).
Context (newPtr newValue : rtype -> Transaction).
Context (DecFallback : option Transaction -> msgpack -> result (option Transaction)).
Context (EncFallback : Transaction -> msgpack).
Context (ErrorIfNoField : bool).

Local Abbreviation decode :=
  (TxWrapper.CodecDecodeSelf Transaction newPtr newValue DecFallback ErrorIfNoField).
Local Abbreviation encode :=
  (TxEncode.CodecEncodeSelf Transaction GetTransactionType EncFallback).
Local Abbreviation newTx := (NewTransaction Transaction newPtr newValue).
Local Abbreviation register := (RegisterTransaction Transaction TypeOf).
Local Abbreviation fresh := (fun rt : rtype => if rt_isPtr rt then newPtr rt else newValue rt).

(** X20.  Encoding a wrapped transaction and decoding the result gives the
    transaction back, whenever its type tag fits 32 bits and is registered
    with a type that implements [Transaction] and is not the wrapper type, its
    body is not encoded as nil, and the codec reads the encoded body back
    into a fresh instance of the registered type. *)
Theorem CodecDecodeSelf_CodecEncodeSelf (reg : registry) (tx : Transaction) (rt : rtype) :
  0 <= GetTransactionType tx < 2 ^ 32 ->
  reg !! GetTransactionType tx = Some rt ->
  rt_implementsTx rt = true ->
  rtype_eqb rt txWrapperType = false ->
  EncFallback tx <> MNil ->
  DecFallback (Some (fresh rt)) (EncFallback tx) = Ok (Some tx) ->
  decode reg (encode (WrapTransaction Transaction (Some tx))) = Ok (Some tx).
Proof.
  intros Htag Hreg Himpl Hwrap Hbody Hcodec.
  unfold TxEncode.CodecEncodeSelf, WrapTransaction, TxWrapper.CodecDecodeSelf.
  cbn [ContainerType ReadArrayStart negb bindR decodeElems TryDecodeAsNil DecodeUint64].
  replace (valueTypeArray =? valueTypeArray) with true by reflexivity.
  cbn [negb bindR]. rewrite UintV_fits by done. cbn [bindR].
  rewrite (NewTransaction_registered newPtr newValue reg _ rt Hreg Himpl Hwrap).
  cbn [bindR].
  destruct (EncFallback tx) eqn:Henc; try done; cbn [negb]; rewrite Hcodec; done.
Qed.

(** X22.  After [RegisterTransaction] has stored a type under a tag,
    [NewTransaction] of that tag returns a fresh instance of the registered
    type (through a pointer for a pointer type), [NewTransaction] of every
    other tag answers as before, and the registry still never holds the
    wrapper type. *)
Theorem NewTransaction_RegisterTransaction (reg reg' : registry) (t : Z) (tx : Transaction) :
  registryOK reg ->
  rt_implementsTx (TypeOf tx) = true ->
  register t (Some tx) reg = Done reg' ->
  newTx reg' t = Ok (fresh (TypeOf tx)) /\
  (forall t', t' <> t -> newTx reg' t' = newTx reg t') /\
  registryOK reg'.
Proof.
  intros Hok Himpl Hreg. split; [|split].
  - unfold RegisterTransaction in Hreg.
    destruct (rtype_eqb (TypeOf tx) txWrapperType) eqn:Hw; [done|].
    injection Hreg as <-.
    apply NewTransaction_registered; [apply lookup_insert_eq|done|done].
  - intros t' Hne. unfold RegisterTransaction in Hreg.
    destruct (rtype_eqb (TypeOf tx) txWrapperType) eqn:Hw; [done|].
    injection Hreg as <-. unfold NewTransaction. by rewrite lookup_insert_ne.
  - by eapply RegisterTransaction_OK.
Qed.

(** X23.  [CodecDecodeSelf] never instantiates a type that is not
    registered: when it returns without error, the value is an array, and
    unless the array is empty (which yields a nil transaction) its first
    element is an unsigned integer below [2^32] that is the tag of a
    registered type implementing [Transaction] other than the wrapper
    type. *)
Theorem CodecDecodeSelf_Ok_registered (reg : registry) (v : msgpack)
    (r : option Transaction) :
  decode reg v = Ok r ->
  exists elems, v = MArray elems /\
    match elems with
    | [] => r = None
    | e :: _ =>
        exists tag rt,
          DecodeUint64 e = Ok tag /\ tag < 2 ^ 32 /\
          reg !! tag = Some rt /\
          rt_implementsTx rt = true /\ rtype_eqb rt txWrapperType = false
    end.
Proof.
  unfold TxWrapper.CodecDecodeSelf.
  destruct v as [| | | | | |elems|]; try done.
  cbn [ContainerType ReadArrayStart].
  replace (valueTypeArray =? valueTypeArray) with true by reflexivity.
  cbn [negb bindR]. intros Hdec. exists elems. split; [done|].
  destruct elems as [|e rest]; [by injection Hdec as <-|].
  cbn [decodeElems] in Hdec.
  destruct (TryDecodeAsNil e); [done|].
  destruct (DecodeUint64 e) as [tag|]; [|done]. cbn [bindR] in Hdec.
  unfold UintV in Hdec. destruct (Z.ltb_spec tag (2 ^ 32)); [|done]. cbn [bindR] in Hdec.
  unfold NewTransaction in Hdec.
  destruct (reg !! tag) as [rt|] eqn:Hreg; [|done].
  destruct (rt_implementsTx rt) eqn:Himpl; [|done].
  destruct (rtype_eqb rt txWrapperType) eqn:Hw; [done|].
  by exists tag, rt.
Qed.

Lemma decodeElems_extra reg i extra tx :
  (2 <= i)%nat ->
  decodeElems Transaction newPtr newValue DecFallback ErrorIfNoField reg i extra tx =
  if ErrorIfNoField
  then match extra with
       | [] => Ok tx
       | _ :: _ =>
           Err (ExtError "no matching struct field found when decoding stream array")
       end
  else Ok tx.
Proof.
  revert i. induction extra as [|e extra IH]; intros i Hi.
  - cbn. by destruct ErrorIfNoField.
  - destruct i as [|[|i]]; [lia|lia|]. cbn [decodeElems].
    rewrite IH by lia. unfold DecStructFieldNotFound. by destruct ErrorIfNoField.
Qed.

(** X24.  Elements of the array after the second never reach the
    transaction: when the first two elements decode, a longer array decodes
    to the same transaction if the handle does not ask for errors on unknown
    fields, and fails with the codec's error if it does. *)
Theorem CodecDecodeSelf_extra_elements (reg : registry) (e0 e1 x : msgpack)
    (extra : list msgpack) (r : option Transaction) :
  decode reg (MArray [e0; e1]) = Ok r ->
  decode reg (MArray (e0 :: e1 :: x :: extra)) =
  if ErrorIfNoField
  then Err (ExtError "no matching struct field found when decoding stream array")
  else Ok r.
Proof.
  unfold TxWrapper.CodecDecodeSelf.
  cbn [ContainerType ReadArrayStart].
  replace (valueTypeArray =? valueTypeArray) with true by reflexivity.
  cbn [negb bindR decodeElems].
  destruct (TryDecodeAsNil e0); [done|].
  destruct (DecodeUint64 e0) as [tag|]; [|done]. cbn [bindR].
  destruct (UintV tag 32) as [txType|]; [|done]. cbn [bindR].
  destruct (NewTransaction _ _ _ reg txType) as [t|]; [|done]. cbn [bindR].
  assert (Hrest : forall tx,
    bindR (DecStructFieldNotFound ErrorIfNoField 2)
      (fun _ => decodeElems Transaction newPtr newValue DecFallback ErrorIfNoField
                  reg 3 extra tx) =
    if ErrorIfNoField
    then Err (ExtError "no matching struct field found when decoding stream array")
    else Ok tx).
  { intros tx. rewrite decodeElems_extra by lia. unfold DecStructFieldNotFound.
    by destruct ErrorIfNoField. }
  destruct (TryDecodeAsNil e1); cbn [negb].
  - intros [= <-]. apply Hrest.
  - destruct (DecFallback (Some t) e1) as [tx'|]; [|done]. cbn [bindR].
    intros [= <-]. apply Hrest.
Qed.

End Codec.

Lemma CodecDecodeSelf_CodecEncodeSelf_witness :
  TxWrapper.CodecDecodeSelf string Scenario.zeroOf Scenario.zeroOf readBody false
    Scenario.registryS5
    (TxEncode.CodecEncodeSelf string tagOf bodyOf (WrapTransaction string (Some "transfer")))
  = Ok (Some "transfer").
Proof.
  apply (CodecDecodeSelf_CodecEncodeSelf tagOf Scenario.zeroOf Scenario.zeroOf readBody
           bodyOf false Scenario.registryS5 "transfer" Scenario.txS5).
  - unfold tagOf. lia.
  - reflexivity.
  - reflexivity.
  - reflexivity.
  - discriminate.
  - reflexivity.
Defined.

Lemma NewTransaction_RegisterTransaction_witness :
  exists reg',
    RegisterTransaction string (fun _ => Scenario.txS5) 7 (Some "transfer") ∅ = Done reg' /\
    NewTransaction string Scenario.zeroOf Scenario.zeroOf reg' 7 = Ok "*types.Transfer" /\
    (forall t', t' <> 7 ->
       NewTransaction string Scenario.zeroOf Scenario.zeroOf reg' t'
       = NewTransaction string Scenario.zeroOf Scenario.zeroOf ∅ t') /\
    registryOK reg'.
Proof.
  eexists. split; [reflexivity|].
  apply (NewTransaction_RegisterTransaction (fun _ => Scenario.txS5)
           Scenario.zeroOf Scenario.zeroOf ∅ _ 7 "transfer").
  - intros t rt Hlookup. by rewrite lookup_empty in Hlookup.
  - reflexivity.
  - reflexivity.
Defined.

Lemma CodecDecodeSelf_Ok_registered_witness :
  exists elems, MArray [MUint 7; MStr "transfer"] = MArray elems /\
    match elems with
    | [] => Some "transfer" = None
    | e :: _ =>
        exists tag rt,
          DecodeUint64 e = Ok tag /\ tag < 2 ^ 32 /\
          Scenario.registryS5 !! tag = Some rt /\
          rt_implementsTx rt = true /\ rtype_eqb rt txWrapperType = false
    end.
Proof.
  apply (CodecDecodeSelf_Ok_registered Scenario.zeroOf Scenario.zeroOf readBody false
           Scenario.registryS5 (MArray [MUint 7; MStr "transfer"]) (Some "transfer")).
  reflexivity.
Defined.

Lemma CodecDecodeSelf_extra_elements_witness :
  TxWrapper.CodecDecodeSelf string Scenario.zeroOf Scenario.zeroOf readBody false
    Scenario.registryS5 (MArray [MUint 7; MStr "transfer"; MStr "more"; MNil])
  = Ok (Some "transfer") /\
  TxWrapper.CodecDecodeSelf string Scenario.zeroOf Scenario.zeroOf readBody true
    Scenario.registryS5 (MArray [MUint 7; MStr "transfer"; MStr "more"; MNil])
  = Err (ExtError "no matching struct field found when decoding stream array").
Proof.
  split.
  - apply (CodecDecodeSelf_extra_elements Scenario.zeroOf Scenario.zeroOf readBody false
             Scenario.registryS5 (MUint 7) (MStr "transfer") (MStr "more") [MNil]
             (Some "transfer")).
    reflexivity.
  - apply (CodecDecodeSelf_extra_elements Scenario.zeroOf Scenario.zeroOf readBody true
             Scenario.registryS5 (MUint 7) (MStr "transfer") (MStr "more") [MNil]
             (Some "transfer")).
    reflexivity.
Defined.

End TxWrapperExtra.

(** ** Further properties of the RPC client *)

Module RPCDialFacts.

Import RPCClient RPCDial.

Section DialToNode.

Context {Conn Cipher Key Session Stream : Type}.
Context (net : Net Conn) (dir : @Directory Conn Cipher Key Session Stream).

Lemma dial_Some network address remoteNodeID (cipher : Cipher) isAnonymous c err :
  dial net network address remoteNodeID cipher isAnonymous = (Some c, err) ->
  err = None /\
  exists conn writeBuf,
    net_Dial net network address = Ok conn /\
    prelude net isAnonymous = Ok writeBuf /\
    conn_Write net conn writeBuf = (Z.of_nat (length writeBuf), None) /\
    c = NewConn conn cipher remoteNodeID.
Proof.
  unfold dial.
  destruct (net_Dial net network address) as [conn|]; [|done].
  destruct (prelude net isAnonymous) as [writeBuf|]; [|done].
  destruct (conn_Write net conn writeBuf) as [wrote werr] eqn:Hwrite.
  case_bool_decide as Herr; cbn [orb]; [done|].
  destruct (Z.eqb_spec wrote (Z.of_nat (length writeBuf))) as [->|]; cbn [negb]; [|done].
  intros [= <- <-].
  assert (werr = None) as -> by (destruct werr; [by destruct Herr|done]).
  split; [done|]. by exists conn, writeBuf.
Qed.

(** X25.  A connection that [dialToNodeEx] returns wraps the socket dialled
    over TCP at the address the directory resolves for the raw identifier of
    the node, with the cipher made from the secret shared with that node and
    with that raw identifier; the whole prelude was written to the socket
    before, and no error comes with the connection. *)
Theorem dialToNodeEx_conn (nodeID : string) (isAnonymous : bool)
    (c : CryptoConn Conn Cipher) (err : option error) :
  dialToNodeEx net dir nodeID isAnonymous = (Some c, err) ->
  err = None /\
  exists symmetricKey nodeAddr conn writeBuf,
    let rawNodeID := ToRawNodeID dir nodeID in
    GetSharedSecretWith dir rawNodeID isAnonymous = Ok symmetricKey /\
    GetNodeAddr dir rawNodeID = Ok nodeAddr /\
    net_Dial net "tcp" nodeAddr = Ok conn /\
    prelude net isAnonymous = Ok writeBuf /\
    conn_Write net conn writeBuf = (Z.of_nat (length writeBuf), None) /\
    c = NewConn conn (NewCipher dir symmetricKey) rawNodeID.
Proof.
  unfold dialToNodeEx.
  destruct (GetSharedSecretWith dir _ isAnonymous) as [symmetricKey|] eqn:Hkey; [|done].
  destruct (GetNodeAddr dir _) as [nodeAddr|] eqn:Haddr; [|done].
  intros Hdial. apply dial_Some in Hdial as (-> & conn & writeBuf & Hd & Hp & Hw & ->).
  split; [done|]. by exists symmetricKey, nodeAddr, conn, writeBuf.
Qed.

(** X26.  When the socket accepts only a part of the prelude and reports no
    error, [dialToNodeEx] returns neither a connection nor an error, and a
    [DialToNode] that does not go through the pool hands that nil connection
    to the stream multiplexer instead of failing. *)
Theorem DialToNode_short_write (nodeID : string) (isAnonymous : bool)
    (pool : option (string -> option Stream * option error))
    (symmetricKey : Key) (nodeAddr : string) (conn : Conn) (writeBuf : list Z) (wrote : Z) :
  GetSharedSecretWith dir (ToRawNodeID dir nodeID) isAnonymous = Ok symmetricKey ->
  GetNodeAddr dir (ToRawNodeID dir nodeID) = Ok nodeAddr ->
  net_Dial net "tcp" nodeAddr = Ok conn ->
  prelude net isAnonymous = Ok writeBuf ->
  conn_Write net conn writeBuf = (wrote, None) ->
  wrote <> Z.of_nat (length writeBuf) ->
  pool = None \/ isAnonymous = true ->
  dialToNodeEx net dir nodeID isAnonymous = (None, None) /\
  DialToNode net dir nodeID pool isAnonymous =
    match yamux_Client dir None with
    | Err e => (None, Some e)
    | Ok sess => Session_Open dir sess
    end.
Proof.
  intros Hkey Haddr Hdial Hprelude Hwrite Hshort Hpool.
  assert (Hex : dialToNodeEx net dir nodeID isAnonymous = (None, None)).
  { unfold dialToNodeEx, dial. rewrite Hkey, Haddr, Hdial, Hprelude, Hwrite.
    rewrite bool_decide_eq_false_2 by (intros H; by apply H). cbn [orb].
    destruct (Z.eqb_spec wrote (Z.of_nat (length writeBuf))); [done|]. done. }
  split; [done|]. unfold DialToNode. rewrite Hex.
  destruct Hpool as [->| ->]; [done|]. by destruct pool.
Qed.

End DialToNode.

Lemma dialToNodeEx_conn_witness :
  dialToNodeEx Scenario.netGood plainDirectory "node-9" false
    = (Some (NewConn tt "aes:shared-secret" (replicate 32 9)), None) /\
  exists symmetricKey nodeAddr conn writeBuf,
    GetSharedSecretWith plainDirectory (replicate 32 9) false = Ok symmetricKey /\
    GetNodeAddr plainDirectory (replicate 32 9) = Ok nodeAddr /\
    net_Dial Scenario.netGood "tcp" nodeAddr = Ok conn /\
    prelude Scenario.netGood false = Ok writeBuf /\
    conn_Write Scenario.netGood conn writeBuf = (Z.of_nat (length writeBuf), None) /\
    NewConn tt "aes:shared-secret" (replicate 32 9)
      = NewConn conn (NewCipher plainDirectory symmetricKey) (replicate 32 9).
Proof.
  split; [reflexivity|].
  apply (dialToNodeEx_conn Scenario.netGood plainDirectory "node-9" false
           (NewConn tt "aes:shared-secret" (replicate 32 9)) None).
  reflexivity.
Defined.

Lemma DialToNode_short_write_witness :
  dialToNodeEx Scenario.netSilentShort plainDirectory "node-9" false = (None, None) /\
  DialToNode Scenario.netSilentShort plainDirectory "node-9" None false
    = (Some "stream", None).
Proof.
  apply (DialToNode_short_write Scenario.netSilentShort plainDirectory "node-9" false None
           "shared-secret" "10.250.100.2:2144" tt
           (replicate 32 1 ++ Uint256_Bytes 5)%list 10).
  - reflexivity.
  - reflexivity.
  - reflexivity.
  - reflexivity.
  - reflexivity.
  - vm_compute. discriminate.
  - by left.
Defined.

End RPCDialFacts.

(** ** Further properties of the DSN *)

Module DSNExtra.

Import DSN DSNMore DSNFacts.

(** An unreserved byte is none of the bytes the URL syntax gives a meaning
    to, and it is written as it is in a host and in a path. *)
Lemma isUnreserved_plain c :
  isUnreserved c = true ->
  shouldEscape c encodeHost = false /\ shouldEscape c encodePath = false /\
  Ascii.eqb c "%" = false /\ Ascii.eqb c "+" = false /\ isCTL c = false /\
  Ascii.eqb c "[" = false /\ Ascii.eqb c ":" = false.
Proof.
  destruct c as [[] [] [] [] [] [] [] []]; vm_compute; intros; repeat split; congruence.
Qed.

Lemma isQueryByte_plain c :
  isQueryByte c = true ->
  isCTL c = false /\ Ascii.eqb c "#" = false /\ Ascii.eqb c "?" = false.
Proof.
  destruct c as [[] [] [] [] [] [] [] []]; vm_compute; intros; repeat split; congruence.
Qed.

Lemma isUnreserved_isQueryByte s :
  isUnreservedString s = true -> string_forallb isQueryByte s = true.
Proof.
  apply forallb_impl. intros c Hc. unfold isQueryByte. by rewrite Hc.
Qed.

Lemma escape_unreserved s mode :
  (mode = encodeHost \/ mode = encodePath) ->
  isUnreservedString s = true -> escape s mode = s.
Proof.
  intros Hmode. unfold isUnreservedString. induction s as [|a r IH]; simpl; [done|].
  intros [Ha Hr]%andb_true_iff. destruct (isUnreserved_plain a Ha) as (Hh & Hp & _).
  destruct Hmode as [-> | ->]; [rewrite Hh|rewrite Hp]; by rewrite IH.
Qed.

Lemma unescape_unreserved s mode :
  (mode = encodeHost \/ mode = encodePath) ->
  isUnreservedString s = true -> unescape s mode = Ok s.
Proof.
  intros Hmode. unfold isUnreservedString. induction s as [|a r IH]; [done|].
  intros [Ha Hr]%andb_true_iff.
  destruct (isUnreserved_plain a Ha) as (He & _ & Hp & Hplus & _).
  cbn [unescape]. rewrite Hp, Hplus. cbn [andb].
  destruct Hmode as [-> | ->]; cbn [isHostMode andb].
  - rewrite He, andb_false_r. by rewrite IH.
  - by rewrite IH.
Qed.

Lemma unreserved_prefix_bracket s : isUnreservedString s = true -> HasPrefix s "[" = false.
Proof.
  destruct s as [|a r]; [done|]. unfold isUnreservedString. simpl.
  intros [Ha _]%andb_true_iff.
  destruct (isUnreserved_plain a Ha) as (_ & _ & _ & _ & _ & Hb & _). by rewrite Hb.
Qed.

Lemma unreserved_prefix_slash s : isUnreservedString s = true -> HasPrefix s "/" = false.
Proof.
  destruct s as [|a r]; [done|]. unfold isUnreservedString. simpl.
  intros [Ha _]%andb_true_iff.
  destruct a as [[] [] [] [] [] [] [] []]; try done.
Qed.

Lemma parseAuthority_unreserved id :
  isUnreservedString id = true -> parseAuthority id = Ok (None, id).
Proof.
  intros Hid. unfold parseAuthority, parseHost.
  rewrite (forallb_cutLastByte isUnreserved) by done.
  rewrite unreserved_prefix_bracket by done.
  rewrite (forallb_cutLastByte isUnreserved) by done.
  by rewrite unescape_unreserved by (done || by left).
Qed.

Lemma parseHier_dsn id force query :
  isUnreservedString id = true ->
  parseHier "covenantsql" (String "/" (String "/" id)) force query =
  Ok (mkURL "covenantsql" "" None id "" "" force query "").
Proof.
  intros Hid. unfold parseHier.
  replace (HasPrefix (String "/" (String "/" id)) "/") with true by reflexivity.
  replace (HasPrefix (String "/" (String "/" id)) "//") with true by reflexivity.
  cbn [negb andb orb String.eqb Ascii.eqb].
  replace (String.length (String "/" (String "/" id)) - 2)%nat
    with (String.length id) by (simpl; lia).
  change (substring 2 (String.length id) (String "/" (String "/" id)))
    with (substring 0 (String.length id) id).
  rewrite substring_all, (forallb_cutByte isUnreserved) by done.
  rewrite parseAuthority_unreserved by done. reflexivity.
Qed.

(** The text after the scheme, with and without a query. *)
Lemma splitQuery_plain s :
  string_forallb isQueryByte s = true ->
  splitQuery (String "/" (String "/" s)) = (String "/" (String "/" s), false, "").
Proof.
  intros Hs. unfold splitQuery. cbn [countByte cutByte].
  assert (Hq : isQueryByte "?" = false) by reflexivity.
  rewrite (forallb_countByte isQueryByte), (forallb_cutByte isQueryByte) by done.
  replace (Nat.eqb _ 1) with false by reflexivity.
  by rewrite andb_false_r.
Qed.

Lemma cutByte_app p c a b :
  string_forallb p a = true -> p c = false ->
  cutByte c (a ++ String c b) = Some (a, b).
Proof.
  intros Ha Hc. induction a as [|x a IH].
  - rewrite append_Empty. cbn [cutByte]. by rewrite Ascii.eqb_refl.
  - cbn [string_forallb] in Ha. apply andb_true_iff in Ha as [Hx Ha].
    rewrite append_String. cbn [cutByte].
    destruct (Ascii.eqb_spec x c) as [->|_]; [congruence|]. by rewrite IH.
Qed.

Lemma countByte_app c a b : countByte c (a ++ b) = (countByte c a + countByte c b)%nat.
Proof.
  induction a as [|x a IH]; [done|]. rewrite append_String. cbn [countByte].
  rewrite IH. lia.
Qed.

Lemma lastByte_app a x b : lastByte (a ++ String x b) = lastByte (String x b).
Proof.
  induction a as [|y a IH]; [done|]. rewrite append_String.
  cbn [lastByte]. rewrite IH. by destruct a.
Qed.

Lemma lastByte_forallb p s c :
  string_forallb p s = true -> lastByte s = Some c -> p c = true.
Proof.
  induction s as [|x s IH]; [done|]. cbn [string_forallb].
  intros [Hx Hs]%andb_true_iff. destruct s as [|y s]; [by intros [= <-]|].
  intros Hl. by apply IH.
Qed.

Lemma dropLastByte_app a x : dropLastByte (a ++ String x "") = a.
Proof.
  induction a as [|y a IH]; [done|]. rewrite append_String.
  cbn [dropLastByte]. rewrite IH. by destruct a.
Qed.

Lemma splitQuery_query id q :
  isUnreservedString id = true ->
  string_forallb isQueryByte q = true ->
  exists force,
    splitQuery (String "/" (String "/" (id ++ String "?" q)))
    = (String "/" (String "/" id), force, q).
Proof.
  intros Hid Hq. unfold splitQuery.
  assert (Hcut : cutByte "?" (String "/" (String "/" (id ++ String "?" q)))
                 = Some (String "/" (String "/" id), q)).
  { cbn [cutByte Ascii.eqb Bool.eqb].
    by rewrite (cutByte_app isQueryByte) by (done || by apply isUnreserved_isQueryByte). }
  assert (Hcount : countByte "?" (String "/" (String "/" (id ++ String "?" q))) = 1%nat).
  { cbn [countByte Ascii.eqb Bool.eqb]. rewrite countByte_app. cbn [countByte].
    rewrite Ascii.eqb_refl.
    rewrite (forallb_countByte isQueryByte) by (done || by apply isUnreserved_isQueryByte).
    by rewrite (forallb_countByte isQueryByte) by done. }
  rewrite Hcut, Hcount. cbn [Nat.eqb]. rewrite andb_true_r.
  change (String "/" (String "/" (id ++ String "?" q)))
    with (("//" ++ id) ++ String "?" q) at 1.
  rewrite <- append_String, <- append_String.
  rewrite lastByte_app.
  destruct q as [|x q].
  - exists true. cbn [lastByte]. rewrite Ascii.eqb_refl.
    rewrite dropLastByte_app. reflexivity.
  - exists false.
    destruct (lastByte (String "?" (String x q))) as [c|] eqn:Hlast; [|done].
    assert (Hc : isQueryByte c = true).
    { apply (lastByte_forallb isQueryByte (String x q)); [done|].
      cbn [lastByte] in Hlast. exact Hlast. }
    destruct (isQueryByte_plain c Hc) as (_ & _ & ->). done.
Qed.

Lemma no_fragment s :
  string_forallb isQueryByte s = true -> cutByte "#" ("covenantsql://" ++ s) = None.
Proof.
  intros Hs. apply (forallb_cutByte (fun c => negb (Ascii.eqb c "#"))); [|done].
  rewrite forallb_app. apply andb_true_iff. split; [reflexivity|].
  eapply forallb_impl; [|exact Hs].
  intros c Hc. by destruct (isQueryByte_plain c Hc) as (_ & -> & _).
Qed.

Lemma no_control s :
  string_forallb isQueryByte s = true ->
  string_forallb (fun c => negb (isCTL c)) ("covenantsql://" ++ s) = true.
Proof.
  intros Hs. rewrite forallb_app. apply andb_true_iff. split; [reflexivity|].
  eapply forallb_impl; [|exact Hs].
  intros c Hc. by destruct (isQueryByte_plain c Hc) as (-> & _).
Qed.

Lemma url_Parse_unreserved id :
  isUnreservedString id = true ->
  url_Parse ("covenantsql://" ++ id) =
  Ok (mkURL "covenantsql" "" None id "" "" false "" "").
Proof.
  intros Hid. pose proof (isUnreserved_isQueryByte id Hid) as Hq.
  unfold url_Parse. rewrite no_fragment by done. unfold parse. rewrite no_control by done.
  rewrite !append_String, append_Empty.
  rewrite getScheme_dsn. cbn [negb bindR String.eqb Ascii.eqb Bool.eqb].
  rewrite splitQuery_plain by done.
  change (ToLower "covenantsql") with "covenantsql".
  by rewrite parseHier_dsn.
Qed.

Lemma query_no_control_no_fragment id q :
  isUnreservedString id = true -> string_forallb isQueryByte q = true ->
  string_forallb (fun c => negb (isCTL c)) ("covenantsql://" ++ id ++ String "?" q) = true /\
  cutByte "#" ("covenantsql://" ++ id ++ String "?" q) = None.
Proof.
  intros Hid Hq.
  pose proof (isUnreserved_isQueryByte id Hid) as Hidq.
  split.
  - rewrite !forallb_app. cbn [string_forallb].
    apply andb_true_iff. split; [reflexivity|].
    apply andb_true_iff. split.
    + eapply forallb_impl; [|exact Hidq].
      intros c Hc. by destruct (isQueryByte_plain c Hc) as (-> & _).
    + apply andb_true_iff. split; [reflexivity|].
      eapply forallb_impl; [|exact Hq].
      intros c Hc. by destruct (isQueryByte_plain c Hc) as (-> & _).
  - apply (forallb_cutByte (fun c => negb (Ascii.eqb c "#"))); [|done].
    rewrite !forallb_app. cbn [string_forallb].
    apply andb_true_iff. split; [reflexivity|].
    apply andb_true_iff. split.
    + eapply forallb_impl; [|exact Hidq].
      intros c Hc. by destruct (isQueryByte_plain c Hc) as (_ & -> & _).
    + apply andb_true_iff. split; [reflexivity|].
      eapply forallb_impl; [|exact Hq].
      intros c Hc. by destruct (isQueryByte_plain c Hc) as (_ & -> & _).
Qed.

Lemma FormatDSN_unreserved id :
  isUnreservedString id = true -> id <> "" ->
  FormatDSN (mkConfig id) = "covenantsql://" ++ id.
Proof.
  intros Hid Hne. unfold FormatDSN, url_String.
  cbn [Scheme Opaque User Host Path RawPath ForceQuery RawQuery Fragment].
  destruct id as [|a r]; [done|]. rewrite escape_unreserved by (done || by left).
  change (String.eqb (String a r) "") with false. cbn [negb orb andb escape].
  change (String.eqb DBScheme "") with false. change (String.eqb "" "") with true.
  cbn [negb orb andb]. rewrite !append_empty_r. reflexivity.
Qed.

(** X27.  The round trip through the DSN holds for every database
    identifier that is a non-empty string of unreserved URL bytes (letters,
    digits, [-], [_], [.] and [~]): formatting writes it after
    [covenantsql://] without escapes and parsing gives the configuration
    back, whatever the scheme alias is. *)
Theorem ParseDSN_FormatDSN_unreserved (alias : string) (cfg : Config) :
  isUnreservedString (DatabaseID cfg) = true ->
  DatabaseID cfg <> "" ->
  FormatDSN cfg = "covenantsql://" ++ DatabaseID cfg /\
  ParseDSN alias (FormatDSN cfg) = Ok cfg.
Proof.
  destruct cfg as [id]. cbn [DatabaseID]. intros Hid Hne.
  rewrite FormatDSN_unreserved by done. split; [done|]. unfold ParseDSN.
  replace (HasPrefix ("covenantsql://" ++ id) DBScheme) with true by reflexivity.
  cbn [negb andb]. by rewrite url_Parse_unreserved.
Qed.

Lemma ParseDSN_FormatDSN_unreserved_witness :
  FormatDSN (mkConfig "my-db_01.test~") = "covenantsql://my-db_01.test~" /\
  ParseDSN "cql" (FormatDSN (mkConfig "my-db_01.test~")) = Ok (mkConfig "my-db_01.test~").
Proof.
  apply (ParseDSN_FormatDSN_unreserved "cql" (mkConfig "my-db_01.test~")).
  - reflexivity.
  - discriminate.
Defined.

Lemma getSchemeFrom_unreserved first s :
  isUnreservedString s = true -> getSchemeFrom first s = Ok None.
Proof.
  unfold isUnreservedString. revert first. induction s as [|c r IH]; intros first; [done|].
  cbn [string_forallb getSchemeFrom]. intros [Hc Hr]%andb_true_iff.
  destruct (isUnreserved_plain c Hc) as (_ & _ & _ & _ & _ & _ & Hcolon).
  rewrite Hcolon.
  destruct (isAlpha c); [by rewrite IH|].
  destruct (_ || _)%bool; [|done].
  destruct first; [done|]. by rewrite IH.
Qed.

Lemma containsByte_unreserved c s :
  isUnreserved c = false -> isUnreservedString s = true -> containsByte c s = false.
Proof.
  intros Hc Hs. unfold containsByte. apply negb_false_iff.
  eapply forallb_impl; [|exact Hs].
  intros a Ha. apply negb_true_iff. destruct (Ascii.eqb_spec a c) as [->|]; [congruence|done].
Qed.

Lemma String_eqb_refl s : String.eqb s s = true.
Proof. by apply String.eqb_eq. Qed.

Lemma url_Parse_path s :
  isUnreservedString s = true ->
  url_Parse s = Ok (mkURL "" "" None "" s "" false "" "").
Proof.
  intros Hs. pose proof (isUnreserved_isQueryByte s Hs) as Hq.
  unfold url_Parse.
  rewrite (forallb_cutByte isQueryByte) by done.
  unfold parse.
  assert (Hctl : string_forallb (fun c => negb (isCTL c)) s = true).
  { eapply forallb_impl; [|exact Hq].
    intros c Hc. by destruct (isQueryByte_plain c Hc) as (-> & _). }
  rewrite Hctl. cbn [negb].
  assert (Hstar : String.eqb s "*" = false).
  { apply String.eqb_neq. intros ->. done. }
  rewrite Hstar. unfold getScheme. rewrite getSchemeFrom_unreserved by done.
  cbn [bindR]. unfold splitQuery.
  rewrite (forallb_countByte isQueryByte), (forallb_cutByte isQueryByte) by done.
  cbn [Nat.eqb]. rewrite andb_false_r.
  change (ToLower "") with "". unfold parseHier.
  rewrite unreserved_prefix_slash by done.
  change (String.eqb "" "") with true. cbn [negb andb orb].
  rewrite (forallb_cutByte isUnreserved) by done.
  rewrite containsByte_unreserved by done.
  assert (Hslashes : HasPrefix s "//" = false).
  { destruct s as [|a r]; [done|]. cbn [HasPrefix].
    pose proof (unreserved_prefix_slash (String a r) Hs) as Hp. cbn [HasPrefix] in Hp.
    rewrite andb_true_r in Hp. by rewrite Hp. }
  rewrite Hslashes. rewrite andb_false_r. cbn [bindR].
  rewrite unescape_unreserved by (done || by right). cbn [bindR].
  rewrite escape_unreserved by (done || by right).
  by rewrite String_eqb_refl.
Qed.

(** X28.  A DSN that is only a string of unreserved bytes is taken as the
    database identifier when it begins neither with the scheme name nor with
    the alias; when it does begin with one of them (no [://] is asked for) it
    is parsed as it stands, as a path, and the configuration returned without
    error has an empty database identifier. *)
Theorem ParseDSN_prefix_test (alias s : string) :
  isUnreservedString s = true ->
  ParseDSN alias s =
  Ok (mkConfig (if (HasPrefix s DBScheme || HasPrefix s alias)%bool then "" else s)).
Proof.
  intros Hs. unfold ParseDSN.
  destruct (HasPrefix s DBScheme); cbn [negb andb orb].
  - by rewrite url_Parse_path.
  - destruct (HasPrefix s alias); cbn [negb].
    + by rewrite url_Parse_path.
    + change (DBScheme ++ "://" ++ s) with ("covenantsql://" ++ s).
      by rewrite url_Parse_unreserved.
Qed.

Lemma ParseDSN_prefix_test_witness :
  ParseDSN "cql" "0a1b2c" = Ok (mkConfig "0a1b2c") /\
  ParseDSN "cql" "covenantsql-0a1b2c" = Ok (mkConfig "") /\
  ParseDSN "cql" "cql0a1b2c" = Ok (mkConfig "").
Proof.
  split; [|split].
  - apply (ParseDSN_prefix_test "cql" "0a1b2c"). reflexivity.
  - apply (ParseDSN_prefix_test "cql" "covenantsql-0a1b2c"). reflexivity.
  - apply (ParseDSN_prefix_test "cql" "cql0a1b2c"). reflexivity.
Defined.

(** X29.  The configuration keeps nothing of the query of a DSN: with an
    identifier of unreserved bytes and a query of unreserved bytes, [=] and
    [&] after the question mark, [ParseDSN] returns the configuration of the
    identifier alone. *)
Theorem ParseDSN_ignores_query (alias id q : string) :
  isUnreservedString id = true ->
  string_forallb isQueryByte q = true ->
  ParseDSN alias ("covenantsql://" ++ id ++ "?" ++ q) = Ok (mkConfig id).
Proof.
  intros Hid Hq. unfold ParseDSN.
  replace (HasPrefix ("covenantsql://" ++ id ++ "?" ++ q) DBScheme) with true by reflexivity.
  cbn [negb andb].
  change ("?" ++ q) with (String "?" q).
  destruct (query_no_control_no_fragment id q Hid Hq) as [Hctl Hfrag].
  unfold url_Parse. rewrite Hfrag. unfold parse. rewrite Hctl.
  rewrite !append_String, append_Empty.
  assert (Hstar : forall r, String.eqb (String "c" r) "*" = false)
    by (intros r; reflexivity).
  rewrite Hstar. cbn [negb].
  rewrite getScheme_dsn. cbn [bindR].
  destruct (splitQuery_query id q Hid Hq) as [force ->].
  change (ToLower "covenantsql") with "covenantsql".
  by rewrite parseHier_dsn.
Qed.

Lemma ParseDSN_ignores_query_witness :
  ParseDSN "cql" ("covenantsql://" ++ "0a1b2c" ++ "?" ++ "timeout=30&retry=2")
  = Ok (mkConfig "0a1b2c").
Proof.
  apply (ParseDSN_ignores_query "cql" "0a1b2c" "timeout=30&retry=2").
  - reflexivity.
  - reflexivity.
Defined.

End DSNExtra.

(** ** cql-utils *)

Module CqlUtilsFacts.

Import CqlUtils.

Lemma isEmpty_false s : s <> "" -> isEmpty s = false.
Proof. intros Hs. unfold isEmpty. by apply String.eqb_neq. Qed.

(** X30.  With a private key file named (the flag defaults to
    [private.key]), [main] never stops on a missing flag: it runs the tool
    when [-tool] is one of the eight names the usage text lists, and prints
    the usage and exits for every other value, the empty default
    included. *)
Theorem main_dispatch (tool publicKeyHex privateKeyFile : string) :
  privateKeyFile <> "" ->
  main tool publicKeyHex privateKeyFile =
  if bool_decide (tool ∈ listedTools) then Run tool else UsageExit.
Proof.
  intros Hpriv. unfold main. rewrite (isEmpty_false _ Hpriv).
  rewrite andb_false_r. cbn [andb].
  destruct (String.eqb_spec tool "miner") as [->|H1]; [done|].
  destruct (String.eqb_spec tool "keygen") as [->|H2]; [done|].
  destruct (String.eqb_spec tool "keytool") as [->|H3]; [done|].
  destruct (String.eqb_spec tool "rpc") as [->|H4]; [done|].
  destruct (String.eqb_spec tool "nonce") as [->|H5]; [done|].
  destruct (String.eqb_spec tool "confgen") as [->|H6]; [done|].
  destruct (String.eqb_spec tool "adapterconfgen") as [->|H7]; [done|].
  destruct (String.eqb_spec tool "addrgen") as [->|H8]; [done|].
  rewrite bool_decide_eq_false_2; [done|].
  unfold listedTools. intros Hin.
  repeat (apply elem_of_cons in Hin as [->|Hin]; [done|]).
  by apply elem_of_nil in Hin.
Qed.

Lemma main_dispatch_witness :
  main "addrgen" defaultPublicKeyHex defaultPrivateKeyFile = Run "addrgen" /\
  main defaultTool defaultPublicKeyHex defaultPrivateKeyFile = UsageExit.
Proof.
  split.
  - apply (main_dispatch "addrgen" defaultPublicKeyHex defaultPrivateKeyFile). discriminate.
  - apply (main_dispatch defaultTool defaultPublicKeyHex defaultPrivateKeyFile). discriminate.
Defined.

End CqlUtilsFacts.
